(** * VisionPulse: ground-truth annotation store and true-metrics engine

    A shallow embedding of the validation router
    ([backend/app/routers/validation.py]), of the box identifiers assigned by
    the inference router ([backend/app/routers/inference.py]) and of the
    metrics aggregation ([backend/app/utils/true_metrics.py]), followed by the
    properties of the specification that were checked against them.  The
    schema validators ([backend/app/schemas/validation.py]), the helper
    [update_box_validation], the recording of a detector run and the reading
    of a session are embedded as well, with the properties that the code
    itself shows.

    Conventions of the embedding.
    - Python [str] values are Rocq strings: the bytes of the UTF-8 encoding
      of the text.  Substring search, [rsplit], concatenation and equality
      against the ASCII separator agree on both views; [int(...)] decodes
      the code points, since it also reads the decimal digits and the blanks
      of Unicode beyond ASCII.  The blanks, the pattern and the length limits
      of the schemas are taken on ASCII text.
    - Python [float] values are IEEE 754 doubles, modelled by the rational
      number they denote ([Q]).  Each arithmetic operation rounds its exact
      result to the nearest double ([PyFloat.fl]), and [round(x, n)] goes
      through the nearest decimal with [n] places.  Counts are [nat].
    - The JSON document of a session is the record [Session]; the directory of
      session files is a finite map from session identifiers to documents.
      The handlers rebuild every stored box as a [GroundTruthBox], which
      fails on a box that the schema refuses ([load_boxes]).
    - A raised exception is a value of [exn]; every handler below runs after
      the session identifier has been accepted by [validate_session_id]. *)

From Stdlib Require Import String Ascii ZArith QArith Qround List Bool Lia.
From Stdlib Require Import DecimalString DecimalNat Lqa Qpower.
From stdpp Require Import base option list gmap strings.

Local Open Scope string_scope.
Local Open Scope Z_scope.

(** ** Python string primitives *)

Module PyStr.

(** [sep in s] *)
Fixpoint contains (sep s : string) : bool :=
  String.prefix sep s ||
  match s with
  | EmptyString => false
  | String _ r => contains sep r
  end.

(** Drop the first [n] characters. *)
Fixpoint drop (n : nat) (s : string) : string :=
  match n, s with
  | O, _ => s
  | S n', String _ r => drop n' r
  | S _, EmptyString => EmptyString
  end.

(** [s.rsplit(sep, 1)] when [sep] occurs in [s]: the text before and after the
    occurrence of [sep] that starts furthest to the right.  [None] stands for
    the one-element list [[s]] that Python returns when [sep] does not occur. *)
Fixpoint rsplit1 (sep s : string) : option (string * string) :=
  match s with
  | EmptyString => None
  | String c r =>
      match rsplit1 sep r with
      | Some (h, t) => Some (String c h, t)
      | None =>
          if String.prefix sep s
          then Some (EmptyString, drop (String.length sep) s)
          else None
      end
  end.

(** The blanks that [str.strip] removes and that [\s] matches, on ASCII
    text: the ASCII part of [str.isspace]. *)
Definition is_space (c : ascii) : bool :=
  let n := nat_of_ascii c in
  ((9 <=? n)%nat && (n <=? 13)%nat) || ((28 <=? n)%nat && (n <=? 32)%nat).

Fixpoint lstrip (s : string) : string :=
  match s with
  | EmptyString => EmptyString
  | String c r => if is_space c then lstrip r else s
  end.

Fixpoint rstrip (s : string) : string :=
  match s with
  | EmptyString => EmptyString
  | String c r =>
      match rstrip r with
      | EmptyString => if is_space c then EmptyString else String c EmptyString
      | r' => String c r'
      end
  end.

Definition strip (s : string) : string := rstrip (lstrip s).

Definition digit_value (c : ascii) : option Z :=
  let n := nat_of_ascii c in
  if ((48 <=? n)%nat && (n <=? 57)%nat) then Some (Z.of_nat (n - 48)) else None.

(** *** [int(s)]

    CPython reads a [str] as an integer in two steps
    ([PyLong_FromUnicodeObject]): the text is first rewritten over ASCII,
    every character from 127 on becoming a space when it is a blank of the
    Unicode database, the ASCII digit of its value when it is a decimal digit
    of the database, and making the literal invalid otherwise; the ASCII
    text is then read by [PyLong_FromString], whose blanks are those of C's
    [isspace]. *)

(** Non-ASCII code points with the Unicode property White_Space. *)
Definition unicode_isspace (cp : N) : bool :=
  ((cp =? 133) || (cp =? 160) || (cp =? 5760) ||
   ((8192 <=? cp) && (cp <=? 8202)) || (cp =? 8232) || (cp =? 8233) ||
   (cp =? 8239) || (cp =? 8287) || (cp =? 12288))%N.

(** The code points of the digit zero of each decimal digit system of
    Unicode 14.0 (the database of CPython 3.11); the nine digits that follow
    each have the values 1 to 9. *)
Definition decimal_zeros : list N :=
  [ 48; 1632; 1776; 1984; 2406; 2534; 2662; 2790; 2918; 3046; 3174; 3302;
    3430; 3558; 3664; 3792; 3872; 4160; 4240; 6112; 6160; 6470; 6608; 6784;
    6800; 6992; 7088; 7232; 7248; 42528; 43216; 43264; 43472; 43504; 43600;
    44016; 65296; 66720; 68912; 69734; 69872; 69942; 70096; 70384; 70736;
    70864; 71248; 71360; 71472; 71904; 72016; 72784; 73040; 73120; 92768;
    92864; 93008; 120782; 120792; 120802; 120812; 120822; 123200; 123632;
    125264; 130032 ]%N.

(** [Py_UNICODE_TODECIMAL] *)
Definition unicode_todecimal (cp : N) : option N :=
  (fun zero => cp - zero)%N <$>
    List.find (fun zero => (zero <=? cp) && (cp <? zero + 10))%N decimal_zeros.

(** One character of [_PyUnicode_TransformDecimalAndSpaceToASCII]; [None]
    is the character that makes the literal invalid. *)
Definition to_ascii (cp : N) : option ascii :=
  if (cp <? 127)%N then Some (ascii_of_N cp)
  else if unicode_isspace cp then Some " "%char
  else (fun d => ascii_of_N (48 + d)) <$> unicode_todecimal cp.

(** The six bits of a continuation byte of UTF-8. *)
Definition continuation (c : ascii) : option N :=
  let n := N_of_ascii c in
  if ((128 <=? n) && (n <? 192))%N then Some (n - 128)%N else None.

(** The ASCII text that [int] reads, from the UTF-8 encoding of its
    argument: the code points are decoded one after the other (shortest
    encodings only, no surrogates, at most U+10FFFF) and each is rewritten by
    [to_ascii]. *)
Fixpoint transform (s : string) : option string :=
  let emit (cp : N) (rest : option string) : option string :=
    match to_ascii cp, rest with
    | Some c, Some t => Some (String c t)
    | _, _ => None
    end in
  match s with
  | EmptyString => Some EmptyString
  | String c0 r0 =>
      let n0 := N_of_ascii c0 in
      if (n0 <? 128)%N then emit n0 (transform r0)
      else if (n0 <? 192)%N then None
      else
        match r0 with
        | EmptyString => None
        | String c1 r1 =>
            match continuation c1 with
            | None => None
            | Some n1 =>
                if (n0 <? 224)%N then
                  let cp := ((n0 - 192) * 64 + n1)%N in
                  if (128 <=? cp)%N then emit cp (transform r1) else None
                else
                  match r1 with
                  | EmptyString => None
                  | String c2 r2 =>
                      match continuation c2 with
                      | None => None
                      | Some n2 =>
                          if (n0 <? 240)%N then
                            let cp := ((n0 - 224) * 4096 + n1 * 64 + n2)%N in
                            if ((2048 <=? cp) &&
                                negb ((55296 <=? cp) && (cp <? 57344)))%N
                            then emit cp (transform r2) else None
                          else
                            match r2 with
                            | EmptyString => None
                            | String c3 r3 =>
                                match continuation c3 with
                                | None => None
                                | Some n3 =>
                                    let cp := ((n0 - 240) * 262144 + n1 * 4096
                                               + n2 * 64 + n3)%N in
                                    if ((n0 <? 248) && (65536 <=? cp) &&
                                        (cp <? 1114112))%N
                                    then emit cp (transform r3) else None
                                end
                            end
                      end
                  end
            end
        end
  end.

(** C's [isspace] in the C locale ([Py_ISSPACE]). *)
Definition c_isspace (c : ascii) : bool :=
  let n := nat_of_ascii c in
  ((9 <=? n)%nat && (n <=? 13)%nat) || (n =? 32)%nat.

Fixpoint skip_spaces (s : string) : string :=
  match s with
  | EmptyString => EmptyString
  | String c r => if c_isspace c then skip_spaces r else s
  end.

Fixpoint all_spaces (s : string) : bool :=
  match s with
  | EmptyString => true
  | String c r => c_isspace c && all_spaces r
  end.

(** Digits after the first one, up to the blanks that may end the literal; a
    single underscore may separate two digits. [after_us] records that the
    previous character was one. *)
Fixpoint digits_from (s : string) (acc : Z) (after_us : bool) : option Z :=
  match s with
  | EmptyString => if after_us then None else Some acc
  | String c r =>
      match digit_value c with
      | Some d => digits_from r (10 * acc + d) false
      | None =>
          if Ascii.eqb c "_" then
            if after_us then None else digits_from r acc true
          else if negb after_us && all_spaces s then Some acc else None
      end
  end.

Definition digits (s : string) : option Z :=
  match s with
  | EmptyString => None
  | String c r =>
      match digit_value c with
      | Some d => digits_from r d false
      | None => None
      end
  end.

(** [PyLong_FromString] in base ten on ASCII text. *)
Definition long_from_string (s : string) : option Z :=
  match skip_spaces s with
  | String "-" r => Z.opp <$> digits r
  | String "+" r => digits r
  | t => digits t
  end.

(** [int(s)] in base ten; [None] is [ValueError].  The limit on the number
    of digits (4300 by default, which [f"{n}"] observes as well) is beyond
    the identifiers handled here. *)
Definition int (s : string) : option Z :=
  match transform s with
  | Some t => long_from_string t
  | None => None
  end.

(** [f"{n}"] for a non-negative integer. *)
Definition str_of_nat (n : nat) : string :=
  NilEmpty.string_of_uint (Nat.to_uint n).

End PyStr.

(** ** Exceptions and results *)

(** The fixed [detail] texts of the handlers. *)
Inductive detail : Type :=
| SessionNotFound
| ImageNotFound (image_id : string)
| BoxNotFound (box_id : string).

(** The exceptions the handlers raise.  [HTTPExceptionFrom c e] is
    [HTTPException(status_code=c, detail=f"...{str(e)}")], the exception a
    handler raises from an [except Exception as e] clause. *)
Inductive exn : Type :=
| ValueError (literal : string)
| IndexError
| ValidationError
| HTTPException (status_code : Z) (d : detail)
| HTTPExceptionFrom (status_code : Z) (e : exn).

Inductive result (A : Type) : Type :=
| Ok (a : A)
| Raise (e : exn).
Arguments Ok {A} a.
Arguments Raise {A} e.

(** ** Box addressing *)

Definition box_sep : string := "_box_".

(** [f"{image_id}_box_{idx}"] (inference.py:186, validation.py:297) *)
Definition format_box_id (image_id : string) (idx : nat) : string :=
  image_id ++ box_sep ++ PyStr.str_of_nat idx.

Inductive parsed_box_id : Type :=
| NoSeparator
| BadIndex (e : exn)
| Parsed (image_id : string) (box_index : Z).

(** validation.py:92-94.  [NoSeparator]: the guard [if '_box_' in box_id] is
    false.  [BadIndex e]: [int] (or the subscript [[1]]) raises [e]. *)
Definition parse_box_id (box_id : string) : parsed_box_id :=
  if PyStr.contains box_sep box_id then
    match PyStr.rsplit1 box_sep box_id with
    | Some (image_id_from_box, tail) =>
        match PyStr.int tail with
        | Some box_index => Parsed image_id_from_box box_index
        | None => BadIndex (ValueError tail)
        end
    | None => BadIndex IndexError
    end
  else NoSeparator.

(** ** Data model (schemas/validation.py and the stored JSON document) *)

Module BoxValidation.
Record t : Type := mk {
  box_id : string;
  is_correct : bool;
  confidence_override : option Q;
  notes : option string
}.
End BoxValidation.

Module GroundTruthBox.
Record t : Type := mk {
  x1 : Q; y1 : Q; x2 : Q; y2 : Q;
  confidence : Q;
  label : string;
  class_id : Z;
  box_id : option string;
  is_verified : bool;
  is_correct : bool;
  is_manual : bool;
  verified_at : option string;
  notes : option string
}.

Definition set_box_id (v : option string) (b : t) : t :=
  mk (x1 b) (y1 b) (x2 b) (y2 b) (confidence b) (label b) (class_id b)
     v (is_verified b) (is_correct b) (is_manual b) (verified_at b) (notes b).
Definition set_is_verified (v : bool) (b : t) : t :=
  mk (x1 b) (y1 b) (x2 b) (y2 b) (confidence b) (label b) (class_id b)
     (box_id b) v (is_correct b) (is_manual b) (verified_at b) (notes b).
Definition set_is_correct (v : bool) (b : t) : t :=
  mk (x1 b) (y1 b) (x2 b) (y2 b) (confidence b) (label b) (class_id b)
     (box_id b) (is_verified b) v (is_manual b) (verified_at b) (notes b).
Definition set_is_manual (v : bool) (b : t) : t :=
  mk (x1 b) (y1 b) (x2 b) (y2 b) (confidence b) (label b) (class_id b)
     (box_id b) (is_verified b) (is_correct b) v (verified_at b) (notes b).
Definition set_confidence (v : Q) (b : t) : t :=
  mk (x1 b) (y1 b) (x2 b) (y2 b) v (label b) (class_id b)
     (box_id b) (is_verified b) (is_correct b) (is_manual b) (verified_at b)
     (notes b).
Definition set_notes (v : option string) (b : t) : t :=
  mk (x1 b) (y1 b) (x2 b) (y2 b) (confidence b) (label b) (class_id b)
     (box_id b) (is_verified b) (is_correct b) (is_manual b) (verified_at b) v.
End GroundTruthBox.

(** The [yolo_metrics] dictionary: the three keys that are read, each present
    or absent. *)
Module YoloMetrics.
Record t : Type := mk {
  avg_confidence : option Q;
  box_count : option Z;
  fps : option Q
}.
Definition empty : t := mk None None None.
End YoloMetrics.

Module TrueMetrics.
Record t : Type := mk {
  true_positives : nat;
  false_positives : nat;
  false_negatives : nat;
  total_verified : nat;
  precision : Q;
  recall : Q;
  f1_score : Q;
  false_positive_rate : Q;
  yolo_avg_confidence : Q;
  yolo_box_count : Z;
  yolo_fps : Q
}.

Definition between (lo hi x : Q) : bool := Qle_bool lo x && Qle_bool x hi.

(** The [Field(ge=..., le=...)] constraints of the schema. *)
Definition constraints (m : t) : bool :=
  between 0 1 (precision m) && between 0 1 (recall m) &&
  between 0 1 (f1_score m) && between 0 100 (false_positive_rate m) &&
  between 0 1 (yolo_avg_confidence m) && (0 <=? yolo_box_count m) &&
  Qle_bool 0 (yolo_fps m).

(** [@validator('precision', 'recall', 'f1_score')] *)
Definition check_valid_metric (v : Q) : Q :=
  if negb (Qle_bool 0 v) || negb (Qle_bool v 1) then 0%Q else v.

(** [TrueMetrics(...)]: [None] is pydantic's [ValidationError]. *)
Definition new (m : t) : option t :=
  if constraints m then
    Some (mk (true_positives m) (false_positives m) (false_negatives m)
             (total_verified m)
             (check_valid_metric (precision m))
             (check_valid_metric (recall m))
             (check_valid_metric (f1_score m))
             (false_positive_rate m)
             (yolo_avg_confidence m) (yolo_box_count m) (yolo_fps m))
  else None.
End TrueMetrics.

Module ImageRecord.
Record t : Type := mk {
  image_id : string;
  timestamp : string;
  boxes : list GroundTruthBox.t;
  yolo_metrics : YoloMetrics.t
}.
Definition set_boxes (v : list GroundTruthBox.t) (i : t) : t :=
  mk (image_id i) (timestamp i) v (yolo_metrics i).
End ImageRecord.

Module Session.
Record t : Type := mk {
  session_id : string;
  images : list ImageRecord.t;
  true_metrics : option TrueMetrics.t
}.
Definition set_images (v : list ImageRecord.t) (s : t) : t :=
  mk (session_id s) v (true_metrics s).
Definition set_true_metrics (v : option TrueMetrics.t) (s : t) : t :=
  mk (session_id s) (images s) v.
End Session.

(** The directory [VALIDATION_DIR]: one document per session identifier. *)
Abbreviation store := (gmap string Session.t).

(** ** Schema validators (schemas/validation.py) *)

(** [v.replace(c, '')] for a one-character [c] *)
Fixpoint remove_char (c : ascii) (v : string) : string :=
  match v with
  | EmptyString => EmptyString
  | String a r =>
      if Ascii.eqb a c then remove_char c r else String a (remove_char c r)
  end.

(** The list [dangerous_chars] of line 27; the third one is the double
    quote. *)
Definition dangerous_chars : list ascii :=
  ["<"; ">"; ascii_of_nat 34; "'"; "\"; "/"; "&"]%char.

(** [BoxValidation.sanitize_notes], lines 21-30 *)
Definition sanitize_notes (v : option string) : option string :=
  match v with
  | None => None
  | Some v =>
      Some (PyStr.strip (fold_left (fun v c => remove_char c v) dangerous_chars v))
  end.

(** A character of the class [[a-zA-Z0-9\s_-]]. *)
Definition label_char (c : ascii) : bool :=
  let n := nat_of_ascii c in
  ((97 <=? n)%nat && (n <=? 122)%nat) || ((65 <=? n)%nat && (n <=? 90)%nat) ||
  ((48 <=? n)%nat && (n <=? 57)%nat) || PyStr.is_space c ||
  Ascii.eqb c "_" || Ascii.eqb c "-".

Fixpoint all_chars (p : ascii -> bool) (s : string) : bool :=
  match s with
  | EmptyString => true
  | String c r => p c && all_chars p r
  end.

(** [GroundTruthBox.sanitize_label], lines 69-76: the pattern matches the
    non-empty strings made of characters of the class; [None] is the
    [ValueError] of line 75.  The blanks are those of ASCII text. *)
Definition sanitize_label (v : string) : option string :=
  match v with
  | EmptyString => None
  | _ => if all_chars label_char v then Some (PyStr.strip v) else None
  end.

(** The string does not start with a blank. *)
Definition starts_clean (s : string) : bool :=
  match s with
  | EmptyString => true
  | String c _ => negb (PyStr.is_space c)
  end.

Definition length_le (n : nat) (o : option string) : bool :=
  match o with
  | Some s => (String.length s <=? n)%nat
  | None => true
  end.

(** Building a [BoxValidation] from a request body: the field constraints of lines 16-19, then the
    validator of [notes].  [None] is pydantic's [ValidationError]. *)
Definition BoxValidation_validate (d : BoxValidation.t) : option BoxValidation.t :=
  if (1 <=? String.length (BoxValidation.box_id d))%nat &&
     (String.length (BoxValidation.box_id d) <=? 100)%nat &&
     match BoxValidation.confidence_override d with
     | Some c => TrueMetrics.between 0 1 c
     | None => true
     end &&
     length_le 500 (BoxValidation.notes d)
  then Some (BoxValidation.mk (BoxValidation.box_id d)
               (BoxValidation.is_correct d)
               (BoxValidation.confidence_override d)
               (sanitize_notes (BoxValidation.notes d)))
  else None.

(** [ValidationRequest(validations=...)], line 39: between 1 and 100
    entries, each a valid [BoxValidation]. *)
Definition ValidationRequest_validate
    (validations : list BoxValidation.t) : option (list BoxValidation.t) :=
  if (1 <=? length validations)%nat && (length validations <=? 100)%nat
  then mapM BoxValidation_validate validations
  else None.

(** Building a [GroundTruthBox] from a dictionary: the field constraints of lines 53-63, then the
    validator of [label]. *)
Definition GroundTruthBox_validate (d : GroundTruthBox.t) : option GroundTruthBox.t :=
  if TrueMetrics.between 0 1 (GroundTruthBox.confidence d) &&
     (String.length (GroundTruthBox.label d) <=? 50)%nat &&
     length_le 200 (GroundTruthBox.box_id d) &&
     length_le 500 (GroundTruthBox.notes d)
  then
    match sanitize_label (GroundTruthBox.label d) with
    | Some label =>
        Some (GroundTruthBox.mk
                (GroundTruthBox.x1 d) (GroundTruthBox.y1 d)
                (GroundTruthBox.x2 d) (GroundTruthBox.y2 d)
                (GroundTruthBox.confidence d) label (GroundTruthBox.class_id d)
                (GroundTruthBox.box_id d) (GroundTruthBox.is_verified d)
                (GroundTruthBox.is_correct d) (GroundTruthBox.is_manual d)
                (GroundTruthBox.verified_at d) (GroundTruthBox.notes d))
    | None => None
    end
  else None.

(** Nearest integer, ties to even. *)
Definition round_half_even (x : Q) : Z :=
  let f := Qfloor x in
  match Qcompare (x - inject_Z f) (1 # 2) with
  | Lt => f
  | Gt => f + 1
  | Eq => if Z.even f then f else f + 1
  end.

(** ** Python floats

    A [float] is an IEEE 754 binary64 number and is modelled by the rational
    number it denotes.  Every arithmetic operation returns the double nearest
    to the exact result, ties going to the double with an even significand:
    that rounding is [fl].  Overflow does not occur below [2^1024], far above
    the rates computed here. *)
Module PyFloat.

Local Open Scope Q_scope.

(** [floor (log2 x)] for [0 < x] *)
Definition ilog2 (x : Q) : Z :=
  if Qle_bool 1 x then Z.log2 (Qfloor x)
  else (- Z.log2_up (Qceiling (/ x)))%Z.

(** The exponent of the unit in the last place of the doubles around [x]:
    53 significant bits, and no exponent below that of the subnormal
    numbers. *)
Definition exponent (x : Q) : Z := Z.max (ilog2 x - 52) (-1074).

(** The multiple of [2 ^ exponent x] nearest to [x], for [0 < x]. *)
Definition nearest (x : Q) : Q :=
  let e := exponent x in
  inject_Z (round_half_even (x * 2 ^ (- e))) * 2 ^ e.

Definition fl (x : Q) : Q :=
  match 0 ?= x with
  | Eq => 0
  | Lt => Qred (nearest x)
  | Gt => Qred (- nearest (- x))
  end.

(** [a / b] on integers with [b <> 0], and [x * y], [x + y] and [x / y] on
    floats with [y <> 0] for the last: the callers divide under a test of
    the divisor. *)
Definition true_divide (a b : Z) : Q := fl (inject_Z a / inject_Z b).
Definition mul (x y : Q) : Q := fl (x * y).
Definition add (x y : Q) : Q := fl (x + y).
Definition div (x y : Q) : Q := fl (x / y).

(** [round(x, ndigits)] for [0 <= ndigits]: the decimal with [ndigits]
    places nearest to the exact value of [x], ties to even, read back as a
    double. *)
Definition round (x : Q) (ndigits : nat) : Q :=
  let scale := inject_Z (10 ^ Z.of_nat ndigits) in
  fl (inject_Z (round_half_even (x * scale)) / scale).

End PyFloat.

(** ** Metrics (utils/true_metrics.py) *)

Definition Q_of_nat (n : nat) : Q := inject_Z (Z.of_nat n).

(** [sum(1 for x in l if p(x))] *)
Definition count {A} (p : A -> bool) (l : list A) : nat :=
  length (List.filter p l).

Definition dict_get {A} (o : option A) (default : A) : A :=
  match o with Some v => v | None => default end.

(** The keyword arguments handed to [TrueMetrics(...)], lines 32-99. *)
Definition true_metrics_args
    (boxes : list GroundTruthBox.t) (yolo_metrics : YoloMetrics.t)
    : TrueMetrics.t :=
  let verified_boxes := List.filter GroundTruthBox.is_verified boxes in
  let yolo_avg_confidence := dict_get (YoloMetrics.avg_confidence yolo_metrics) 0%Q in
  let yolo_box_count := dict_get (YoloMetrics.box_count yolo_metrics) 0 in
  let yolo_fps := dict_get (YoloMetrics.fps yolo_metrics) 0%Q in
  match verified_boxes with
  | [] =>
      TrueMetrics.mk 0 0 0 0 0 0 0 0 yolo_avg_confidence yolo_box_count yolo_fps
  | _ =>
      let true_positives :=
        count GroundTruthBox.is_correct verified_boxes in
      let false_positives :=
        count (fun b => negb (GroundTruthBox.is_correct b) &&
                        negb (GroundTruthBox.is_manual b)) verified_boxes in
      let false_negatives :=
        count (fun b => GroundTruthBox.is_manual b &&
                        negb (GroundTruthBox.is_verified b)) boxes in
      let total_verified := length verified_boxes in
      let precision :=
        if (0 <? true_positives + false_positives)%nat
        then PyFloat.true_divide (Z.of_nat true_positives)
               (Z.of_nat (true_positives + false_positives))
        else 0%Q in
      let recall :=
        if (0 <? true_positives + false_negatives)%nat
        then PyFloat.true_divide (Z.of_nat true_positives)
               (Z.of_nat (true_positives + false_negatives))
        else if (true_positives =? 0)%nat then 0%Q else 1%Q in
      let f1_score :=
        match Qcompare 0 (PyFloat.add precision recall) with
        | Lt => PyFloat.div (PyFloat.mul 2 (PyFloat.mul precision recall))
                  (PyFloat.add precision recall)
        | _ => 0%Q
        end in
      let fp_rate :=
        if (0 <? total_verified)%nat
        then PyFloat.mul (PyFloat.true_divide (Z.of_nat false_positives)
                            (Z.of_nat total_verified)) 100
        else 0%Q in
      TrueMetrics.mk true_positives false_positives false_negatives
        total_verified (PyFloat.round precision 3) (PyFloat.round recall 3)
        (PyFloat.round f1_score 3) (PyFloat.round fp_rate 1)
        yolo_avg_confidence yolo_box_count yolo_fps
  end.

Definition calculate_true_metrics
    (boxes : list GroundTruthBox.t) (yolo_metrics : YoloMetrics.t)
    : option TrueMetrics.t :=
  TrueMetrics.new (true_metrics_args boxes yolo_metrics).

(** The detector fields that [TrueMetrics] accepts. *)
Definition yolo_valid (ym : YoloMetrics.t) : bool :=
  TrueMetrics.between 0 1 (dict_get (YoloMetrics.avg_confidence ym) 0%Q) &&
  (0 <=? dict_get (YoloMetrics.box_count ym) 0) &&
  Qle_bool 0 (dict_get (YoloMetrics.fps ym) 0%Q).

(** ** The validation router (routers/validation.py) *)

(** Truth value of an optional string: neither [None] nor empty. *)
Definition truthy (o : option string) : bool :=
  match o with
  | Some (String _ _) => true
  | _ => false
  end.

(** [box.get('box_id') == box_id] *)
Definition has_box_id (box_id : string) (box : GroundTruthBox.t) : bool :=
  match GroundTruthBox.box_id box with
  | Some i => String.eqb i box_id
  | None => false
  end.

(** Lines 105-110: the writes to the matched box. *)
Definition apply_validation
    (validation : BoxValidation.t) (box : GroundTruthBox.t) : GroundTruthBox.t :=
  let box := GroundTruthBox.set_is_verified true box in
  let box :=
    GroundTruthBox.set_is_correct (BoxValidation.is_correct validation) box in
  let box :=
    match BoxValidation.confidence_override validation with
    | Some c => GroundTruthBox.set_confidence c box
    | None => box
    end in
  if truthy (BoxValidation.notes validation)
  then GroundTruthBox.set_notes (BoxValidation.notes validation) box
  else box.

(** Lines 102-113: the scan of one image's boxes, stopping at the first box
    with the identifier.  [None]: no box has it. *)
Fixpoint update_boxes
    (validation : BoxValidation.t) (boxes : list GroundTruthBox.t)
    : option (list GroundTruthBox.t) :=
  match boxes with
  | [] => None
  | box :: rest =>
      if has_box_id (BoxValidation.box_id validation) box
      then Some (apply_validation validation box :: rest)
      else cons box <$> update_boxes validation rest
  end.

(** Lines 98-114: the scan of the images, stopping at the first image with
    the identifier.  The flag is the variable [image_found], which the code
    sets only once a box has been updated. *)
Fixpoint update_images
    (validation : BoxValidation.t) (image_id_from_box : string)
    (images : list ImageRecord.t) : list ImageRecord.t * bool :=
  match images with
  | [] => ([], false)
  | img_data :: rest =>
      if String.eqb (ImageRecord.image_id img_data) image_id_from_box then
        match update_boxes validation (ImageRecord.boxes img_data) with
        | Some boxes' => (ImageRecord.set_boxes boxes' img_data :: rest, true)
        | None => (img_data :: rest, false)
        end
      else
        let '(rest', image_found) :=
          update_images validation image_id_from_box rest in
        (img_data :: rest', image_found)
  end.

(** Lines 87-121: one turn of the loop over the batch. *)
Definition validate_box
    (validation : BoxValidation.t) (images : list ImageRecord.t)
    : result (list ImageRecord.t) :=
  match parse_box_id (BoxValidation.box_id validation) with
  | NoSeparator => Ok images
  | BadIndex e => Raise (HTTPExceptionFrom 400 e)
  | Parsed image_id_from_box _ =>
      Ok (fst (update_images validation image_id_from_box images))
  end.

(** Lines 86-121: the loop over the batch. *)
Fixpoint validate_boxes
    (validations : list BoxValidation.t) (images : list ImageRecord.t)
    : result (list ImageRecord.t) :=
  match validations with
  | [] => Ok images
  | validation :: rest =>
      match validate_box validation images with
      | Ok images' => validate_boxes rest images'
      | Raise e => Raise e
      end
  end.


(** All boxes of all images, in order. *)
Definition all_boxes (images : list ImageRecord.t) : list GroundTruthBox.t :=
  concat (map ImageRecord.boxes images).

(** Lines 69-72, 124-127 and 207-209: every stored box is rebuilt as a
    [GroundTruthBox].  [None] is the [ValidationError] of the first box that
    the schema refuses. *)
Definition load_boxes (images : list ImageRecord.t)
    : option (list GroundTruthBox.t) :=
  mapM GroundTruthBox_validate (all_boxes images).

Module ValidationResponse.
Record t : Type := mk {
  session_id : string;
  metrics : TrueMetrics.t;
  verified_count : nat;
  total_images : nat;
  total_boxes : nat
}.
End ValidationResponse.

(** [POST /validate/{session_id}]: the response or the exception, and the
    directory of session files afterwards.  Every exception raised inside the
    [try] block of line 62, the 404 of line 80 and the 400 of line 121
    included, leaves through the [except Exception] clause of line 168. *)
Definition validate_detections
    (st : store) (session_id : string) (validations : list BoxValidation.t)
    : result ValidationResponse.t * store :=
  match st !! session_id with
  | None => (Raise (HTTPExceptionFrom 500 (HTTPException 404 SessionNotFound)), st)
  | Some session_data =>
      match load_boxes (Session.images session_data) with
      | None => (Raise (HTTPExceptionFrom 500 ValidationError), st)
      | Some _ =>
          let yolo_metrics :=
            match last (Session.images session_data) with
            | Some image_data => ImageRecord.yolo_metrics image_data
            | None => YoloMetrics.empty
            end in
          match validate_boxes validations (Session.images session_data) with
          | Raise e => (Raise (HTTPExceptionFrom 500 e), st)
          | Ok images' =>
              match load_boxes images' with
              | None => (Raise (HTTPExceptionFrom 500 ValidationError), st)
              | Some all_boxes =>
                  match calculate_true_metrics all_boxes yolo_metrics with
                  | None => (Raise (HTTPExceptionFrom 500 ValidationError), st)
                  | Some true_metrics =>
                      let session_data' :=
                        Session.set_true_metrics (Some true_metrics)
                          (Session.set_images images' session_data) in
                      (Ok (ValidationResponse.mk session_id true_metrics
                             (count GroundTruthBox.is_verified all_boxes)
                             (length images') (length all_boxes)),
                       <[session_id := session_data']> st)
                  end
              end
          end
      end
  end.

(** Lines 289-320: append the manual box to the first image with the
    identifier.  [None]: no image has it. *)
Fixpoint add_to_image
    (image_id : string) (box : GroundTruthBox.t) (images : list ImageRecord.t)
    : option (string * GroundTruthBox.t * list ImageRecord.t) :=
  match images with
  | [] => None
  | img_data :: rest =>
      if String.eqb (ImageRecord.image_id img_data) image_id then
        let box_count := length (ImageRecord.boxes img_data) in
        let box_id := format_box_id image_id box_count in
        let box_dict :=
          GroundTruthBox.set_is_correct true
            (GroundTruthBox.set_is_verified true
               (GroundTruthBox.set_is_manual true
                  (GroundTruthBox.set_box_id (Some box_id) box))) in
        Some (box_id, box_dict,
              ImageRecord.set_boxes (ImageRecord.boxes img_data ++ [box_dict])
                img_data :: rest)
      else
        match add_to_image image_id box rest with
        | Some (box_id, box_dict, rest') =>
            Some (box_id, box_dict, img_data :: rest')
        | None => None
        end
  end.

Module AddManualResponse.
Record t : Type := mk {
  box_id : string;
  box : GroundTruthBox.t
}.
End AddManualResponse.

(** [POST /add-manual-box/{session_id}/{image_id}] *)
Definition add_manual_box
    (st : store) (session_id image_id : string) (box : GroundTruthBox.t)
    : result AddManualResponse.t * store :=
  match st !! session_id with
  | None => (Raise (HTTPExceptionFrom 500 (HTTPException 404 SessionNotFound)), st)
  | Some session_data =>
      match add_to_image image_id box (Session.images session_data) with
      | Some (box_id, box_dict, images') =>
          (Ok (AddManualResponse.mk box_id box_dict),
           <[session_id := Session.set_images images' session_data]> st)
      | None =>
          (Raise (HTTPExceptionFrom 500
                    (HTTPException 404 (ImageNotFound image_id))), st)
      end
  end.

(** Lines 385-427: rebuild the box list of the first image with the
    identifier without the boxes that carry [box_id]. *)
Fixpoint delete_from_image
    (image_id box_id : string) (images : list ImageRecord.t)
    : result (list ImageRecord.t * nat) :=
  match images with
  | [] => Raise (HTTPException 404 (ImageNotFound image_id))
  | img_data :: rest =>
      if String.eqb (ImageRecord.image_id img_data) image_id then
        let original_count := length (ImageRecord.boxes img_data) in
        let boxes' :=
          List.filter (fun box => negb (has_box_id box_id box))
            (ImageRecord.boxes img_data) in
        let new_count := length boxes' in
        if (new_count <? original_count)%nat
        then Ok (ImageRecord.set_boxes boxes' img_data :: rest, new_count)
        else Raise (HTTPException 404 (BoxNotFound box_id))
      else
        match delete_from_image image_id box_id rest with
        | Ok (rest', new_count) => Ok (img_data :: rest', new_count)
        | Raise e => Raise e
        end
  end.

Module DeleteResponse.
Record t : Type := mk {
  box_id : string;
  remaining_boxes : nat
}.
End DeleteResponse.

(** [DELETE /delete-box/{session_id}/{image_id}/{box_id}] *)
Definition delete_box
    (st : store) (session_id image_id box_id : string)
    : result DeleteResponse.t * store :=
  match st !! session_id with
  | None => (Raise (HTTPExceptionFrom 500 (HTTPException 404 SessionNotFound)), st)
  | Some session_data =>
      match delete_from_image image_id box_id (Session.images session_data) with
      | Ok (images', new_count) =>
          (Ok (DeleteResponse.mk box_id new_count),
           <[session_id := Session.set_images images' session_data]> st)
      | Raise e => (Raise (HTTPExceptionFrom 500 e), st)
      end
  end.

(** What the handlers never touch in an image. *)
Definition image_meta (img : ImageRecord.t) : string * string * YoloMetrics.t :=
  (ImageRecord.image_id img, ImageRecord.timestamp img,
   ImageRecord.yolo_metrics img).

(** ** Sample data *)

Module Sample.

(** A box as [run_inference] stores it (inference.py:164-186). *)
Definition detection (image_id : string) (idx : nat) : GroundTruthBox.t :=
  GroundTruthBox.mk 10 20 110 220 (7 # 8) "person" 0
    (Some (format_box_id image_id idx)) false true false None None.

(** The body of an add-manual-box request. *)
Definition drawn : GroundTruthBox.t :=
  GroundTruthBox.mk 5 5 50 60 1 "dog" 16 None false true false None None.

Definition yolo : YoloMetrics.t :=
  YoloMetrics.mk (Some (7 # 8)) (Some 3) (Some (25 # 2)).

Definition image (image_id : string) (n : nat) : ImageRecord.t :=
  ImageRecord.mk image_id "2024-01-01T00:00:00"
    (map (detection image_id) (seq 0 n)) yolo.

Definition session : Session.t :=
  Session.mk "s" [image "img" 3] None.

Definition files : store := {[ "s" := session ]}.

Definition correction (box_id : string) (is_correct : bool)
    : BoxValidation.t :=
  BoxValidation.mk box_id is_correct None None.

(** The boxes of the first image of session ["s"] in a directory. *)
Definition stored_boxes (st : store) : list GroundTruthBox.t :=
  match st !! "s" with
  | Some session_data =>
      match Session.images session_data with
      | img :: _ => ImageRecord.boxes img
      | [] => []
      end
  | None => []
  end.

End Sample.

(** ** The helper [update_box_validation] (utils/true_metrics.py:102-148) *)

Definition set_verified_at (v : option string) (b : GroundTruthBox.t)
    : GroundTruthBox.t :=
  GroundTruthBox.mk
    (GroundTruthBox.x1 b) (GroundTruthBox.y1 b) (GroundTruthBox.x2 b)
    (GroundTruthBox.y2 b) (GroundTruthBox.confidence b) (GroundTruthBox.label b)
    (GroundTruthBox.class_id b) (GroundTruthBox.box_id b)
    (GroundTruthBox.is_verified b) (GroundTruthBox.is_correct b)
    (GroundTruthBox.is_manual b) v (GroundTruthBox.notes b).

(** [s.split(sep)[-1]]: what follows the last [sep], all of [s] when there is
    none. *)
Definition split_last (sep s : string) : string :=
  match PyStr.rsplit1 sep s with
  | Some (_, t) => t
  | None => s
  end.

(** The box is changed in place, so the function gives back the box and the
    list that holds it.  [utcnow] is the reading of the clock at line 137;
    every failure leaves as [ValueError(f"Invalid box_id: {box_id}")]. *)
Definition update_box_validation
    (utcnow : string) (boxes : list GroundTruthBox.t) (box_id : string)
    (is_correct : bool) (confidence_override : option Q) (notes : option string)
    : result (GroundTruthBox.t * list GroundTruthBox.t) :=
  match PyStr.int (split_last "_" box_id) with
  | None => Raise (ValueError box_id)
  | Some index =>
      if (index <? 0) || (Z.of_nat (length boxes) <=? index)
      then Raise (ValueError box_id)
      else
        match boxes !! Z.to_nat index with
        | None => Raise (ValueError box_id)
        | Some box =>
            let box := GroundTruthBox.set_is_verified true box in
            let box := GroundTruthBox.set_is_correct is_correct box in
            let box := set_verified_at (Some utcnow) box in
            let box :=
              match confidence_override with
              | Some c => GroundTruthBox.set_confidence c box
              | None => box
              end in
            let box :=
              if truthy notes then GroundTruthBox.set_notes notes box else box in
            Ok (box, <[Z.to_nat index := box]> boxes)
        end
  end.

(** ** Recording a detector run (routers/inference.py:141-227) *)

(** One detection as lines 150-155 build it. *)
Module RawBox.
Record t : Type := mk {
  x1 : Q; y1 : Q; x2 : Q; y2 : Q;
  confidence : Q;
  label : string;
  class_id : Z
}.
End RawBox.

Module InferenceResponse.
Record t : Type := mk {
  session_id : string;
  image_id : string;
  boxes : list (RawBox.t * string);
  count : nat;
  metrics : YoloMetrics.t
}.
End InferenceResponse.

(** Lines 164-174 *)
Definition gt_box_of (box : RawBox.t) : option GroundTruthBox.t :=
  GroundTruthBox_validate
    (GroundTruthBox.mk (RawBox.x1 box) (RawBox.y1 box) (RawBox.x2 box)
       (RawBox.y2 box) (RawBox.confidence box) (RawBox.label box)
       (RawBox.class_id box) None false true false None None).

(** Lines 185-186 *)
Definition assign_box_ids (image_id : string) (gt_boxes : list GroundTruthBox.t)
    : list GroundTruthBox.t :=
  imap (fun idx gt_box =>
          GroundTruthBox.set_box_id (Some (format_box_id image_id idx)) gt_box)
    gt_boxes.

(** [run_inference] from line 141 on.  The detections [boxes], the metrics
    that [calc_metrics] derives from them, the image identifier once resolved
    and the reading [utcnow] of the clock are arguments; the detector and the
    lookup of the image file come before and write nothing. *)
Definition run_inference
    (st : store) (session_id image_id : string) (boxes : list RawBox.t)
    (metrics : YoloMetrics.t) (utcnow : string)
    : result InferenceResponse.t * store :=
  match mapM gt_box_of boxes with
  | None => (Raise ValidationError, st)
  | Some gt_boxes =>
      let gt_boxes := assign_box_ids image_id gt_boxes in
      let session_data :=
        match st !! session_id with
        | Some session_data => session_data
        | None => Session.mk session_id [] None
        end in
      let image_data := ImageRecord.mk image_id utcnow gt_boxes metrics in
      (Ok (InferenceResponse.mk session_id image_id
             (imap (fun idx box => (box, format_box_id image_id idx)) boxes)
             (length boxes) metrics),
       <[session_id :=
           Session.set_images (Session.images session_data ++ [image_data])
             session_data]> st)
  end.

(** ** Reading a session back (routers/validation.py:175-241) *)

(** Truth value of a [yolo_metrics] dictionary: it has a key.  The
    dictionaries that [calc_metrics] writes hold the detector fields read
    from them and no other key. *)
Definition yolo_truthy (ym : YoloMetrics.t) : bool :=
  match YoloMetrics.avg_confidence ym, YoloMetrics.box_count ym,
        YoloMetrics.fps ym with
  | None, None, None => false
  | _, _, _ => true
  end.

(** Lines 205-212: the metrics of the last image that has some. *)
Definition latest_yolo_metrics (images : list ImageRecord.t) : YoloMetrics.t :=
  fold_left
    (fun yolo_metrics image_data =>
       if yolo_truthy (ImageRecord.yolo_metrics image_data)
       then ImageRecord.yolo_metrics image_data
       else yolo_metrics)
    images YoloMetrics.empty.

(** [GET /validations/{session_id}]: the document returned, and the
    directory afterwards.  The 404 of line 194 is raised outside the [try]
    block and reaches the client as it is. *)
Definition get_validations
    (st : store) (session_id : string) : result Session.t * store :=
  match st !! session_id with
  | None => (Raise (HTTPException 404 SessionNotFound), st)
  | Some data =>
      match load_boxes (Session.images data) with
      | None => (Raise (HTTPExceptionFrom 500 ValidationError), st)
      | Some all_boxes =>
          let yolo_metrics := latest_yolo_metrics (Session.images data) in
          let verified_count := count GroundTruthBox.is_verified all_boxes in
          if (0 <? verified_count)%nat then
            match calculate_true_metrics all_boxes yolo_metrics with
            | None => (Raise (HTTPExceptionFrom 500 ValidationError), st)
            | Some true_metrics =>
                let data' := Session.set_true_metrics (Some true_metrics) data in
                (Ok data', <[session_id := data']> st)
            end
          else (Ok data, st)
      end
  end.

(** ** Sequences of requests *)

(** A request as it reaches the application: bodies are still to be checked
    against their schemas. *)
Inductive request : Type :=
| Infer (session_id image_id : string) (boxes : list RawBox.t)
    (metrics : YoloMetrics.t) (utcnow : string)
| Validate (session_id : string) (validations : list BoxValidation.t)
| GetValidations (session_id : string)
| AddManualBox (session_id image_id : string) (box : GroundTruthBox.t)
| DeleteBox (session_id image_id box_id : string).

Section Requests.

(** [app.middleware.security.validate_session_id], which is not part of these
    sources: the identifier to use, or [None] when it raises. *)
Variable validate_session_id : string -> option string.

(** The directory of sessions after one request.  A body that its schema
    refuses, or a session identifier that is refused, stops the request
    before the handler's first write. *)
Definition handle (st : store) (r : request) : store :=
  match r with
  | Infer session_id image_id boxes metrics utcnow =>
      snd (run_inference st session_id image_id boxes metrics utcnow)
  | Validate session_id validations =>
      match ValidationRequest_validate validations,
            validate_session_id session_id with
      | Some validations, Some session_id =>
          snd (validate_detections st session_id validations)
      | _, _ => st
      end
  | GetValidations session_id =>
      match validate_session_id session_id with
      | Some session_id => snd (get_validations st session_id)
      | None => st
      end
  | AddManualBox session_id image_id box =>
      match GroundTruthBox_validate box, validate_session_id session_id with
      | Some box, Some session_id =>
          snd (add_manual_box st session_id image_id box)
      | _, _ => st
      end
  | DeleteBox session_id image_id box_id =>
      match validate_session_id session_id with
      | Some session_id => snd (delete_box st session_id image_id box_id)
      | None => st
      end
  end.

Definition handle_all (st : store) (rs : list request) : store :=
  fold_left handle rs st.

End Requests.

(** What every box stored under an image satisfies after any sequence of
    requests. *)
Definition box_inv (image_id : string) (b : GroundTruthBox.t) : Prop :=
  (GroundTruthBox.is_manual b = true -> GroundTruthBox.is_verified b = true) /\
  (exists k, GroundTruthBox.box_id b = Some (format_box_id image_id k)) /\
  (0 <= GroundTruthBox.confidence b <= 1)%Q.

Definition images_inv (images : list ImageRecord.t) : Prop :=
  Forall (fun img => Forall (box_inv (ImageRecord.image_id img))
                       (ImageRecord.boxes img)) images.

Definition store_inv (st : store) : Prop :=
  forall session_id session_data,
    st !! session_id = Some session_data ->
    images_inv (Session.images session_data).

(** The fields of a box that a batch of corrections leaves alone. *)
Definition box_frame (b : GroundTruthBox.t)
    : Q * Q * Q * Q * string * Z * option string * bool * option string :=
  (GroundTruthBox.x1 b, GroundTruthBox.y1 b, GroundTruthBox.x2 b,
   GroundTruthBox.y2 b, GroundTruthBox.label b, GroundTruthBox.class_id b,
   GroundTruthBox.box_id b, GroundTruthBox.is_manual b,
   GroundTruthBox.verified_at b).

(** Same images and same boxes in the same order, up to the fields that a
    correction writes; no verified box has become unverified. *)
Definition same_frame (images images' : list ImageRecord.t) : Prop :=
  Forall2
    (fun img img' =>
       image_meta img = image_meta img' /\
       Forall2
         (fun b b' =>
            box_frame b = box_frame b' /\
            (GroundTruthBox.is_verified b = true ->
             GroundTruthBox.is_verified b' = true))
         (ImageRecord.boxes img) (ImageRecord.boxes img'))
    images images'.

(** [post'] is [post] with the same identifiers, and with the same images
    where the identifier is [i]. *)
Definition kept_images (i : string) (post post' : list ImageRecord.t) : Prop :=
  Forall2 (fun p p' : ImageRecord.t =>
             ImageRecord.image_id p' = ImageRecord.image_id p /\
             (ImageRecord.image_id p = i -> p' = p)) post post'.

(** The boxes of an image after the scan for one correction. *)
Definition boxes_after (validation : BoxValidation.t)
    (boxes : list GroundTruthBox.t) : list GroundTruthBox.t :=
  default boxes (update_boxes validation boxes).

(** The constraint of the schema on [confidence_override]. *)
Definition override_ok (v : BoxValidation.t) : Prop :=
  match BoxValidation.confidence_override v with
  | Some c => (0 <= c <= 1)%Q
  | None => True
  end.



(** What the schema of the request guarantees of a correction. *)
Definition valid_correction (v : BoxValidation.t) : Prop :=
  override_ok v /\ length_le 500 (BoxValidation.notes v) = true.

(** A run of requests against an empty directory, with a session identifier
    check that accepts everything. *)
Module Served.

Definition raw : RawBox.t :=
  RawBox.mk 10 20 110 220 (7 # 8) " traffic light" 9.

Definition requests : list request :=
  [Infer "s" "img" [raw; raw; raw] Sample.yolo "2024-01-01T00:00:00";
   Validate "s" [BoxValidation.mk "img_box_0" true None (Some "<ok>");
                 BoxValidation.mk "img_box_1" false (Some (1 # 2)) None];
   AddManualBox "s" "img" Sample.drawn;
   DeleteBox "s" "img" "img_box_2";
   GetValidations "s"].

Definition files : store := handle_all Some ∅ requests.

Definition session : Session.t := default Sample.session (files !! "s").

(** The sample session after a second detector run on its image. *)
Definition rerun_files : store :=
  snd (run_inference Sample.files "s" "img" [raw] Sample.yolo "t1").

Definition rerun_session : Session.t :=
  default Sample.session (rerun_files !! "s").

Definition rerun_image : ImageRecord.t :=
  default (Sample.image "img" 3) (last (Session.images rerun_session)).

End Served.

(** * Properties *)

(** ** Box identifiers on examples *)

Example parse_box_id_ex1 : parse_box_id "s1_17_box_12" = Parsed "s1_17" 12.
Proof. reflexivity. Qed.
Example parse_box_id_ex2 : parse_box_id "a_box_b_box_3" = Parsed "a_box_b" 3.
Proof. reflexivity. Qed.
Example parse_box_id_ex3 : parse_box_id "a_box_-1" = Parsed "a" (-1).
Proof. reflexivity. Qed.
Example parse_box_id_ex4 : parse_box_id "a_box_ 1_0 " = Parsed "a" 10.
Proof. reflexivity. Qed.
Example parse_box_id_ex5 : parse_box_id "a_box_x" = BadIndex (ValueError "x").
Proof. reflexivity. Qed.
Example parse_box_id_ex6 : parse_box_id "session_0" = NoSeparator.
Proof. reflexivity. Qed.
Example format_box_id_ex : format_box_id "a_box" 105 = "a_box_box_105".
Proof. reflexivity. Qed.

(** [int] beyond ASCII digits: the Arabic-Indic digit one (U+0661, bytes
    217 161) reads as 1 and a no-break space (U+00A0, bytes 194 160) is a
    blank, while the file separator (byte 28), a blank for [str.strip], is
    not one for [int]. *)
Example int_arabic_indic_one :
  PyStr.int (String (ascii_of_nat 217) (String (ascii_of_nat 161) "")) = Some 1.
Proof. reflexivity. Qed.
Example int_no_break_space :
  PyStr.int (String (ascii_of_nat 194) (String (ascii_of_nat 160) "1")) = Some 1.
Proof. reflexivity. Qed.
Example int_file_separator :
  PyStr.int (String (ascii_of_nat 28) "1") = None /\
  PyStr.strip (String (ascii_of_nat 28) "1") = "1".
Proof. split; reflexivity. Qed.
Example parse_box_id_ex7 :
  parse_box_id ("img_box_" ++ String (ascii_of_nat 217)
                                (String (ascii_of_nat 161) ""))
  = Parsed "img" 1.
Proof. reflexivity. Qed.

(** ** Strings *)

Section StringFacts.

Lemma prefix_app (s t : string) : String.prefix s (s ++ t) = true.
Proof.
  induction s as [|c s IH]; simpl.
  - now destruct t.
  - destruct (ascii_dec c c); [exact IH | congruence].
Qed.

Lemma contains_prefix (sep s : string) :
  String.prefix sep s = true -> PyStr.contains sep s = true.
Proof. intros H. destruct s; simpl in *; now rewrite H. Qed.

Lemma contains_app (sep h t : string) :
  PyStr.contains sep (h ++ sep ++ t) = true.
Proof.
  induction h as [|c h IH].
  - change (PyStr.contains sep (sep ++ t) = true).
    apply contains_prefix, prefix_app.
  - change (PyStr.contains sep (String c (h ++ sep ++ t)) = true).
    cbn [PyStr.contains]. rewrite IH. apply orb_true_r.
Qed.

Lemma rsplit1_unfold (sep : string) c r :
  PyStr.rsplit1 sep (String c r) =
  match PyStr.rsplit1 sep r with
  | Some (h, t) => Some (String c h, t)
  | None =>
      if String.prefix sep (String c r)
      then Some (EmptyString, PyStr.drop (String.length sep) (String c r))
      else None
  end.
Proof. reflexivity. Qed.

Lemma rsplit1_cons (sep : string) c s h t :
  PyStr.rsplit1 sep s = Some (h, t) ->
  PyStr.rsplit1 sep (String c s) = Some (String c h, t).
Proof. intros H. simpl. now rewrite H. Qed.

Lemma rsplit1_app (sep h t : string) :
  PyStr.rsplit1 sep (sep ++ t) = Some (EmptyString, t) ->
  PyStr.rsplit1 sep (h ++ sep ++ t) = Some (h, t).
Proof.
  intros H. induction h as [|c h IH]; [exact H|].
  simpl. change ((h ++ sep ++ t)%string) with (h ++ sep ++ t) in *.
  now rewrite IH.
Qed.

Lemma prefix_drop (sep s : string) :
  String.prefix sep s = true -> s = sep ++ PyStr.drop (String.length sep) s.
Proof.
  revert s. induction sep as [|c sep IH]; intros s H; [reflexivity|].
  destruct s as [|a s]; [discriminate|].
  simpl in H. destruct (ascii_dec c a) as [->|]; [|discriminate].
  change (String a s = String a (sep ++ PyStr.drop (String.length sep) s)).
  f_equal. now apply IH.
Qed.

(** [rsplit1] cuts the string at an occurrence of the separator. *)
Lemma rsplit1_sound (sep s h t : string) :
  PyStr.rsplit1 sep s = Some (h, t) -> s = h ++ sep ++ t.
Proof.
  revert h. induction s as [|c r IH]; intros h; [discriminate|].
  rewrite rsplit1_unfold.
  destruct (PyStr.rsplit1 sep r) as [[h' t']|].
  - intros [= <- <-].
    change (String c r = String c (h' ++ sep ++ t')). f_equal. now apply IH.
  - destruct (String.prefix sep (String c r)) eqn:Hp; [|discriminate].
    intros [= <- <-]. now apply prefix_drop.
Qed.

(** Behind the guard [sep in s] the split has two parts, so the subscript
    [[1]] of line 94 is in range. *)
Lemma contains_rsplit1 c (sep s : string) :
  PyStr.contains (String c sep) s = true ->
  PyStr.rsplit1 (String c sep) s <> None.
Proof.
  induction s as [|a r IH]; [discriminate|].
  rewrite rsplit1_unfold. cbn [PyStr.contains].
  intros [Hp|Hr]%orb_prop.
  - rewrite Hp. now destruct (PyStr.rsplit1 (String c sep) r) as [[? ?]|].
  - specialize (IH Hr).
    now destruct (PyStr.rsplit1 (String c sep) r) as [[? ?]|].
Qed.

Lemma parse_box_id_no_index_error (box_id : string) :
  parse_box_id box_id <> BadIndex IndexError.
Proof.
  unfold parse_box_id, box_sep.
  destruct (PyStr.contains "_box_" box_id) eqn:Hc; [|discriminate].
  apply contains_rsplit1 in Hc.
  destruct (PyStr.rsplit1 "_box_" box_id) as [[h t]|]; [|congruence].
  destruct (PyStr.int t); discriminate.
Qed.

End StringFacts.

(** ** Decimal numerals *)

Section Decimal.

Import Decimal.

Lemma transform_numeral d :
  PyStr.transform (NilEmpty.string_of_uint d) = Some (NilEmpty.string_of_uint d).
Proof. induction d; simpl; try rewrite IHd; reflexivity. Qed.

Lemma skip_spaces_numeral d :
  PyStr.skip_spaces (NilEmpty.string_of_uint d) = NilEmpty.string_of_uint d.
Proof. destruct d; reflexivity. Qed.

Lemma rsplit1_numeral d :
  PyStr.rsplit1 box_sep (NilEmpty.string_of_uint d) = None.
Proof. induction d; simpl; try rewrite IHd; reflexivity. Qed.

Lemma rsplit1_sep_numeral d :
  PyStr.rsplit1 box_sep (box_sep ++ NilEmpty.string_of_uint d)
  = Some (EmptyString, NilEmpty.string_of_uint d).
Proof.
  change (box_sep ++ NilEmpty.string_of_uint d)
    with (String "_" (String "b" (String "o" (String "x"
            (String "_" (NilEmpty.string_of_uint d)))))).
  rewrite !rsplit1_unfold, (rsplit1_numeral d).
  destruct d; reflexivity.
Qed.

Lemma digits_from_numeral d (acc : nat) :
  PyStr.digits_from (NilEmpty.string_of_uint d) (Z.of_nat acc) false
  = Some (Z.of_nat (Nat.of_uint_acc d acc)).
Proof.
  revert acc. induction d; intros acc; [reflexivity|..];
    cbn [NilEmpty.string_of_uint PyStr.digits_from Nat.of_uint_acc];
    rewrite <- IHd; cbn -[Z.mul Z.add Z.of_nat Nat.tail_mul];
    f_equal;
    match goal with
    | |- context [Z.of_nat (nat_of_ascii ?c - 48)] =>
        let v := eval vm_compute in (Z.of_nat (nat_of_ascii c - 48)) in
        change (Z.of_nat (nat_of_ascii c - 48)) with v
    end;
    rewrite Nat.tail_mul_spec; lia.
Qed.

Lemma digits_numeral d :
  d <> Nil ->
  PyStr.digits (NilEmpty.string_of_uint d) = Some (Z.of_nat (Nat.of_uint d)).
Proof.
  intros Hd. unfold Nat.of_uint.
  destruct d; [congruence|..];
    cbn [NilEmpty.string_of_uint PyStr.digits Nat.of_uint_acc];
    rewrite <- digits_from_numeral; reflexivity.
Qed.

Lemma int_numeral d :
  d <> Nil ->
  PyStr.int (NilEmpty.string_of_uint d) = Some (Z.of_nat (Nat.of_uint d)).
Proof.
  intros Hd. unfold PyStr.int, PyStr.long_from_string.
  rewrite transform_numeral, skip_spaces_numeral.
  rewrite <- (digits_numeral d Hd).
  destruct d; [congruence|..]; reflexivity.
Qed.

Lemma to_uint_nonnil n : Nat.to_uint n <> Nil.
Proof.
  rewrite <- (DecimalNat.Unsigned.of_to n) at 1.
  rewrite DecimalNat.Unsigned.to_of. apply DecimalFacts.unorm_nonnil.
Qed.

Lemma int_str_of_nat n : PyStr.int (PyStr.str_of_nat n) = Some (Z.of_nat n).
Proof.
  unfold PyStr.str_of_nat.
  rewrite (int_numeral _ (to_uint_nonnil n)).
  now rewrite DecimalNat.Unsigned.of_to.
Qed.

End Decimal.

(** ** Box addressing *)

Lemma parse_format_box_id (image_id : string) (i : nat) :
  parse_box_id (format_box_id image_id i) = Parsed image_id (Z.of_nat i).
Proof.
  unfold parse_box_id, format_box_id, PyStr.str_of_nat.
  rewrite contains_app.
  rewrite (rsplit1_app box_sep image_id _ (rsplit1_sep_numeral _)).
  fold (PyStr.str_of_nat i). now rewrite int_str_of_nat.
Qed.

(** C4. Round trip of box identifiers: for an image identifier that does not
    contain the separator [_box_] and a non-negative index [i], splitting
    [<image_id>_box_<i>] at the last separator and reading the rest as an
    integer gives back [(image_id, i)]. *)
Theorem C4_parse_format_roundtrip (image_id : string) (i : nat) :
  PyStr.contains box_sep image_id = false ->
  parse_box_id (format_box_id image_id i) = Parsed image_id (Z.of_nat i).
Proof. intros _. apply parse_format_box_id. Qed.

Lemma C4_parse_format_roundtrip_witness :
  PyStr.contains box_sep "sess-1_1700000000000" = false /\
  parse_box_id (format_box_id "sess-1_1700000000000" 12)
  = Parsed "sess-1_1700000000000" 12.
Proof.
  split; [reflexivity|].
  apply (C4_parse_format_roundtrip "sess-1_1700000000000" 12). reflexivity.
Defined.

(** ** Floating-point rounding *)

Section FloatFacts.

Local Open Scope Q_scope.

Lemma pow2_pos e : 0 < 2 ^ e.
Proof. now apply Qpower_0_lt. Qed.

Lemma pow2_plus a b : 2 ^ (a + b) == 2 ^ a * 2 ^ b.
Proof. now apply Qpower_plus. Qed.

Lemma pow2_cancel e : 2 ^ (- e) * 2 ^ e == 1.
Proof. rewrite <- pow2_plus. now replace (- e + e)%Z with 0%Z by lia. Qed.

Lemma pow2_succ e : 2 ^ (e + 1) == 2 * 2 ^ e.
Proof. rewrite pow2_plus. change (2 ^ 1) with 2. ring. Qed.

Lemma pow2_inject k : (0 <= k)%Z -> inject_Z (2 ^ k) == 2 ^ k.
Proof. intros H. now rewrite Zpower_Qpower. Qed.

Lemma inject_le_pow2 k z : (0 <= k)%Z -> (z <= 2 ^ k)%Z -> inject_Z z <= 2 ^ k.
Proof. intros Hk H. rewrite <- pow2_inject by exact Hk. now rewrite <- Zle_Qle. Qed.

Lemma pow2_le_inject k z : (0 <= k)%Z -> (2 ^ k <= z)%Z -> 2 ^ k <= inject_Z z.
Proof. intros Hk H. rewrite <- pow2_inject by exact Hk. now rewrite <- Zle_Qle. Qed.

Lemma pow2_le a b : (a <= b)%Z -> 2 ^ a <= 2 ^ b.
Proof. intros H. apply Qpower_le_compat_l; [exact H|discriminate]. Qed.

Lemma pow2_lt_inv a b : 2 ^ a < 2 ^ b -> (a < b)%Z.
Proof. intros H. apply (Qpower_lt_compat_l_inv 2); [exact H|reflexivity]. Qed.

Lemma ilog2_Qeq x y : x == y -> PyFloat.ilog2 x = PyFloat.ilog2 y.
Proof.
  intros H. unfold PyFloat.ilog2.
  assert (Qle_bool 1 x = Qle_bool 1 y) as ->.
  { apply eq_true_iff_eq. rewrite !Qle_bool_iff. now rewrite H. }
  rewrite (Qfloor_comp x y H).
  now rewrite (Qceiling_comp (/ x) (/ y)) by now rewrite H.
Qed.

Lemma ilog2_spec x :
  0 < x -> 2 ^ PyFloat.ilog2 x <= x /\ x < 2 ^ (PyFloat.ilog2 x + 1).
Proof.
  intros Hx. unfold PyFloat.ilog2.
  destruct (Qle_bool 1 x) eqn:E.
  - apply Qle_bool_iff in E.
    assert (1 <= Qfloor x)%Z as Hn.
    { change 1%Z with (Qfloor 1). now apply Qfloor_resp_le. }
    destruct (Z.log2_spec (Qfloor x)) as [Hlo Hhi]; [lia|].
    pose proof (Z.log2_nonneg (Qfloor x)) as Hl.
    split.
    + rewrite <- pow2_inject by exact Hl.
      apply Qle_trans with (inject_Z (Qfloor x)); [|apply Qfloor_le].
      now rewrite <- Zle_Qle.
    + rewrite <- pow2_inject by lia.
      apply Qlt_le_trans with (inject_Z (Qfloor x + 1)); [apply Qlt_floor|].
      rewrite <- Zle_Qle. unfold Z.succ in Hhi. lia.
  - assert (x < 1) as Hx1.
    { apply Qnot_le_lt. intros H. apply Qle_bool_iff in H. congruence. }
    set (y := / x).
    assert (x * y == 1) as Hxy.
    { unfold y. apply Qmult_inv_r. intros H. rewrite H in Hx. discriminate. }
    assert (1 < y) as Hy by nra.
    pose proof (Qle_ceiling y) as Hc1. pose proof (Qceiling_lt y) as Hc2.
    set (c := Qceiling y) in *.
    assert (1 < c)%Z as Hc.
    { rewrite Zlt_Qlt. change (inject_Z 1) with 1. lra. }
    destruct (Z.log2_up_spec c Hc) as [Hlo Hhi].
    pose proof (Z.log2_up_pos c Hc) as Hk.
    set (k := Z.log2_up c) in *.
    assert (inject_Z c <= 2 ^ k) as Hhi'.
    { rewrite <- pow2_inject by lia. now rewrite <- Zle_Qle. }
    assert (2 ^ (k - 1) <= inject_Z (c - 1)) as Hlo'.
    { rewrite <- pow2_inject by lia. rewrite <- Zle_Qle.
      unfold Z.pred in Hlo. replace (k - 1)%Z with (k + -1)%Z by lia. lia. }
    pose proof (pow2_cancel k) as Hpk.
    pose proof (pow2_pos k) as HP. pose proof (pow2_pos (- k)) as Hp.
    assert (2 ^ k == 2 * 2 ^ (k - 1)) as Hhalf.
    { rewrite <- pow2_succ. now replace (k - 1 + 1)%Z with k by lia. }
    set (P := 2 ^ k) in *. set (p := 2 ^ (- k)) in *.
    set (h := 2 ^ (k - 1)) in *.
    split.
    + assert (y <= P) as HyP by lra.
      assert (p * (x * y) <= p * (x * P))
        by (rewrite !Qmult_le_l by assumption; exact HyP).
      assert (p * (x * P) == x) as E2.
      { transitivity (x * (p * P)); [ring|]. rewrite Hpk. ring. }
      assert (p == p * (x * y)) as E3 by (rewrite Hxy; ring).
      lra.
    + replace (- k + 1)%Z with (- k + 1)%Z by lia. rewrite pow2_succ. fold p.
      assert (h < y) as Hhy by lra.
      assert (x * h < x * y) as H1 by (rewrite Qmult_lt_l by assumption; exact Hhy).
      assert (x * P < 2) as H2. { rewrite Hhalf. lra. }
      assert (p * (x * P) < p * 2) as H3 by (rewrite Qmult_lt_l by assumption; exact H2).
      assert (p * (x * P) == x) as E2.
      { transitivity (x * (p * P)); [ring|]. rewrite Hpk. ring. }
      rewrite E2 in H3. lra.
Qed.

Lemma ilog2_unique x l :
  0 < x -> 2 ^ l <= x -> x < 2 ^ (l + 1) -> PyFloat.ilog2 x = l.
Proof.
  intros Hx Hlo Hhi. destruct (ilog2_spec x Hx) as [Hlo' Hhi'].
  assert (l < PyFloat.ilog2 x + 1)%Z
    by (apply pow2_lt_inv; eapply Qle_lt_trans; eassumption).
  assert (PyFloat.ilog2 x < l + 1)%Z
    by (apply pow2_lt_inv; eapply Qle_lt_trans; eassumption).
  lia.
Qed.

Lemma ilog2_mono x y : 0 < x -> x <= y -> (PyFloat.ilog2 x <= PyFloat.ilog2 y)%Z.
Proof.
  intros Hx Hxy.
  destruct (ilog2_spec x Hx) as [Hlo _].
  destruct (ilog2_spec y) as [_ Hhi]; [lra|].
  assert (PyFloat.ilog2 x < PyFloat.ilog2 y + 1)%Z; [|lia].
  apply pow2_lt_inv. lra.
Qed.

End FloatFacts.

Section RoundHalfEven.

Local Open Scope Q_scope.

Lemma round_half_even_Qeq (x y : Q) :
  x == y -> round_half_even x = round_half_even y.
Proof.
  intros H. unfold round_half_even.
  rewrite (Qfloor_comp _ _ H). now rewrite H.
Qed.

Lemma round_half_even_floor x :
  (Qfloor x <= round_half_even x <= Qfloor x + 1)%Z.
Proof.
  unfold round_half_even.
  destruct (_ ?= _); [destruct (Z.even _)|..]; lia.
Qed.

Lemma round_half_even_Z k : round_half_even (inject_Z k) = k.
Proof.
  unfold round_half_even. rewrite Qfloor_Z.
  destruct (Qcompare_spec (inject_Z k - inject_Z k) (1 # 2)) as [H|H|H];
    [lra|reflexivity|lra].
Qed.

Lemma round_half_even_le x k : x <= inject_Z k -> (round_half_even x <= k)%Z.
Proof.
  intros H. pose proof (Qfloor_resp_le _ _ H) as Hf. rewrite Qfloor_Z in Hf.
  destruct (Z.eq_dec (Qfloor x) k) as [E|E].
  - unfold round_half_even. pose proof (Qfloor_le x) as Hfl. rewrite E in *.
    destruct (Qcompare_spec (x - inject_Z k) (1 # 2)) as [H'|H'|H'];
      [lra|lia|lra].
  - pose proof (round_half_even_floor x). lia.
Qed.

Lemma round_half_even_ge x k : inject_Z k <= x -> (k <= round_half_even x)%Z.
Proof.
  intros H. pose proof (Qfloor_resp_le _ _ H) as Hf. rewrite Qfloor_Z in Hf.
  pose proof (round_half_even_floor x). lia.
Qed.

Lemma round_half_even_mono x y :
  x <= y -> (round_half_even x <= round_half_even y)%Z.
Proof.
  intros H. pose proof (Qfloor_resp_le _ _ H) as Hf.
  pose proof (round_half_even_floor x) as Hx.
  pose proof (round_half_even_floor y) as Hy.
  destruct (Z.eq_dec (Qfloor x) (Qfloor y)) as [E|E]; [|lia].
  unfold round_half_even in *. rewrite <- E in *.
  destruct (Qcompare_spec (x - inject_Z (Qfloor x)) (1 # 2)) as [Hc|Hc|Hc];
    destruct (Qcompare_spec (y - inject_Z (Qfloor x)) (1 # 2)) as [Hd|Hd|Hd];
    try lia; try lra; destruct (Z.even (Qfloor x)); lia.
Qed.

Lemma round_half_even_err x :
  - (1 # 2) <= inject_Z (round_half_even x) - x <= 1 # 2.
Proof.
  unfold round_half_even.
  pose proof (Qfloor_le x) as Hlo. pose proof (Qlt_floor x) as Hhi.
  rewrite inject_Z_plus in Hhi. change (inject_Z 1) with 1 in Hhi.
  destruct (Qcompare_spec (x - inject_Z (Qfloor x)) (1 # 2)) as [Hc|Hc|Hc];
    [destruct (Z.even (Qfloor x))|..];
    rewrite ?inject_Z_plus; change (inject_Z 1) with 1; lra.
Qed.

End RoundHalfEven.

Section Nearest.

Local Open Scope Q_scope.

Lemma exponent_Qeq x y : x == y -> PyFloat.exponent x = PyFloat.exponent y.
Proof. intros H. unfold PyFloat.exponent. now rewrite (ilog2_Qeq x y H). Qed.

Lemma nearest_Qeq x y : x == y -> PyFloat.nearest x = PyFloat.nearest y.
Proof.
  intros H. unfold PyFloat.nearest. rewrite (exponent_Qeq x y H).
  rewrite (round_half_even_Qeq (x * _) (y * 2 ^ (- PyFloat.exponent y)));
    [reflexivity|now rewrite H].
Qed.

Lemma fl_Qeq x y : x == y -> PyFloat.fl x = PyFloat.fl y.
Proof.
  intros H. unfold PyFloat.fl. rewrite <- H.
  rewrite (nearest_Qeq x y H).
  now rewrite (nearest_Qeq (- x) (- y)) by now rewrite H.
Qed.

Lemma exponent_min x : (-1074 <= PyFloat.exponent x)%Z.
Proof. unfold PyFloat.exponent. lia. Qed.

Lemma exponent_mono x y :
  0 < x -> x <= y -> (PyFloat.exponent x <= PyFloat.exponent y)%Z.
Proof.
  intros Hx Hxy. pose proof (ilog2_mono x y Hx Hxy).
  unfold PyFloat.exponent. lia.
Qed.

(** Scaling by the unit in the last place. *)
Lemma scale_le e x y : x <= y -> x * 2 ^ e <= y * 2 ^ e.
Proof. intros H. apply Qmult_le_compat_r; [exact H|]. apply Qlt_le_weak, pow2_pos. Qed.

Lemma unscale e x : x * 2 ^ (- e) * 2 ^ e == x.
Proof. rewrite <- Qmult_assoc, pow2_cancel. ring. Qed.

Lemma scaled_lt x : 0 < x -> x * 2 ^ (- PyFloat.exponent x) < inject_Z (2 ^ 53).
Proof.
  intros Hx. destruct (ilog2_spec x Hx) as [_ Hhi].
  set (e := PyFloat.exponent x).
  assert (2 ^ (PyFloat.ilog2 x + 1) <= 2 ^ 53 * 2 ^ e) as Hle.
  { rewrite <- pow2_plus. apply pow2_le. unfold e, PyFloat.exponent. lia. }
  rewrite pow2_inject by lia.
  pose proof (pow2_pos (- e)) as Hsi. pose proof (pow2_cancel e) as Hc.
  assert (x * 2 ^ (- e) < 2 ^ 53 * 2 ^ e * 2 ^ (- e)) as H.
  { apply Qmult_lt_compat_r; [exact Hsi|]. eapply Qlt_le_trans; eassumption. }
  assert (2 ^ 53 * 2 ^ e * 2 ^ (- e) == 2 ^ 53) as E.
  { transitivity (2 ^ 53 * (2 ^ (- e) * 2 ^ e)); [ring|]. rewrite Hc. ring. }
  now rewrite E in H.
Qed.

Lemma scaled_ge x :
  0 < x -> PyFloat.exponent x = (PyFloat.ilog2 x - 52)%Z ->
  inject_Z (2 ^ 52) <= x * 2 ^ (- PyFloat.exponent x).
Proof.
  intros Hx He. destruct (ilog2_spec x Hx) as [Hlo _].
  rewrite He. rewrite pow2_inject by lia.
  set (e := (PyFloat.ilog2 x - 52)%Z) in *.
  assert (2 ^ 52 * 2 ^ e <= x) as Hlo'.
  { rewrite <- pow2_plus. now replace (52 + e)%Z with (PyFloat.ilog2 x) by lia. }
  pose proof (pow2_pos (- e)) as Hsi. pose proof (pow2_cancel e) as Hc.
  assert (2 ^ 52 * 2 ^ e * 2 ^ (- e) <= x * 2 ^ (- e)) as H.
  { apply Qmult_le_compat_r; [exact Hlo'|]. now apply Qlt_le_weak. }
  assert (2 ^ 52 * 2 ^ e * 2 ^ (- e) == 2 ^ 52) as E.
  { transitivity (2 ^ 52 * (2 ^ (- e) * 2 ^ e)); [ring|]. rewrite Hc. ring. }
  now rewrite E in H.
Qed.

Lemma nearest_nonneg x : 0 < x -> 0 <= PyFloat.nearest x.
Proof.
  intros Hx. unfold PyFloat.nearest.
  pose proof (pow2_pos (PyFloat.exponent x)).
  pose proof (pow2_pos (- PyFloat.exponent x)).
  assert (0 <= round_half_even (x * 2 ^ (- PyFloat.exponent x)))%Z as Hr.
  { apply round_half_even_ge. change (inject_Z 0) with 0. nra. }
  rewrite Zle_Qle in Hr. change (inject_Z 0) with 0 in Hr. nra.
Qed.

Lemma nearest_le_pow x :
  0 < x -> PyFloat.nearest x <= 2 ^ (PyFloat.exponent x + 53).
Proof.
  intros Hx. unfold PyFloat.nearest.
  rewrite (Z.add_comm _ 53), pow2_plus. apply scale_le.
  apply inject_le_pow2; [lia|].
  apply round_half_even_le. apply Qlt_le_weak, scaled_lt, Hx.
Qed.

Lemma nearest_mono x y :
  0 < x -> x <= y -> PyFloat.nearest x <= PyFloat.nearest y.
Proof.
  intros Hx Hxy. assert (0 < y) as Hy by lra.
  pose proof (exponent_mono x y Hx Hxy) as He.
  destruct (Z.eq_dec (PyFloat.exponent x) (PyFloat.exponent y)) as [E|E].
  - unfold PyFloat.nearest. rewrite E. apply scale_le.
    rewrite <- Zle_Qle. apply round_half_even_mono.
    now apply scale_le.
  - apply Qle_trans with (2 ^ (PyFloat.exponent y + 52)).
    + apply Qle_trans with (2 ^ (PyFloat.exponent x + 53));
        [now apply nearest_le_pow|apply pow2_le; lia].
    + assert (PyFloat.exponent y = (PyFloat.ilog2 y - 52)%Z) as Hn.
      { pose proof (exponent_min x). unfold PyFloat.exponent in *. lia. }
      unfold PyFloat.nearest.
      rewrite (Z.add_comm _ 52), pow2_plus. apply scale_le.
      apply pow2_le_inject; [lia|].
      apply round_half_even_ge. now apply scaled_ge.
Qed.

(** A multiple of the unit in the last place is its own rounding. *)
Lemma nearest_int x k :
  x * 2 ^ (- PyFloat.exponent x) == inject_Z k -> PyFloat.nearest x == x.
Proof.
  intros H. unfold PyFloat.nearest.
  rewrite (round_half_even_Qeq _ _ H), round_half_even_Z, <- H.
  apply unscale.
Qed.

Lemma nearest_idem x :
  0 < x -> 0 < PyFloat.nearest x ->
  PyFloat.nearest (PyFloat.nearest x) == PyFloat.nearest x.
Proof.
  intros Hx Hy.
  set (e := PyFloat.exponent x).
  set (m := round_half_even (x * 2 ^ (- e))).
  assert (PyFloat.nearest x == inject_Z m * 2 ^ e) as Hdef by reflexivity.
  set (y := PyFloat.nearest x) in *.
  assert (m <= 2 ^ 53)%Z as Hm.
  { apply round_half_even_le, Qlt_le_weak, scaled_lt, Hx. }
  assert (y <= 2 ^ (e + 53)) as Hyle by now apply nearest_le_pow.
  destruct (ilog2_spec y Hy) as [Hlo _].
  assert (PyFloat.ilog2 y <= e + 53)%Z as Hl.
  { apply (Qpower_le_compat_l_inv 2); [lra|reflexivity]. }
  pose proof (exponent_min x) as Hmin. fold e in Hmin.
  set (e' := PyFloat.exponent y).
  assert (e' = Z.max (PyFloat.ilog2 y - 52) (-1074)) as He' by reflexivity.
  destruct (Z.le_gt_cases e' e) as [Hle|Hgt].
  - apply (nearest_int y (m * 2 ^ (e - e'))). fold e'.
    rewrite inject_Z_mult, pow2_inject by lia.
    rewrite Hdef. rewrite <- Qmult_assoc, <- pow2_plus.
    now replace (e + - e')%Z with (e - e')%Z by lia.
  - assert (PyFloat.ilog2 y = e + 53)%Z as Hil by lia.
    assert (e' = e + 1)%Z as He1 by lia.
    apply (nearest_int y (2 ^ 52)). fold e'. rewrite He1.
    rewrite Hil in Hlo.
    assert (2 ^ 53 <= m)%Z as Hm'.
    { rewrite Zle_Qle, pow2_inject by lia.
      rewrite (Z.add_comm e), pow2_plus, Hdef in Hlo.
      pose proof (pow2_pos e).
      apply (Qmult_le_r _ _ (2 ^ e)); assumption. }
    assert (m = 2 ^ 53)%Z as Em by lia.
    rewrite Hdef, Em. rewrite !pow2_inject by lia.
    rewrite <- Qmult_assoc, <- !pow2_plus.
    now replace (53 + (e + - (e + 1)))%Z with 52%Z by lia.
Qed.

End Nearest.

Section Fl.

Local Open Scope Q_scope.

Lemma fl_pos x : 0 < x -> PyFloat.fl x = Qred (PyFloat.nearest x).
Proof. intros H. unfold PyFloat.fl. now rewrite (proj1 (Qlt_alt 0 x) H). Qed.

Lemma fl_zero x : x == 0 -> PyFloat.fl x = 0.
Proof. intros H. now rewrite (fl_Qeq x 0 H). Qed.

Lemma fl_nonneg x : 0 <= x -> 0 <= PyFloat.fl x.
Proof.
  intros H. destruct (Qle_lt_or_eq _ _ H) as [Hx|Hx].
  - rewrite (fl_pos x Hx), Qred_correct. now apply nearest_nonneg.
  - rewrite (fl_zero x); [lra|now symmetry].
Qed.

Lemma fl_mono x y : 0 <= x -> x <= y -> PyFloat.fl x <= PyFloat.fl y.
Proof.
  intros H Hxy. destruct (Qle_lt_or_eq _ _ H) as [Hx|Hx].
  - rewrite (fl_pos x Hx), (fl_pos y) by lra. rewrite !Qred_correct.
    now apply nearest_mono.
  - rewrite (fl_zero x) by now symmetry. apply fl_nonneg. lra.
Qed.

Lemma fl_idem x : 0 <= x -> PyFloat.fl (PyFloat.fl x) = PyFloat.fl x.
Proof.
  intros H. destruct (Qle_lt_or_eq _ _ H) as [Hx|Hx].
  2:{ rewrite (fl_zero x) by now symmetry. reflexivity. }
  rewrite (fl_pos x Hx).
  pose proof (nearest_nonneg x Hx) as Hn.
  destruct (Qle_lt_or_eq _ _ Hn) as [Hy|Hy].
  - rewrite (fl_Qeq _ _ (Qred_correct _)), (fl_pos _ Hy).
    apply Qred_complete. now apply nearest_idem.
  - rewrite (fl_zero (Qred _)) by (rewrite Qred_correct; now symmetry).
    symmetry. change 0 with (Qred 0). apply Qred_complete. now symmetry.
Qed.

Lemma fl_1 : PyFloat.fl 1 = 1.
Proof. reflexivity. Qed.

Lemma fl_100 : PyFloat.fl 100 = 100.
Proof. reflexivity. Qed.

Lemma fl_bounds x (k : Q) :
  PyFloat.fl k = k -> 0 <= x <= k -> 0 <= PyFloat.fl x <= k.
Proof.
  intros Hk [H0 H1]. split; [now apply fl_nonneg|].
  rewrite <- Hk. now apply fl_mono.
Qed.

(** Rounding a number of the unit interval moves it by at most [2^-53]. *)
Lemma fl_err x :
  0 <= x <= 1 ->
  - (1 # 2 ^ 53) <= PyFloat.fl x - x <= 1 # 2 ^ 53.
Proof.
  intros [H H1]. destruct (Qle_lt_or_eq _ _ H) as [Hx|Hx].
  2:{ rewrite (fl_zero x) by now symmetry. rewrite <- Hx. split; discriminate. }
  rewrite (fl_pos x Hx), Qred_correct. unfold PyFloat.nearest.
  set (e := PyFloat.exponent x).
  assert (e <= -52)%Z as He.
  { destruct (ilog2_spec x Hx) as [Hlo _].
    assert (PyFloat.ilog2 x <= 0)%Z.
    { apply (Qpower_le_compat_l_inv 2); [|reflexivity].
      change (2 ^ 0) with 1. eapply Qle_trans; eassumption. }
    unfold e, PyFloat.exponent. lia. }
  pose proof (round_half_even_err (x * 2 ^ (- e))) as [Hlo Hhi].
  set (m := inject_Z (round_half_even (x * 2 ^ (- e)))) in *.
  pose proof (pow2_pos e) as Hs. pose proof (pow2_le e (-52) He) as Hs'.
  change (2 ^ (-52)) with (1 # 2 ^ 52) in Hs'.
  pose proof (unscale e x) as Hu.
  set (s := 2 ^ e) in *. set (xs := x * 2 ^ (- e)) in *.
  assert (m * s - x == (m - xs) * s) as -> by (rewrite <- Hu; ring).
  split.
  - apply Qle_trans with (- (1 # 2) * s).
    + apply Qle_trans with (- (1 # 2) * (1 # 2 ^ 52)); [discriminate|].
      lra.
    + apply Qmult_le_compat_r; lra.
  - apply Qle_trans with ((1 # 2) * s).
    + apply Qmult_le_compat_r; lra.
    + apply Qle_trans with ((1 # 2) * (1 # 2 ^ 52)); [lra|discriminate].
Qed.

End Fl.

(** ** Rounding and ratios *)

Section Rounding.

Local Open Scope Q_scope.

Lemma Q_of_nat_nonneg n : 0 <= Q_of_nat n.
Proof.
  unfold Q_of_nat. change 0 with (inject_Z 0). rewrite <- Zle_Qle. lia.
Qed.

Lemma Q_of_nat_pos n : (0 < n)%nat -> 0 < Q_of_nat n.
Proof.
  intros H. unfold Q_of_nat. change 0 with (inject_Z 0).
  rewrite <- Zlt_Qlt. lia.
Qed.

Lemma Q_of_nat_le a b : (a <= b)%nat -> Q_of_nat a <= Q_of_nat b.
Proof. intros H. unfold Q_of_nat. rewrite <- Zle_Qle. lia. Qed.

Lemma ratio_bounds a b :
  (a <= b)%nat -> (0 < b)%nat -> 0 <= Q_of_nat a / Q_of_nat b <= 1.
Proof.
  intros Hab Hb. pose proof (Q_of_nat_pos b Hb) as Hpos. split.
  - apply Qle_shift_div_l; [exact Hpos|].
    rewrite Qmult_0_l. apply Q_of_nat_nonneg.
  - apply Qle_shift_div_r; [exact Hpos|].
    rewrite Qmult_1_l. now apply Q_of_nat_le.
Qed.

Lemma round_half_even_bounds x (k : Z) :
  0 <= x <= inject_Z k -> (0 <= round_half_even x <= k)%Z.
Proof.
  intros [H0 Hk]. unfold round_half_even.
  assert (0 <= Qfloor x)%Z as Hf0.
  { change 0%Z with (Qfloor 0). now apply Qfloor_resp_le. }
  assert (Qfloor x <= k)%Z as Hfk.
  { rewrite <- (Qfloor_Z k). now apply Qfloor_resp_le. }
  assert (Qfloor x = k -> (x - inject_Z (Qfloor x) ?= 1 # 2) = Lt) as Htop.
  { intros E. rewrite E. rewrite <- Qlt_alt. lra. }
  destruct (x - inject_Z (Qfloor x) ?= 1 # 2) eqn:E.
  - destruct (Z.even (Qfloor x)); [lia|].
    destruct (Z.eq_dec (Qfloor x) k) as [Ek|]; [|lia].
    specialize (Htop Ek). discriminate.
  - lia.
  - destruct (Z.eq_dec (Qfloor x) k) as [Ek|]; [|lia].
    specialize (Htop Ek). discriminate.
Qed.

Lemma round_bounds x n (k : Z) :
  PyFloat.fl (inject_Z k) = inject_Z k ->
  0 <= x <= inject_Z k -> 0 <= PyFloat.round x n <= inject_Z k.
Proof.
  intros Hfix [H0 Hk]. unfold PyFloat.round.
  set (s := (10 ^ Z.of_nat n)%Z).
  assert (0 < s)%Z as Hs by (apply Z.pow_pos_nonneg; lia).
  assert (0 < inject_Z s) as HsQ.
  { change 0 with (inject_Z 0). now rewrite <- Zlt_Qlt. }
  destruct (round_half_even_bounds (x * inject_Z s) (k * s)) as [Hr0 Hrk].
  { split; [nra|]. rewrite inject_Z_mult. nra. }
  apply (fl_bounds _ _ Hfix). split.
  - apply Qle_shift_div_l; [exact HsQ|]. rewrite Qmult_0_l.
    change 0 with (inject_Z 0). now rewrite <- Zle_Qle.
  - apply Qle_shift_div_r; [exact HsQ|]. rewrite <- inject_Z_mult.
    now rewrite <- Zle_Qle.
Qed.

(** [a / b] on counts with [a <= b] is a double of the unit interval. *)
Lemma true_divide_bounds a b :
  (a <= b)%nat -> (0 < b)%nat ->
  0 <= PyFloat.true_divide (Z.of_nat a) (Z.of_nat b) <= 1.
Proof.
  intros Hab Hb. apply (fl_bounds _ 1 fl_1). now apply ratio_bounds.
Qed.

Lemma true_divide_fixed a b :
  (a <= b)%nat -> (0 < b)%nat ->
  PyFloat.fl (PyFloat.true_divide (Z.of_nat a) (Z.of_nat b))
  = PyFloat.true_divide (Z.of_nat a) (Z.of_nat b).
Proof.
  intros Hab Hb. apply fl_idem. now apply ratio_bounds.
Qed.

(** The harmonic mean of two doubles of the unit interval, computed in
    floating point, does not leave the unit interval. *)
Lemma f1_bounds p r :
  0 <= p <= 1 -> 0 <= r <= 1 -> PyFloat.fl p = p -> PyFloat.fl r = r ->
  0 < PyFloat.add p r ->
  0 <= PyFloat.div (PyFloat.mul 2 (PyFloat.mul p r)) (PyFloat.add p r) <= 1.
Proof.
  intros Hp Hr Fp Fr Hpr. unfold PyFloat.div, PyFloat.mul, PyFloat.add in *.
  assert (0 <= p * r) as Hm by nra.
  pose proof (fl_nonneg _ Hm) as Hu0.
  assert (PyFloat.fl (p * r) <= p) as Hup.
  { rewrite <- Fp at 2. apply fl_mono; [exact Hm|nra]. }
  assert (PyFloat.fl (p * r) <= r) as Hur.
  { rewrite <- Fr at 2. apply fl_mono; [exact Hm|nra]. }
  set (u := PyFloat.fl (p * r)) in *.
  assert (0 <= PyFloat.fl (2 * u)) as Hw0 by (apply fl_nonneg; lra).
  assert (PyFloat.fl (2 * u) <= PyFloat.fl (p + r)) as Hwd
    by (apply fl_mono; lra).
  set (w := PyFloat.fl (2 * u)) in *. set (d := PyFloat.fl (p + r)) in *.
  apply (fl_bounds _ 1 fl_1). split.
  - apply Qle_shift_div_l; [exact Hpr|]. lra.
  - apply Qle_shift_div_r; [exact Hpr|]. lra.
Qed.

(** [round(fl q, 3)] for a quotient [q] of the unit interval, without
    reference to the rounding functions. *)
Lemma round_3_unit_spec q :
  0 <= q <= 1 ->
  exists k : Z,
    (0 <= k <= 1000)%Z /\
    - (1 # 2 ^ 53) <= PyFloat.round (PyFloat.fl q) 3 - (k # 1000) <= 1 # 2 ^ 53 /\
    - ((1 # 2000) + (1 # 2 ^ 53)) <= (k # 1000) - q <= (1 # 2000) + (1 # 2 ^ 53).
Proof.
  intros Hq. pose proof (fl_bounds q 1 fl_1 Hq) as Hx. pose proof (fl_err q Hq) as He.
  set (x := PyFloat.fl q) in *.
  unfold PyFloat.round. change (inject_Z (10 ^ Z.of_nat 3)) with 1000.
  set (k := round_half_even (x * 1000)).
  destruct (round_half_even_bounds (x * 1000) 1000) as [Hk0 Hk1].
  { change (inject_Z 1000) with 1000. lra. }
  fold k in Hk0, Hk1.
  pose proof (round_half_even_err (x * 1000)) as Hr. fold k in Hr.
  assert (k # 1000 == inject_Z k / 1000) as Ek.
  { unfold Qeq. cbn. lia. }
  assert (0 <= inject_Z k <= 1000) as HkQ.
  { change 0 with (inject_Z 0). change 1000 with (inject_Z 1000).
    rewrite <- !Zle_Qle. lia. }
  exists k. split; [lia|]. split.
  - rewrite Ek. apply fl_err. split.
    + apply Qle_shift_div_l; [reflexivity|]. lra.
    + apply Qle_shift_div_r; [reflexivity|]. lra.
  - rewrite Ek.
    assert (inject_Z k / 1000 - x == (inject_Z k - x * 1000) / 1000) as E
      by (field).
    assert (- (1 # 2000) <= inject_Z k / 1000 - x <= 1 # 2000) as Hd.
    { rewrite E. split.
      - apply Qle_shift_div_l; [reflexivity|]. lra.
      - apply Qle_shift_div_r; [reflexivity|]. lra. }
    lra.
Qed.

Lemma between_true lo hi x :
  TrueMetrics.between lo hi x = true <-> lo <= x <= hi.
Proof.
  unfold TrueMetrics.between. rewrite andb_true_iff, !Qle_bool_iff. tauto.
Qed.

End Rounding.

(** ** Counting *)

Section Counting.

Context {A : Type}.
Implicit Types (p q : A -> bool) (l : list A).

Lemma count_cons p x l :
  count p (x :: l) = ((if p x then 1 else 0) + count p l)%nat.
Proof. unfold count. simpl. now destruct (p x). Qed.

Lemma count_filter p q l :
  count p (List.filter q l) = count (fun x => q x && p x) l.
Proof.
  induction l as [|x l IH]; [reflexivity|].
  simpl. destruct (q x) eqn:Hq.
  - rewrite !count_cons, Hq, IH. reflexivity.
  - rewrite count_cons, Hq, IH. reflexivity.
Qed.

Lemma length_filter_count q l : length (List.filter q l) = count q l.
Proof. reflexivity. Qed.

Lemma count_existsb_false p q l :
  existsb q l = false -> count (fun x => q x && p x) l = 0%nat.
Proof.
  induction l as [|x l IH]; [reflexivity|].
  simpl. intros [Hx Hl]%orb_false_elim.
  rewrite count_cons, Hx, (IH Hl). reflexivity.
Qed.

Lemma filter_nil_existsb q l :
  List.filter q l = [] <-> existsb q l = false.
Proof.
  induction l as [|x l IH]; [easy|].
  simpl. destruct (q x); simpl; [easy|exact IH].
Qed.

End Counting.

(** ** Metrics *)

Section Metrics.

Import GroundTruthBox.
Implicit Types (boxes : list GroundTruthBox.t) (ym : YoloMetrics.t).

Lemma true_metrics_args_unverified boxes ym :
  existsb is_verified boxes = false ->
  true_metrics_args boxes ym =
  TrueMetrics.mk 0 0 0 0 0 0 0 0
    (dict_get (YoloMetrics.avg_confidence ym) 0%Q)
    (dict_get (YoloMetrics.box_count ym) 0)
    (dict_get (YoloMetrics.fps ym) 0%Q).
Proof.
  intros H%filter_nil_existsb. unfold true_metrics_args. now rewrite H.
Qed.

Lemma true_metrics_args_verified boxes ym :
  existsb is_verified boxes = true ->
  true_metrics_args boxes ym =
  let verified_boxes := List.filter is_verified boxes in
  let true_positives := count is_correct verified_boxes in
  let false_positives :=
    count (fun b => negb (is_correct b) && negb (is_manual b)) verified_boxes in
  let false_negatives :=
    count (fun b => is_manual b && negb (is_verified b)) boxes in
  let total_verified := length verified_boxes in
  let precision :=
    if (0 <? true_positives + false_positives)%nat
    then PyFloat.true_divide (Z.of_nat true_positives)
           (Z.of_nat (true_positives + false_positives))
    else 0%Q in
  let recall :=
    if (0 <? true_positives + false_negatives)%nat
    then PyFloat.true_divide (Z.of_nat true_positives)
           (Z.of_nat (true_positives + false_negatives))
    else if (true_positives =? 0)%nat then 0%Q else 1%Q in
  let f1_score :=
    match Qcompare 0 (PyFloat.add precision recall) with
    | Lt => PyFloat.div (PyFloat.mul 2 (PyFloat.mul precision recall))
              (PyFloat.add precision recall)
    | _ => 0%Q
    end in
  let fp_rate :=
    if (0 <? total_verified)%nat
    then PyFloat.mul (PyFloat.true_divide (Z.of_nat false_positives)
                        (Z.of_nat total_verified)) 100
    else 0%Q in
  TrueMetrics.mk true_positives false_positives false_negatives
    total_verified (PyFloat.round precision 3) (PyFloat.round recall 3)
    (PyFloat.round f1_score 3) (PyFloat.round fp_rate 1)
    (dict_get (YoloMetrics.avg_confidence ym) 0%Q)
    (dict_get (YoloMetrics.box_count ym) 0)
    (dict_get (YoloMetrics.fps ym) 0%Q).
Proof.
  intros H. unfold true_metrics_args.
  destruct (List.filter is_verified boxes) eqn:E; [|reflexivity].
  apply filter_nil_existsb in E. congruence.
Qed.

Lemma verified_split (l : list GroundTruthBox.t) :
  length l =
  (count is_correct l +
   count (fun b => negb (is_correct b) && negb (is_manual b)) l +
   count (fun b => negb (is_correct b) && is_manual b) l)%nat.
Proof.
  induction l as [|b l IH]; [reflexivity|].
  rewrite !count_cons. simpl length. rewrite IH.
  destruct (is_correct b), (is_manual b); simpl; lia.
Qed.

(** The four counts, in terms of the whole input list. *)
Lemma true_metrics_args_counts boxes ym :
  let m := true_metrics_args boxes ym in
  TrueMetrics.true_positives m
    = count (fun b => is_verified b && is_correct b) boxes /\
  TrueMetrics.false_positives m
    = count (fun b => is_verified b &&
                      (negb (is_correct b) && negb (is_manual b))) boxes /\
  TrueMetrics.total_verified m = count is_verified boxes /\
  TrueMetrics.false_negatives m
    = if existsb is_verified boxes
      then count (fun b => is_manual b && negb (is_verified b)) boxes
      else 0%nat.
Proof.
  destruct (existsb is_verified boxes) eqn:E.
  - rewrite (true_metrics_args_verified _ _ E). cbn zeta.
    cbn [TrueMetrics.true_positives TrueMetrics.false_positives
         TrueMetrics.total_verified TrueMetrics.false_negatives].
    rewrite !count_filter. auto.
  - rewrite (true_metrics_args_unverified _ _ E). cbn.
    rewrite !count_existsb_false by exact E.
    repeat split.
    unfold count. apply filter_nil_existsb in E. now rewrite E.
Qed.

Local Open Scope Q_scope.

(** The four rates handed to [TrueMetrics] are within the schema's bounds. *)
Lemma true_metrics_args_rates boxes ym :
  let m := true_metrics_args boxes ym in
  0 <= TrueMetrics.precision m <= 1 /\
  0 <= TrueMetrics.recall m <= 1 /\
  0 <= TrueMetrics.f1_score m <= 1 /\
  0 <= TrueMetrics.false_positive_rate m <= 100.
Proof.
  destruct (existsb is_verified boxes) eqn:E.
  2:{ rewrite (true_metrics_args_unverified _ _ E). cbn. lra. }
  rewrite (true_metrics_args_verified _ _ E). cbv zeta.
  set (vb := List.filter is_verified boxes).
  set (tp := count is_correct vb).
  set (fp := count (fun b => negb (is_correct b) && negb (is_manual b)) vb).
  set (fn := count (fun b => is_manual b && negb (is_verified b)) boxes).
  match goal with
  | |- context [TrueMetrics.mk _ _ _ _ (PyFloat.round ?x 3)
                  (PyFloat.round ?y 3)] =>
      set (p := x); set (r := y)
  end.
  cbn [TrueMetrics.precision TrueMetrics.recall TrueMetrics.f1_score
       TrueMetrics.false_positive_rate].
  assert (0 <= p <= 1 /\ PyFloat.fl p = p) as [Hp Fp].
  { subst p. destruct (Nat.ltb_spec 0 (tp + fp)); [|split; [lra|reflexivity]].
    split; [apply true_divide_bounds|apply true_divide_fixed]; lia. }
  assert (0 <= r <= 1 /\ PyFloat.fl r = r) as [Hr Fr].
  { subst r. destruct (Nat.ltb_spec 0 (tp + fn)).
    - split; [apply true_divide_bounds|apply true_divide_fixed]; lia.
    - destruct (tp =? 0)%nat; (split; [lra|reflexivity]). }
  assert ((tp + fp <= length vb)%nat) as Hle.
  { rewrite (verified_split vb). fold tp fp. lia. }
  repeat split.
  1,2: now apply (round_bounds p 3 1 fl_1).
  1,2: now apply (round_bounds r 3 1 fl_1).
  1,2: apply (round_bounds _ 3 1 fl_1); change (inject_Z 1) with 1;
       destruct (0 ?= PyFloat.add p r) eqn:Hc; try lra;
       rewrite <- Qlt_alt in Hc; now apply f1_bounds.
  1,2: apply (round_bounds _ 1 100 fl_100); change (inject_Z 100) with 100;
       destruct (Nat.ltb_spec 0 (length vb)); try lra;
       apply (fl_bounds _ 100 fl_100);
       destruct (true_divide_bounds fp (length vb)) as [? ?]; try lia; lra.
Qed.

Lemma check_valid_metric_id v :
  0 <= v <= 1 -> TrueMetrics.check_valid_metric v = v.
Proof.
  intros [H0 H1]. unfold TrueMetrics.check_valid_metric.
  apply Qle_bool_iff in H0, H1. now rewrite H0, H1.
Qed.

(** [calculate_true_metrics] fails only on detector fields that the schema
    refuses, and otherwise returns the computed values unchanged. *)
Lemma calculate_true_metrics_eq boxes ym :
  calculate_true_metrics boxes ym =
  if yolo_valid ym then Some (true_metrics_args boxes ym) else None.
Proof.
  unfold calculate_true_metrics, TrueMetrics.new.
  destruct (true_metrics_args_rates boxes ym) as (Hp & Hr & Hf & Hx).
  assert (TrueMetrics.constraints (true_metrics_args boxes ym) = yolo_valid ym)
    as ->.
  { unfold TrueMetrics.constraints, yolo_valid.
    apply between_true in Hp, Hr, Hf, Hx. rewrite Hp, Hr, Hf, Hx. cbn [andb].
    destruct (existsb is_verified boxes) eqn:E.
    - now rewrite (true_metrics_args_verified _ _ E).
    - now rewrite (true_metrics_args_unverified _ _ E). }
  destruct (yolo_valid ym); [|reflexivity].
  rewrite !check_valid_metric_id by assumption.
  now destruct (true_metrics_args boxes ym).
Qed.

Lemma calculate_true_metrics_Some boxes ym m :
  calculate_true_metrics boxes ym = Some m -> m = true_metrics_args boxes ym.
Proof.
  rewrite calculate_true_metrics_eq. destruct (yolo_valid ym); congruence.
Qed.

End Metrics.

(** ** Claims about the metrics *)

Section MetricClaims.

Import GroundTruthBox.
Implicit Types (boxes : list GroundTruthBox.t) (ym : YoloMetrics.t).

(** Scenario A of the specification: three detections, the first marked
    correct, the second incorrect, the third left alone.  [PyFloat.fl q] is
    the double that the literal [q] denotes. *)
Example scenario_A :
  calculate_true_metrics
    [set_is_verified true (Sample.detection "img" 0);
     set_is_correct false (set_is_verified true (Sample.detection "img" 1));
     Sample.detection "img" 2] Sample.yolo
  = Some (TrueMetrics.mk 1 1 0 2 (1 # 2) 1 (PyFloat.fl (667 # 1000)) 50
            (7 # 8) 3 (25 # 2)).
Proof. reflexivity. Qed.

(** Scenario B: one correct and one incorrect detection, three untouched
    ones and one manual box. *)
Example scenario_B :
  calculate_true_metrics
    [set_is_verified true (Sample.detection "a" 0);
     set_is_correct false (set_is_verified true (Sample.detection "a" 1));
     Sample.detection "a" 2; Sample.detection "b" 0; Sample.detection "b" 1;
     set_is_correct true
       (set_is_verified true (set_is_manual true Sample.drawn))] Sample.yolo
  = Some (TrueMetrics.mk 2 1 0 3 (PyFloat.fl (667 # 1000)) 1
            (PyFloat.fl (4 # 5)) (PyFloat.fl (333 # 10))
            (7 # 8) 3 (25 # 2)).
Proof. reflexivity. Qed.

(** Scenario C: nothing verified, no detector metrics. *)
Example scenario_C :
  calculate_true_metrics [Sample.detection "img" 0] YoloMetrics.empty
  = Some (TrueMetrics.mk 0 0 0 0 0 0 0 0 0 0 0).
Proof. reflexivity. Qed.

(** A detector confidence outside [0,1] is refused by the schema. *)
Example calculate_true_metrics_refused :
  calculate_true_metrics [Sample.detection "img" 0]
    (YoloMetrics.mk (Some 2%Q) None None) = None.
Proof. reflexivity. Qed.

(** C2, as stated, fails on a list with no verified box: the early return
    reports [false_negatives = 0] although one manual box is unverified. *)
Lemma C2_counterexample :
  let boxes := [set_is_manual true Sample.drawn] in
  count (fun b => is_manual b && negb (is_verified b)) boxes = 1%nat /\
  TrueMetrics.false_negatives <$> calculate_true_metrics boxes YoloMetrics.empty
  = Some 0%nat.
Proof. split; reflexivity. Qed.

(** C2 (amended). The returned [false_negatives] is the number of boxes of
    the whole input list with [is_manual] and not [is_verified] when at least
    one box of the list is verified, and 0 when none is. *)
Theorem C2_false_negatives boxes ym m :
  calculate_true_metrics boxes ym = Some m ->
  TrueMetrics.false_negatives m =
  if existsb is_verified boxes
  then count (fun b => is_manual b && negb (is_verified b)) boxes
  else 0%nat.
Proof.
  intros ->%calculate_true_metrics_Some.
  apply (true_metrics_args_counts boxes ym).
Qed.

Lemma C2_false_negatives_witness :
  let boxes :=
    [set_is_verified true (Sample.detection "img" 0);
     set_is_manual true Sample.drawn; Sample.detection "img" 1] in
  exists m,
    calculate_true_metrics boxes Sample.yolo = Some m /\
    TrueMetrics.false_negatives m = 1%nat.
Proof.
  eexists. split; [vm_compute; reflexivity|].
  apply (C2_false_negatives
           [set_is_verified true (Sample.detection "img" 0);
            set_is_manual true Sample.drawn; Sample.detection "img" 1]
           Sample.yolo).
  vm_compute; reflexivity.
Defined.

(** One correct detection and 79 manual boxes still to verify: the quotient
    [1 / 80] is a double just above [0.0125], so the recall is [0.013]. *)
Example recall_one_in_eighty :
  TrueMetrics.recall <$>
    calculate_true_metrics
      (set_is_verified true (Sample.detection "img" 0) ::
       repeat (set_is_manual true Sample.drawn) 79) Sample.yolo
  = Some (PyFloat.fl (13 # 1000)).
Proof. vm_compute. reflexivity. Qed.

(** C3. With at least one verified box, the returned recall is
    [true_positives / (true_positives + false_negatives)] rounded to three
    decimals when that sum is positive; otherwise it is 1 when
    [true_positives > 0] and 0 when [true_positives = 0].  The two counts
    are those of the input list: the verified boxes marked correct, and the
    manual boxes not verified.  The division and [round] are those of
    Python's floats, so that in the first case the recall lies within
    [2^-53] of some [k / 1000] that lies within [1/2000 + 2^-53] of the
    exact quotient. *)
Theorem C3_recall boxes ym m :
  existsb is_verified boxes = true ->
  calculate_true_metrics boxes ym = Some m ->
  let tp := count (fun b => is_verified b && is_correct b) boxes in
  let fn := count (fun b => is_manual b && negb (is_verified b)) boxes in
  TrueMetrics.true_positives m = tp /\
  TrueMetrics.false_negatives m = fn /\
  TrueMetrics.recall m =
    (if (0 <? tp + fn)%nat
     then PyFloat.round
            (PyFloat.true_divide (Z.of_nat tp) (Z.of_nat (tp + fn))) 3
     else if (0 <? tp)%nat then 1%Q else 0%Q) /\
  ((0 < tp + fn)%nat ->
   exists k : Z,
     (0 <= k <= 1000)%Z /\
     (- (1 # 2 ^ 53) <= TrueMetrics.recall m - (k # 1000) <= 1 # 2 ^ 53)%Q /\
     (- ((1 # 2000) + (1 # 2 ^ 53))
      <= (k # 1000) - Q_of_nat tp / Q_of_nat (tp + fn)
      <= (1 # 2000) + (1 # 2 ^ 53))%Q).
Proof.
  intros Hv ->%calculate_true_metrics_Some. cbv zeta.
  destruct (true_metrics_args_counts boxes ym) as (Htp & _ & _ & Hfn).
  rewrite Hv in Hfn. cbv zeta in Htp, Hfn.
  split; [exact Htp|]. split; [exact Hfn|].
  assert (TrueMetrics.recall (true_metrics_args boxes ym) =
          if (0 <? TrueMetrics.true_positives (true_metrics_args boxes ym) +
                   TrueMetrics.false_negatives (true_metrics_args boxes ym))%nat
          then PyFloat.round
                 (PyFloat.true_divide
                    (Z.of_nat (TrueMetrics.true_positives
                                 (true_metrics_args boxes ym)))
                    (Z.of_nat (TrueMetrics.true_positives
                                 (true_metrics_args boxes ym) +
                               TrueMetrics.false_negatives
                                 (true_metrics_args boxes ym)))) 3
          else if (0 <? TrueMetrics.true_positives
                          (true_metrics_args boxes ym))%nat
               then 1%Q else 0%Q) as Hrec.
  { rewrite (true_metrics_args_verified _ _ Hv). cbv zeta.
    cbn [TrueMetrics.true_positives TrueMetrics.false_negatives
         TrueMetrics.recall].
    destruct (0 <? _ + _)%nat; [reflexivity|].
    now destruct (count is_correct (List.filter is_verified boxes)). }
  rewrite Htp, Hfn in Hrec. split; [exact Hrec|].
  intros Hpos. rewrite Hrec.
  set (tp := count (fun b => is_verified b && is_correct b) boxes) in *.
  set (fn := count (fun b => is_manual b && negb (is_verified b)) boxes) in *.
  destruct (Nat.ltb_spec 0 (tp + fn)) as [_|]; [|lia].
  apply round_3_unit_spec. apply ratio_bounds; lia.
Qed.

Lemma C3_recall_witness :
  let boxes :=
    set_is_verified true (Sample.detection "img" 0) ::
    repeat (set_is_manual true Sample.drawn) 79 in
  exists m,
    calculate_true_metrics boxes Sample.yolo = Some m /\
    TrueMetrics.true_positives m = 1%nat /\
    TrueMetrics.false_negatives m = 79%nat /\
    TrueMetrics.recall m = PyFloat.fl (13 # 1000).
Proof.
  destruct (calculate_true_metrics
              (set_is_verified true (Sample.detection "img" 0) ::
               repeat (set_is_manual true Sample.drawn) 79) Sample.yolo)
    as [m|] eqn:E.
  2:{ vm_compute in E. discriminate E. }
  exists m. split; [exact E|].
  destruct (C3_recall
              (set_is_verified true (Sample.detection "img" 0) ::
               repeat (set_is_manual true Sample.drawn) 79) Sample.yolo m
              eq_refl E) as (Htp & Hfn & Hrec & _).
  split; [exact Htp|]. split; [exact Hfn|]. exact Hrec.
Defined.

(** C6. Whatever the boxes and the detector metrics, the returned precision,
    recall and F1 score lie in [0,1] and the false-positive rate in
    [0,100]. *)
Theorem C6_rates_in_range boxes ym m :
  calculate_true_metrics boxes ym = Some m ->
  (0 <= TrueMetrics.precision m <= 1 /\
   0 <= TrueMetrics.recall m <= 1 /\
   0 <= TrueMetrics.f1_score m <= 1 /\
   0 <= TrueMetrics.false_positive_rate m <= 100)%Q.
Proof.
  intros ->%calculate_true_metrics_Some.
  apply (true_metrics_args_rates boxes ym).
Qed.

Lemma C6_rates_in_range_witness :
  let boxes :=
    [set_is_verified true (Sample.detection "img" 0);
     set_is_correct false (set_is_verified true (Sample.detection "img" 1));
     set_is_verified true (Sample.detection "img" 2)] in
  exists m,
    calculate_true_metrics boxes Sample.yolo = Some m /\
    (0 <= TrueMetrics.precision m <= 1 /\
     0 <= TrueMetrics.recall m <= 1 /\
     0 <= TrueMetrics.f1_score m <= 1 /\
     0 <= TrueMetrics.false_positive_rate m <= 100)%Q.
Proof.
  eexists. split; [vm_compute; reflexivity|].
  apply (C6_rates_in_range
           [set_is_verified true (Sample.detection "img" 0);
            set_is_correct false
              (set_is_verified true (Sample.detection "img" 1));
            set_is_verified true (Sample.detection "img" 2)]
           Sample.yolo).
  vm_compute; reflexivity.
Defined.

(** C10. The returned counts satisfy
    [true_positives + false_positives <= total_verified]; the difference is
    the number of verified boxes that are manual and marked incorrect, which
    are counted in neither. *)
Theorem C10_tp_fp_le_total_verified boxes ym m :
  calculate_true_metrics boxes ym = Some m ->
  (TrueMetrics.true_positives m + TrueMetrics.false_positives m
   <= TrueMetrics.total_verified m)%nat /\
  TrueMetrics.total_verified m =
  (TrueMetrics.true_positives m + TrueMetrics.false_positives m +
   count (fun b => is_verified b && (negb (is_correct b) && is_manual b))
     boxes)%nat.
Proof.
  intros ->%calculate_true_metrics_Some.
  destruct (true_metrics_args_counts boxes ym) as (-> & -> & -> & _).
  assert (count is_verified boxes =
          (count (fun b => is_verified b && is_correct b) boxes +
           count (fun b => is_verified b &&
                           (negb (is_correct b) && negb (is_manual b))) boxes +
           count (fun b => is_verified b &&
                           (negb (is_correct b) && is_manual b)) boxes)%nat)
    as ->; [|lia].
  change (count is_verified boxes)
    with (length (List.filter is_verified boxes)).
  now rewrite (verified_split (List.filter is_verified boxes)), !count_filter.
Qed.

Lemma C10_tp_fp_le_total_verified_witness :
  let boxes :=
    [set_is_verified true (Sample.detection "img" 0);
     set_is_correct false
       (set_is_verified true (set_is_manual true Sample.drawn))] in
  exists m,
    calculate_true_metrics boxes Sample.yolo = Some m /\
    (TrueMetrics.true_positives m + TrueMetrics.false_positives m
     <= TrueMetrics.total_verified m)%nat /\
    TrueMetrics.total_verified m =
    (TrueMetrics.true_positives m + TrueMetrics.false_positives m + 1)%nat.
Proof.
  eexists. split; [vm_compute; reflexivity|].
  apply (C10_tp_fp_le_total_verified
           [set_is_verified true (Sample.detection "img" 0);
            set_is_correct false
              (set_is_verified true (set_is_manual true Sample.drawn))]
           Sample.yolo).
  vm_compute; reflexivity.
Defined.

End MetricClaims.

(** ** Rebuilding the stored boxes *)

Section Rebuild.

Import GroundTruthBox.
Implicit Types (boxes : list GroundTruthBox.t) (ym : YoloMetrics.t)
  (images : list ImageRecord.t).

Lemma count_pos_existsb {A} (p : A -> bool) (l : list A) :
  existsb p l = true -> (0 < count p l)%nat.
Proof.
  induction l as [|x l IH]; [discriminate|].
  rewrite count_cons. simpl. destruct (p x); simpl; [lia|exact IH].
Qed.

Lemma existsb_count {A} (p : A -> bool) (l : list A) :
  existsb p l = (0 <? count p l)%nat.
Proof.
  destruct (existsb p l) eqn:E.
  - apply count_pos_existsb in E. symmetry. now apply Nat.ltb_lt.
  - unfold count. now rewrite (proj2 (filter_nil_existsb p l) E).
Qed.

(** The metrics are a function of four counts over the list. *)
Lemma true_metrics_args_by_counts boxes boxes' ym :
  count is_verified boxes = count is_verified boxes' ->
  count (fun b => is_verified b && is_correct b) boxes
  = count (fun b => is_verified b && is_correct b) boxes' ->
  count (fun b => is_verified b && (negb (is_correct b) && negb (is_manual b)))
    boxes
  = count (fun b => is_verified b && (negb (is_correct b) && negb (is_manual b)))
      boxes' ->
  count (fun b => is_manual b && negb (is_verified b)) boxes
  = count (fun b => is_manual b && negb (is_verified b)) boxes' ->
  true_metrics_args boxes ym = true_metrics_args boxes' ym.
Proof.
  intros Hv Htp Hfp Hfn.
  assert (existsb is_verified boxes = existsb is_verified boxes') as Hex
    by now rewrite !existsb_count, Hv.
  destruct (existsb is_verified boxes) eqn:E.
  - rewrite (true_metrics_args_verified _ _ E).
    rewrite (true_metrics_args_verified boxes') by congruence.
    cbv zeta. rewrite !count_filter, !length_filter_count.
    now rewrite Hv, Htp, Hfp, Hfn.
  - rewrite (true_metrics_args_unverified _ _ E).
    now rewrite (true_metrics_args_unverified boxes') by congruence.
Qed.

Lemma GroundTruthBox_validate_Some d g :
  GroundTruthBox_validate d = Some g ->
  sanitize_label (label d) = Some (label g) /\
  (0 <= confidence g <= 1)%Q /\
  confidence g = confidence d /\
  box_id g = box_id d /\ is_verified g = is_verified d /\
  is_correct g = is_correct d /\ is_manual g = is_manual d /\
  verified_at g = verified_at d /\ notes g = notes d.
Proof.
  unfold GroundTruthBox_validate.
  destruct (TrueMetrics.between 0 1 (confidence d)) eqn:Hc; [|discriminate].
  destruct (_ && _ && _); [|discriminate]. cbn [andb].
  destruct (sanitize_label (label d)) as [lbl|]; [|discriminate].
  intros [= <-]. cbn. apply between_true in Hc. tauto.
Qed.


Lemma count_Forall2 {A B} (p : A -> bool) (q : B -> bool) l l' :
  Forall2 (fun a b => p a = q b) l l' -> count p l = count q l'.
Proof.
  induction 1 as [|a b l l' H _ IH]; [reflexivity|].
  rewrite !count_cons, H, IH. reflexivity.
Qed.

(** The rebuilt boxes are the stored ones with the label stripped. *)
Lemma load_boxes_Some images l :
  load_boxes images = Some l ->
  Forall2 (fun d g => GroundTruthBox_validate d = Some g) (all_boxes images) l.
Proof. intros H. now apply mapM_Some_1. Qed.

Lemma load_boxes_count images l (f : bool -> bool -> bool -> bool) :
  load_boxes images = Some l ->
  count (fun b => f (is_verified b) (is_correct b) (is_manual b)) l
  = count (fun b => f (is_verified b) (is_correct b) (is_manual b))
      (all_boxes images).
Proof.
  intros H%load_boxes_Some. symmetry. apply count_Forall2.
  eapply Forall2_impl; [exact H|]. intros d g Hg. cbv beta.
  apply GroundTruthBox_validate_Some in Hg.
  destruct Hg as (_ & _ & _ & _ & -> & -> & -> & _). reflexivity.
Qed.

Lemma load_boxes_length images l :
  load_boxes images = Some l -> length l = length (all_boxes images).
Proof. intros H%load_boxes_Some. symmetry. eapply Forall2_length, H. Qed.

Lemma load_boxes_verified images l :
  load_boxes images = Some l ->
  count is_verified l = count is_verified (all_boxes images).
Proof. intros H. exact (load_boxes_count images l (fun v _ _ => v) H). Qed.

(** The metrics of the rebuilt boxes are those of the stored ones. *)
Lemma load_boxes_metrics images l ym :
  load_boxes images = Some l ->
  calculate_true_metrics l ym = calculate_true_metrics (all_boxes images) ym.
Proof.
  intros H. unfold calculate_true_metrics. f_equal.
  apply true_metrics_args_by_counts.
  - exact (load_boxes_count images l (fun v _ _ => v) H).
  - exact (load_boxes_count images l (fun v c _ => v && c) H).
  - exact (load_boxes_count images l (fun v c m => v && (negb c && negb m)) H).
  - exact (load_boxes_count images l (fun v _ m => m && negb v) H).
Qed.

(** The handler in terms of the stored boxes. *)
Lemma validate_detections_eq (st : store) session_id vs session_data :
  st !! session_id = Some session_data ->
  validate_detections st session_id vs =
  match load_boxes (Session.images session_data) with
  | None => (Raise (HTTPExceptionFrom 500 ValidationError), st)
  | Some _ =>
      match validate_boxes vs (Session.images session_data) with
      | Raise e => (Raise (HTTPExceptionFrom 500 e), st)
      | Ok images' =>
          match load_boxes images' with
          | None => (Raise (HTTPExceptionFrom 500 ValidationError), st)
          | Some _ =>
              match calculate_true_metrics (all_boxes images')
                      match last (Session.images session_data) with
                      | Some image_data => ImageRecord.yolo_metrics image_data
                      | None => YoloMetrics.empty
                      end with
              | None => (Raise (HTTPExceptionFrom 500 ValidationError), st)
              | Some true_metrics =>
                  (Ok (ValidationResponse.mk session_id true_metrics
                         (count is_verified (all_boxes images'))
                         (length images') (length (all_boxes images'))),
                   <[session_id :=
                       Session.set_true_metrics (Some true_metrics)
                         (Session.set_images images' session_data)]> st)
              end
          end
      end
  end.
Proof.
  intros Hsd. unfold validate_detections. rewrite Hsd.
  destruct (load_boxes (Session.images session_data)) as [l0|]; [|reflexivity].
  destruct (validate_boxes vs (Session.images session_data)) as [images'|];
    [|reflexivity].
  destruct (load_boxes images') as [l|] eqn:Hl; [|reflexivity].
  rewrite (load_boxes_metrics _ _ _ Hl), (load_boxes_verified _ _ Hl),
    (load_boxes_length _ _ Hl).
  reflexivity.
Qed.

Lemma get_validations_eq (st : store) session_id data :
  st !! session_id = Some data ->
  get_validations st session_id =
  match load_boxes (Session.images data) with
  | None => (Raise (HTTPExceptionFrom 500 ValidationError), st)
  | Some _ =>
      if (0 <? count is_verified (all_boxes (Session.images data)))%nat then
        match calculate_true_metrics (all_boxes (Session.images data))
                (latest_yolo_metrics (Session.images data)) with
        | None => (Raise (HTTPExceptionFrom 500 ValidationError), st)
        | Some true_metrics =>
            (Ok (Session.set_true_metrics (Some true_metrics) data),
             <[session_id := Session.set_true_metrics (Some true_metrics) data]>
               st)
        end
      else (Ok data, st)
  end.
Proof.
  intros Hsd. unfold get_validations. rewrite Hsd.
  destruct (load_boxes (Session.images data)) as [l|] eqn:Hl; [|reflexivity].
  rewrite (load_boxes_metrics _ _ _ Hl), (load_boxes_verified _ _ Hl).
  reflexivity.
Qed.

End Rebuild.

(** ** The loop over a batch *)

Local Open Scope list_scope.

Section Batch.

Import GroundTruthBox.
Implicit Types (v : BoxValidation.t) (b : GroundTruthBox.t)
  (boxes : list GroundTruthBox.t) (images : list ImageRecord.t).

(** What the writes of lines 105-110 leave in the box. *)
Lemma apply_validation_fields v b :
  let b' := apply_validation v b in
  is_verified b' = true /\
  is_correct b' = BoxValidation.is_correct v /\
  confidence b' = dict_get (BoxValidation.confidence_override v) (confidence b) /\
  notes b' = (if truthy (BoxValidation.notes v)
              then BoxValidation.notes v else notes b) /\
  verified_at b' = verified_at b /\
  box_id b' = box_id b /\ is_manual b' = is_manual b /\
  label b' = label b /\ class_id b' = class_id b /\
  (x1 b', y1 b', x2 b', y2 b') = (x1 b, y1 b, x2 b, y2 b).
Proof.
  unfold apply_validation.
  destruct (BoxValidation.confidence_override v), (truthy (BoxValidation.notes v));
    cbn; repeat split; reflexivity.
Qed.


Lemma has_box_id_apply_validation i v b :
  has_box_id i (apply_validation v b) = has_box_id i b.
Proof.
  unfold has_box_id.
  now destruct (apply_validation_fields v b) as (_ & _ & _ & _ & _ & -> & _).
Qed.

Lemma update_boxes_Some v boxes boxes' :
  update_boxes v boxes = Some boxes' ->
  exists pre b post,
    boxes = pre ++ b :: post /\
    forallb (fun x => negb (has_box_id (BoxValidation.box_id v) x)) pre = true /\
    has_box_id (BoxValidation.box_id v) b = true /\
    boxes' = pre ++ apply_validation v b :: post.
Proof.
  revert boxes'. induction boxes as [|b boxes IH]; intros boxes'; [discriminate|].
  simpl. destruct (has_box_id (BoxValidation.box_id v) b) eqn:Hb.
  - intros [= <-]. now exists [], b, boxes.
  - destruct (update_boxes v boxes) as [r|]; [|discriminate].
    intros [= <-]. destruct (IH r eq_refl) as (pre & x & post & -> & Hpre & Hx & ->).
    exists (b :: pre), x, post. simpl. now rewrite Hb, Hpre.
Qed.

Lemma update_boxes_None v boxes :
  update_boxes v boxes = None <->
  existsb (has_box_id (BoxValidation.box_id v)) boxes = false.
Proof.
  induction boxes as [|b boxes IH]; [easy|].
  simpl. destruct (has_box_id (BoxValidation.box_id v) b); [easy|].
  simpl. rewrite <- IH. now destruct (update_boxes v boxes).
Qed.



(** Identifier, timestamp and detector metrics of every image survive. *)
Lemma update_images_meta v i images :
  map image_meta (fst (update_images v i images)) = map image_meta images.
Proof.
  induction images as [|img images IH]; [reflexivity|].
  simpl. destruct (String.eqb (ImageRecord.image_id img) i).
  - now destruct (update_boxes v (ImageRecord.boxes img)).
  - destruct (update_images v i images). simpl in *. now rewrite IH.
Qed.

Lemma validate_box_meta v images images' :
  validate_box v images = Ok images' ->
  map image_meta images' = map image_meta images.
Proof.
  unfold validate_box. destruct (parse_box_id _); [| discriminate |].
  - now intros [= <-].
  - intros [= <-]. apply update_images_meta.
Qed.

Lemma validate_boxes_meta vs images images' :
  validate_boxes vs images = Ok images' ->
  map image_meta images' = map image_meta images.
Proof.
  revert images. induction vs as [|v vs IH]; intros images; simpl.
  - now intros [= <-].
  - destruct (validate_box v images) as [r|] eqn:Hv; [|discriminate].
    intros H. rewrite (IH _ H). now apply validate_box_meta in Hv.
Qed.





(** A correction without the separator, or for an image identifier or a box
    identifier that is not there, leaves the images as they are. *)
Lemma validate_box_skip v images :
  match parse_box_id (BoxValidation.box_id v) with
  | NoSeparator => True
  | BadIndex _ => False
  | Parsed i _ =>
      forallb (fun img =>
                 negb (String.eqb (ImageRecord.image_id img) i) ||
                 negb (existsb (has_box_id (BoxValidation.box_id v))
                         (ImageRecord.boxes img))) images = true
  end ->
  validate_box v images = Ok images.
Proof.
  unfold validate_box.
  destruct (parse_box_id _) as [| |i n]; [reflexivity|contradiction|].
  intros H. f_equal.
  induction images as [|img images IH]; [reflexivity|].
  simpl in *. apply andb_prop in H as [Himg Hrest].
  destruct (String.eqb (ImageRecord.image_id img) i).
  - simpl in Himg. apply negb_true_iff, update_boxes_None in Himg.
    now rewrite Himg.
  - specialize (IH Hrest).
    destruct (update_images v i images). simpl in *. now rewrite IH.
Qed.








End Batch.

(** ** The validation handler *)

Section ValidateDetections.

Implicit Types (st : store) (v : BoxValidation.t).


(** The handler sees the batch only through the loop. *)
Lemma validate_detections_ext st session_id vs1 vs2 :
  (forall images, validate_boxes vs1 images = validate_boxes vs2 images) ->
  validate_detections st session_id vs1 = validate_detections st session_id vs2.
Proof.
  intros H. unfold validate_detections.
  destruct (st !! session_id) as [sd|]; [|reflexivity].
  destruct (load_boxes (Session.images sd)); [|reflexivity]. now rewrite H.
Qed.




End ValidateDetections.

(** ** Claims about the validation handler *)

Section ValidationClaims.

Import GroundTruthBox.
Implicit Types (st : store) (v : BoxValidation.t).






(** C7 does not hold of the handler: a correction that matches a box sets
    [is_verified] and [is_correct] but leaves [verified_at] as it was, here
    absent. *)
Theorem C7_verified_at_not_recorded :
  let after :=
    validate_detections Sample.files "s" [Sample.correction "img_box_0" true] in
  (exists r, fst after = Ok r) /\
  verified_at (Sample.detection "img" 0) = None /\
  head (Sample.stored_boxes (snd after))
  = Some (set_is_verified true (Sample.detection "img" 0)) /\
  verified_at <$> head (Sample.stored_boxes (snd after)) = Some None.
Proof.
  repeat split; try (vm_compute; reflexivity). eexists; vm_compute; reflexivity.
Qed.

End ValidationClaims.

(** ** Adding and deleting boxes *)

Section ManualDelete.

Import GroundTruthBox.
Implicit Types (st : store) (images pre post : list ImageRecord.t)
  (img : ImageRecord.t).


Lemma add_to_image_found image_id box pre img post :
  Forall (fun img => ImageRecord.image_id img <> image_id) pre ->
  ImageRecord.image_id img = image_id ->
  add_to_image image_id box (pre ++ img :: post) =
  let box_id := format_box_id image_id (length (ImageRecord.boxes img)) in
  let box_dict :=
    set_is_correct true
      (set_is_verified true (set_is_manual true (set_box_id (Some box_id) box))) in
  Some (box_id, box_dict,
        pre ++ ImageRecord.set_boxes (ImageRecord.boxes img ++ [box_dict]) img
            :: post).
Proof.
  intros Hpre Himg. induction Hpre as [|x pre Hne _ IH]; simpl.
  - apply String.eqb_eq in Himg. now rewrite Himg.
  - apply String.eqb_neq in Hne. rewrite Hne. simpl in IH. now rewrite IH.
Qed.

Lemma delete_from_image_missing image_id box_id images :
  Forall (fun img => ImageRecord.image_id img <> image_id) images ->
  delete_from_image image_id box_id images
  = Raise (HTTPException 404 (ImageNotFound image_id)).
Proof.
  induction 1 as [|img images Hne _ IH]; [reflexivity|].
  simpl. apply String.eqb_neq in Hne. now rewrite Hne, IH.
Qed.

Lemma delete_from_image_found image_id box_id pre img post :
  Forall (fun img => ImageRecord.image_id img <> image_id) pre ->
  ImageRecord.image_id img = image_id ->
  delete_from_image image_id box_id (pre ++ img :: post) =
  let kept :=
    List.filter (fun box => negb (has_box_id box_id box)) (ImageRecord.boxes img) in
  if (length kept <? length (ImageRecord.boxes img))%nat
  then Ok (pre ++ ImageRecord.set_boxes kept img :: post, length kept)
  else Raise (HTTPException 404 (BoxNotFound box_id)).
Proof.
  intros Hpre Himg. induction Hpre as [|x pre Hne _ IH]; simpl.
  - apply String.eqb_eq in Himg. now rewrite Himg.
  - apply String.eqb_neq in Hne. rewrite Hne. simpl in IH. rewrite IH.
    now destruct (_ <? _)%nat.
Qed.

Lemma length_filter_negb {A} (p : A -> bool) (l : list A) :
  (length (List.filter (fun x => negb (p x)) l) + count p l = length l)%nat.
Proof.
  induction l as [|x l IH]; [reflexivity|].
  rewrite count_cons. simpl. destruct (p x); simpl; lia.
Qed.

Lemma filter_negb_idem {A} (p : A -> bool) (l : list A) :
  List.filter (fun x => negb (p x)) (List.filter (fun x => negb (p x)) l)
  = List.filter (fun x => negb (p x)) l.
Proof.
  induction l as [|x l IH]; [reflexivity|].
  simpl. destruct (p x) eqn:E; simpl; [exact IH|]. now rewrite E, IH.
Qed.



(** What [delete_box] does.  When no image of the session has the
    identifier, the delete fails with the image-not-found error.  When the
    first image with the identifier has a box with the box identifier, the
    delete succeeds, keeps the other boxes in order and lowers the image's
    box count by the number of boxes that carried the identifier; a second
    delete of the same identifier then fails with the box-not-found error
    and writes nothing. *)
Lemma delete_box_spec st session_id image_id box_id sd :
  st !! session_id = Some sd ->
  (Forall (fun img => ImageRecord.image_id img <> image_id) (Session.images sd) ->
   delete_box st session_id image_id box_id =
   (Raise (HTTPExceptionFrom 500 (HTTPException 404 (ImageNotFound image_id))),
    st)) /\
  (forall pre img post,
     Session.images sd = pre ++ img :: post ->
     Forall (fun img => ImageRecord.image_id img <> image_id) pre ->
     ImageRecord.image_id img = image_id ->
     existsb (has_box_id box_id) (ImageRecord.boxes img) = true ->
     let kept :=
       List.filter (fun box => negb (has_box_id box_id box))
         (ImageRecord.boxes img) in
     let st' :=
       <[session_id :=
           Session.mk (Session.session_id sd)
             (pre ++
              ImageRecord.mk (ImageRecord.image_id img)
                (ImageRecord.timestamp img) kept (ImageRecord.yolo_metrics img)
                :: post)
             (Session.true_metrics sd)]> st in
     delete_box st session_id image_id box_id =
     (Ok (DeleteResponse.mk box_id (length kept)), st') /\
     (length kept + count (has_box_id box_id) (ImageRecord.boxes img)
      = length (ImageRecord.boxes img))%nat /\
     (0 < count (has_box_id box_id) (ImageRecord.boxes img))%nat /\
     delete_box st' session_id image_id box_id =
     (Raise (HTTPExceptionFrom 500 (HTTPException 404 (BoxNotFound box_id))),
      st')).
Proof.
  intros Hsd. split.
  - intros Hnone. unfold delete_box. rewrite Hsd.
    now rewrite (delete_from_image_missing _ _ _ Hnone).
  - intros pre img post Himages Hpre Himg Hbox kept st'.
    pose proof (length_filter_negb (has_box_id box_id) (ImageRecord.boxes img))
      as Hlen.
    pose proof (count_pos_existsb _ _ Hbox) as Hpos.
    fold kept in Hlen.
    repeat split; [|exact Hlen|exact Hpos|].
    + unfold delete_box. rewrite Hsd, Himages.
      rewrite (delete_from_image_found _ _ _ _ _ Hpre Himg). cbv zeta.
      fold kept. destruct (Nat.ltb_spec (length kept) (length (ImageRecord.boxes img)));
        [reflexivity|lia].
    + unfold delete_box, st'. rewrite lookup_insert_eq.
      cbn [Session.images].
      rewrite (delete_from_image_found image_id box_id pre
                 (ImageRecord.mk (ImageRecord.image_id img)
                    (ImageRecord.timestamp img) kept
                    (ImageRecord.yolo_metrics img)) post Hpre Himg).
      cbv zeta. cbn [ImageRecord.boxes]. unfold kept.
      rewrite filter_negb_idem, Nat.ltb_irrefl. reflexivity.
Qed.

(** C9 does not hold of the handlers.  Once the first of the three boxes of
    an image has been deleted, [add_manual_box] numbers the new box by the
    two boxes that are left and gives it the identifier [img_box_2], which a
    stored box already carries; the delete of [img_box_2] then succeeds and
    removes both boxes, so that the image goes from three boxes to one. *)
Theorem C9_delete_removes_two_boxes :
  let st1 := snd (delete_box Sample.files "s" "img" "img_box_0") in
  let added := add_manual_box st1 "s" "img" Sample.drawn in
  let st2 := snd added in
  box_id <$> Sample.stored_boxes st1 = [Some "img_box_1"; Some "img_box_2"] /\
  (exists box, fst added = Ok (AddManualResponse.mk "img_box_2" box)) /\
  box_id <$> Sample.stored_boxes st2
  = [Some "img_box_1"; Some "img_box_2"; Some "img_box_2"] /\
  fst (delete_box st2 "s" "img" "img_box_2")
  = Ok (DeleteResponse.mk "img_box_2" 1) /\
  box_id <$> Sample.stored_boxes (snd (delete_box st2 "s" "img" "img_box_2"))
  = [Some "img_box_1"].
Proof.
  repeat split; try (vm_compute; reflexivity).
  eexists. vm_compute. reflexivity.
Qed.

End ManualDelete.

(** ** Schema validators *)

Section Validators.

Local Open Scope string_scope.

Lemma all_chars_impl (p q : ascii -> bool) s :
  (forall c, p c = true -> q c = true) ->
  all_chars p s = true -> all_chars q s = true.
Proof.
  intros Hpq. induction s as [|c r IH]; [reflexivity|].
  simpl. intros [Hc Hr]%andb_prop. now rewrite (Hpq c Hc), IH.
Qed.

Lemma all_chars_lstrip p s :
  all_chars p s = true -> all_chars p (PyStr.lstrip s) = true.
Proof.
  induction s as [|c r IH]; [reflexivity|].
  simpl. intros H. destruct (PyStr.is_space c); [|exact H].
  apply andb_prop in H as [_ H]. now apply IH.
Qed.

Lemma rstrip_unfold c r :
  PyStr.rstrip (String c r) =
  match PyStr.rstrip r with
  | EmptyString =>
      if PyStr.is_space c then EmptyString else String c EmptyString
  | String a r' => String c (String a r')
  end.
Proof. reflexivity. Qed.

Lemma all_chars_rstrip p s :
  all_chars p s = true -> all_chars p (PyStr.rstrip s) = true.
Proof.
  induction s as [|c r IH]; [reflexivity|].
  rewrite rstrip_unfold. cbn [all_chars]. intros [Hc Hr]%andb_prop.
  specialize (IH Hr). destruct (PyStr.rstrip r) as [|a r'].
  - destruct (PyStr.is_space c); [reflexivity|]. simpl. now rewrite Hc.
  - cbn [all_chars] in *. now rewrite Hc, IH.
Qed.

Lemma all_chars_strip p s :
  all_chars p s = true -> all_chars p (PyStr.strip s) = true.
Proof. intros H. now apply all_chars_rstrip, all_chars_lstrip. Qed.

Lemma length_lstrip s : (String.length (PyStr.lstrip s) <= String.length s)%nat.
Proof.
  induction s as [|c r IH]; [reflexivity|].
  simpl. destruct (PyStr.is_space c); simpl; lia.
Qed.

Lemma length_rstrip s : (String.length (PyStr.rstrip s) <= String.length s)%nat.
Proof.
  induction s as [|c r IH]; [reflexivity|].
  rewrite rstrip_unfold. destruct (PyStr.rstrip r) as [|a r'].
  - destruct (PyStr.is_space c); simpl; lia.
  - simpl in *. lia.
Qed.

Lemma length_strip s : (String.length (PyStr.strip s) <= String.length s)%nat.
Proof.
  unfold PyStr.strip. pose proof (length_rstrip (PyStr.lstrip s)).
  pose proof (length_lstrip s). lia.
Qed.

Lemma rstrip_idem s : PyStr.rstrip (PyStr.rstrip s) = PyStr.rstrip s.
Proof.
  induction s as [|c r IH]; [reflexivity|].
  rewrite rstrip_unfold. destruct (PyStr.rstrip r) as [|a r'] eqn:E.
  - destruct (PyStr.is_space c) eqn:Hc; [reflexivity|].
    rewrite rstrip_unfold. simpl. now rewrite Hc.
  - rewrite rstrip_unfold, IH. reflexivity.
Qed.

Lemma starts_clean_lstrip s : starts_clean (PyStr.lstrip s) = true.
Proof.
  induction s as [|c r IH]; [reflexivity|].
  simpl. destruct (PyStr.is_space c) eqn:Hc; [exact IH|].
  simpl. now rewrite Hc.
Qed.

Lemma starts_clean_rstrip s :
  starts_clean s = true -> starts_clean (PyStr.rstrip s) = true.
Proof.
  destruct s as [|c r]; [reflexivity|].
  rewrite rstrip_unfold. simpl. intros Hc.
  destruct (PyStr.rstrip r); [|exact Hc].
  apply negb_true_iff in Hc. rewrite Hc. simpl. now rewrite Hc.
Qed.

Lemma lstrip_clean s : starts_clean s = true -> PyStr.lstrip s = s.
Proof.
  destruct s as [|c r]; [reflexivity|].
  simpl. intros Hc. apply negb_true_iff in Hc. now rewrite Hc.
Qed.

Lemma strip_idem s : PyStr.strip (PyStr.strip s) = PyStr.strip s.
Proof.
  unfold PyStr.strip.
  rewrite (lstrip_clean (PyStr.rstrip (PyStr.lstrip s))).
  - apply rstrip_idem.
  - apply starts_clean_rstrip, starts_clean_lstrip.
Qed.

Lemma lstrip_blank s :
  all_chars PyStr.is_space s = true -> PyStr.lstrip s = EmptyString.
Proof.
  induction s as [|c r IH]; [reflexivity|].
  simpl. intros [Hc Hr]%andb_prop. rewrite Hc. now apply IH.
Qed.

Lemma rstrip_empty_blank s :
  PyStr.rstrip s = EmptyString -> all_chars PyStr.is_space s = true.
Proof.
  induction s as [|c r IH]; [reflexivity|].
  rewrite rstrip_unfold. destruct (PyStr.rstrip r) as [|a r']; [|discriminate].
  destruct (PyStr.is_space c) eqn:Hc; [|discriminate].
  intros _. simpl. now rewrite Hc, IH.
Qed.

Lemma lstrip_spec s :
  exists blanks,
    s = blanks ++ PyStr.lstrip s /\ all_chars PyStr.is_space blanks = true.
Proof.
  induction s as [|c r (blanks & Hs & Hb)]; [now exists EmptyString|].
  simpl. destruct (PyStr.is_space c) eqn:Hc.
  - exists (String c blanks). simpl. rewrite Hc, Hb.
    split; [|reflexivity].
    change (String c r = String c (blanks ++ PyStr.lstrip r)). now f_equal.
  - now exists EmptyString.
Qed.

Lemma all_chars_app p s t :
  all_chars p (s ++ t) = all_chars p s && all_chars p t.
Proof.
  induction s as [|c r IH]; [reflexivity|].
  change (all_chars p (String c (r ++ t)) = all_chars p (String c r) && all_chars p t).
  simpl. now rewrite IH, andb_assoc.
Qed.

(** Stripping leaves nothing exactly when the string is all blanks. *)
Lemma strip_empty_iff s :
  PyStr.strip s = EmptyString <-> all_chars PyStr.is_space s = true.
Proof.
  split.
  - unfold PyStr.strip. intros H%rstrip_empty_blank.
    destruct (lstrip_spec s) as (blanks & Hs & Hb).
    rewrite Hs, all_chars_app, Hb, H. reflexivity.
  - intros H. unfold PyStr.strip. now rewrite (lstrip_blank s H).
Qed.

Lemma all_chars_remove_char p c s :
  all_chars p s = true -> all_chars p (remove_char c s) = true.
Proof.
  induction s as [|a r IH]; [reflexivity|].
  simpl. intros [Ha Hr]%andb_prop. destruct (Ascii.eqb a c); [now apply IH|].
  simpl. now rewrite Ha, IH.
Qed.

Lemma remove_char_absent c s :
  all_chars (fun a => negb (Ascii.eqb a c)) (remove_char c s) = true.
Proof.
  induction s as [|a r IH]; [reflexivity|].
  simpl. destruct (Ascii.eqb a c) eqn:E; [exact IH|].
  simpl. now rewrite E, IH.
Qed.

Lemma remove_char_id c s :
  all_chars (fun a => negb (Ascii.eqb a c)) s = true -> remove_char c s = s.
Proof.
  induction s as [|a r IH]; [reflexivity|].
  simpl. intros [Ha Hr]%andb_prop. apply negb_true_iff in Ha.
  now rewrite Ha, IH.
Qed.

Lemma length_remove_char c s :
  (String.length (remove_char c s) <= String.length s)%nat.
Proof.
  induction s as [|a r IH]; [reflexivity|].
  simpl. destruct (Ascii.eqb a c); simpl; lia.
Qed.

(** [c in s] for a one-character [c] *)
Lemma contains_char_false c s :
  PyStr.contains (String c EmptyString) s = false <->
  all_chars (fun a => negb (Ascii.eqb a c)) s = true.
Proof.
  induction s as [|a r IH]; [easy|].
  cbn [PyStr.contains all_chars String.prefix].
  destruct (ascii_dec c a) as [->|Hne].
  - rewrite Ascii.eqb_refl. simpl. now destruct r.
  - assert (Ascii.eqb a c = false) as -> by (apply Ascii.eqb_neq; congruence).
    simpl. exact IH.
Qed.

Lemma all_chars_and p q s :
  all_chars (fun a => p a && q a) s = all_chars p s && all_chars q s.
Proof.
  induction s as [|a r IH]; [reflexivity|].
  simpl. rewrite IH. destruct (p a), (q a), (all_chars p r); reflexivity.
Qed.

Lemma all_chars_remove_all p cs v :
  all_chars p v = true ->
  all_chars p (fold_left (fun v c => remove_char c v) cs v) = true.
Proof.
  revert v. induction cs as [|c cs IH]; intros v H; [exact H|].
  simpl. now apply IH, all_chars_remove_char.
Qed.

Lemma remove_all_safe cs v :
  all_chars (fun a => forallb (fun c => negb (Ascii.eqb a c)) cs)
    (fold_left (fun v c => remove_char c v) cs v) = true.
Proof.
  revert v. induction cs as [|c cs IH]; intros v.
  - simpl. induction v; simpl; auto.
  - cbn [fold_left forallb]. rewrite all_chars_and, IH, andb_true_r.
    apply all_chars_remove_all, remove_char_absent.
Qed.

Lemma remove_all_id cs v :
  all_chars (fun a => forallb (fun c => negb (Ascii.eqb a c)) cs) v = true ->
  fold_left (fun v c => remove_char c v) cs v = v.
Proof.
  induction cs as [|c cs IH]; [reflexivity|].
  cbn [fold_left forallb]. rewrite all_chars_and.
  intros [Hc Hcs]%andb_prop. rewrite (remove_char_id c v Hc). now apply IH.
Qed.

Lemma length_remove_all cs v :
  (String.length (fold_left (fun v c => remove_char c v) cs v)
   <= String.length v)%nat.
Proof.
  revert v. induction cs as [|c cs IH]; intros v; [reflexivity|].
  simpl. pose proof (IH (remove_char c v)).
  pose proof (length_remove_char c v). lia.
Qed.

(** X1. The sanitised notes hold none of the seven characters, neither start nor
    end with a blank, and are no longer than the notes sent. *)
Theorem sanitize_notes_safe v t c :
  sanitize_notes (Some v) = Some t ->
  In c dangerous_chars ->
  PyStr.contains (String c EmptyString) t = false /\
  PyStr.strip t = t /\
  (String.length t <= String.length v)%nat.
Proof.
  intros H Hc.
  assert (t = PyStr.strip
                (fold_left (fun v c => remove_char c v) dangerous_chars v))
    as -> by (unfold sanitize_notes in H; congruence).
  clear H. split; [|split].
  - apply contains_char_false, all_chars_strip.
    eapply all_chars_impl; [|apply (remove_all_safe dangerous_chars)].
    intros a Ha. cbv beta in Ha. rewrite forallb_forall in Ha. now apply Ha.
  - apply strip_idem.
  - pose proof (length_strip
        (fold_left (fun v c => remove_char c v) dangerous_chars v)).
    pose proof (length_remove_all dangerous_chars v). lia.
Qed.

Lemma sanitize_notes_safe_witness :
  let v := "Wrong detection <script>alert(1)</script> " in
  In "<"%char dangerous_chars /\
  sanitize_notes (Some v) = Some "Wrong detection scriptalert(1)script" /\
  PyStr.contains "<" "Wrong detection scriptalert(1)script" = false.
Proof.
  split; [left; reflexivity|]. split; [reflexivity|].
  apply (sanitize_notes_safe "Wrong detection <script>alert(1)</script> "
           "Wrong detection scriptalert(1)script" "<"%char).
  - reflexivity.
  - left; reflexivity.
Defined.

(** X2. Sanitising notes that were sanitised changes nothing. *)
Theorem sanitize_notes_idempotent v :
  sanitize_notes (sanitize_notes v) = sanitize_notes v.
Proof.
  destruct v as [v|]; [|reflexivity].
  unfold sanitize_notes. f_equal.
  rewrite remove_all_id; [apply strip_idem|].
  apply all_chars_strip, remove_all_safe.
Qed.

Lemma sanitize_label_revalidate v t :
  sanitize_label v = Some t ->
  all_chars label_char t = true /\
  PyStr.strip t = t /\
  (t = EmptyString <-> all_chars PyStr.is_space v = true) /\
  sanitize_label t = (if all_chars PyStr.is_space v then None else Some t).
Proof.
  unfold sanitize_label at 1.
  destruct v as [|c r]; [discriminate|].
  destruct (all_chars label_char (String c r)) eqn:Hall; [|discriminate].
  intros [= <-].
  pose proof (all_chars_strip _ _ Hall) as Hstrip.
  pose proof (strip_empty_iff (String c r)) as Hempty.
  split; [exact Hstrip|]. split; [apply strip_idem|]. split; [exact Hempty|].
  unfold sanitize_label.
  destruct (PyStr.strip (String c r)) as [|a s] eqn:E.
  - destruct Hempty as [Hb _]. rewrite (Hb eq_refl). reflexivity.
  - destruct (all_chars PyStr.is_space (String c r)) eqn:Hb.
    + destruct Hempty as [_ Hb']. discriminate (Hb' eq_refl).
    + rewrite Hstrip, <- E, strip_idem. reflexivity.
Qed.

(** X3. A label that passes comes back without blanks around it and made of
    characters of the class.  It is empty exactly when the label sent was all
    blanks; validating it again gives it back when it is not empty and fails
    when it is. *)
Theorem sanitize_label_again v t :
  sanitize_label v = Some t ->
  all_chars label_char t = true /\
  PyStr.strip t = t /\
  (t = EmptyString <-> all_chars PyStr.is_space v = true) /\
  sanitize_label t = (if all_chars PyStr.is_space v then None else Some t).
Proof. apply sanitize_label_revalidate. Qed.

Lemma sanitize_label_again_witness :
  sanitize_label "  " = Some EmptyString /\
  sanitize_label EmptyString = None /\
  sanitize_label " traffic light" = Some "traffic light" /\
  sanitize_label "traffic light" = Some "traffic light".
Proof.
  split; [reflexivity|].
  destruct (sanitize_label_again "  " EmptyString eq_refl) as (_ & _ & _ & H1).
  destruct (sanitize_label_again " traffic light" "traffic light" eq_refl)
    as (_ & _ & _ & H2).
  split; [exact H1|]. split; [reflexivity|exact H2].
Defined.

End Validators.

(** ** The helper [update_box_validation] *)

Section Helper.

Import GroundTruthBox.
Implicit Types (boxes : list GroundTruthBox.t) (v : BoxValidation.t).

Lemma string_app_assoc (s t u : string) :
  ((s ++ t) ++ u = s ++ t ++ u)%string.
Proof.
  induction s as [|c s IH]; [reflexivity|].
  change (String c ((s ++ t) ++ u) = String c (s ++ t ++ u))%string.
  now f_equal.
Qed.

Lemma rsplit1_underscore_numeral d :
  PyStr.rsplit1 "_" (NilEmpty.string_of_uint d) = None.
Proof. induction d; simpl; try rewrite IHd; reflexivity. Qed.

(** The text after the last underscore of an assigned identifier is its
    index. *)
Lemma split_last_format_box_id image_id k :
  split_last "_" (format_box_id image_id k) = PyStr.str_of_nat k.
Proof.
  unfold split_last, format_box_id, box_sep, PyStr.str_of_nat.
  change ("_box_" ++ NilEmpty.string_of_uint (Nat.to_uint k))%string
    with ("_box" ++ "_" ++ NilEmpty.string_of_uint (Nat.to_uint k))%string.
  rewrite <- string_app_assoc.
  rewrite (rsplit1_app "_" (image_id ++ "_box")); [reflexivity|].
  change ("_" ++ NilEmpty.string_of_uint (Nat.to_uint k))%string
    with (String "_" (NilEmpty.string_of_uint (Nat.to_uint k))).
  rewrite rsplit1_unfold, rsplit1_underscore_numeral.
  destruct (Nat.to_uint k); reflexivity.
Qed.

(** The writes of the helper are those of the handler, and the timestamp. *)
Lemma helper_writes utcnow is_correct co notes box_id b :
  (let box := set_is_verified true b in
   let box := set_is_correct is_correct box in
   let box := set_verified_at (Some utcnow) box in
   let box := match co with Some c => set_confidence c box | None => box end in
   if truthy notes then set_notes notes box else box)
  = set_verified_at (Some utcnow)
      (apply_validation (BoxValidation.mk box_id is_correct co notes) b).
Proof.
  unfold apply_validation. cbn.
  destruct co, (truthy notes); reflexivity.
Qed.

(** X5. The helper either raises [ValueError] for the identifier, when the text
    after its last underscore is no integer for [int] or an integer outside
    [0 .. len(boxes) - 1] (a negative index never reaches the subscript), or
    rewrites the one box at that index with the handler's writes and the
    timestamp: the list keeps its length and its other boxes, and the box
    keeps its identifier, coordinates, label and manual flag. *)
Theorem update_box_validation_spec utcnow boxes box_id is_correct co notes :
  match update_box_validation utcnow boxes box_id is_correct co notes with
  | Ok (box', boxes') =>
      exists k b,
        PyStr.int (split_last "_" box_id) = Some (Z.of_nat k) /\
        boxes !! k = Some b /\
        box' = set_verified_at (Some utcnow)
                 (apply_validation
                    (BoxValidation.mk box_id is_correct co notes) b) /\
        boxes' = <[k := box']> boxes /\
        length boxes' = length boxes /\
        boxes' !! k = Some box' /\
        (forall j, j <> k -> boxes' !! j = boxes !! j) /\
        (x1 box', y1 box', x2 box', y2 box', label box', class_id box',
         GroundTruthBox.box_id box', is_manual box')
        = (x1 b, y1 b, x2 b, y2 b, label b, class_id b,
           GroundTruthBox.box_id b, is_manual b) /\
        is_verified box' = true /\ verified_at box' = Some utcnow
  | Raise e =>
      e = ValueError box_id /\
      match PyStr.int (split_last "_" box_id) with
      | Some index => index < 0 \/ Z.of_nat (length boxes) <= index
      | None => True
      end
  end.
Proof.
  unfold update_box_validation.
  destruct (PyStr.int (split_last "_" box_id)) as [index|]; [|easy].
  destruct (Z.ltb_spec index 0); [simpl; auto|].
  destruct (Z.leb_spec (Z.of_nat (length boxes)) index); [simpl; auto|].
  cbn [orb].
  destruct (boxes !! Z.to_nat index) as [b|] eqn:Hb.
  - exists (Z.to_nat index), b. rewrite Z2Nat.id by lia.
    rewrite (helper_writes utcnow is_correct co notes box_id).
    split; [reflexivity|]. split; [exact Hb|]. split; [reflexivity|].
    split; [reflexivity|]. split; [apply length_insert|].
    split; [apply list_lookup_insert_eq; lia|].
    split; [intros j Hj; now apply list_lookup_insert_ne|].
    unfold apply_validation. cbn.
    destruct co, (truthy notes); cbn; auto.
  - apply lookup_ge_None in Hb. lia.
Qed.

Lemma update_box_validation_at utcnow boxes image_id k is_correct co notes :
  update_box_validation utcnow boxes (format_box_id image_id k)
    is_correct co notes =
  match boxes !! k with
  | Some b =>
      let box' :=
        set_verified_at (Some utcnow)
          (apply_validation
             (BoxValidation.mk (format_box_id image_id k) is_correct co notes)
             b) in
      Ok (box', <[k := box']> boxes)
  | None => Raise (ValueError (format_box_id image_id k))
  end.
Proof.
  unfold update_box_validation.
  rewrite split_last_format_box_id, int_str_of_nat.
  destruct (Z.ltb_spec (Z.of_nat k) 0); [lia|]. cbn [orb].
  rewrite Nat2Z.id.
  destruct (Z.leb_spec (Z.of_nat (length boxes)) (Z.of_nat k)).
  - rewrite (proj2 (lookup_ge_None boxes k)) by lia. reflexivity.
  - destruct (boxes !! k) as [b|] eqn:Hb.
    + now rewrite (helper_writes utcnow is_correct co notes
                     (format_box_id image_id k)).
    + apply lookup_ge_None in Hb. lia.
Qed.

(** X6. On an identifier [<image_id>_box_<k>] the helper rewrites the box at
    position [k] of the list, whatever the identifiers stored in the boxes,
    and raises when the list has no position [k]. *)
Theorem update_box_validation_format utcnow boxes image_id k is_correct co notes :
  update_box_validation utcnow boxes (format_box_id image_id k)
    is_correct co notes =
  match boxes !! k with
  | Some b =>
      let box' :=
        set_verified_at (Some utcnow)
          (apply_validation
             (BoxValidation.mk (format_box_id image_id k) is_correct co notes)
             b) in
      Ok (box', <[k := box']> boxes)
  | None => Raise (ValueError (format_box_id image_id k))
  end.
Proof. apply update_box_validation_at. Qed.

Lemma format_box_id_inj image_id j k :
  format_box_id image_id j = format_box_id image_id k -> j = k.
Proof.
  intros H. apply (f_equal parse_box_id) in H.
  rewrite !parse_format_box_id in H. injection H. lia.
Qed.

Lemma has_box_id_assigned image_id j k g :
  has_box_id (format_box_id image_id k)
    (set_box_id (Some (format_box_id image_id j)) g) = (j =? k)%nat.
Proof.
  unfold has_box_id. cbn [box_id set_box_id].
  destruct (Nat.eqb_spec j k) as [->|Hne].
  - apply String.eqb_refl.
  - apply String.eqb_neq. intros H%format_box_id_inj. contradiction.
Qed.

Lemma update_boxes_assigned v image_id (gts : list GroundTruthBox.t) o k :
  BoxValidation.box_id v = format_box_id image_id (o + k) ->
  (k < length gts)%nat ->
  let boxes :=
    imap (fun idx g => set_box_id (Some (format_box_id image_id (o + idx))) g)
      gts in
  update_boxes v boxes = Some (alter (apply_validation v) k boxes).
Proof.
  revert o k. induction gts as [|g gts IH]; intros o k Hid Hk; [simpl in Hk; lia|].
  cbn zeta. rewrite imap_cons. cbn [update_boxes]. rewrite Hid.
  rewrite has_box_id_assigned.
  destruct k as [|k].
  - replace (o + 0 =? o + 0)%nat with true by (symmetry; apply Nat.eqb_refl).
    reflexivity.
  - replace (o + 0 =? o + S k)%nat with false
      by (symmetry; apply Nat.eqb_neq; lia).
    assert (imap ((fun idx g =>
                     set_box_id (Some (format_box_id image_id (o + idx))) g)
                  ∘ S) gts
            = imap (fun idx g =>
                      set_box_id (Some (format_box_id image_id (S o + idx))) g)
                gts) as ->.
    { apply imap_ext. intros i x _. simpl. repeat f_equal. lia. }
    rewrite (IH (S o) k); [reflexivity| |simpl in Hk; lia].
    rewrite Hid. f_equal. lia.
Qed.

Lemma update_boxes_assign_box_ids image_id (gts : list GroundTruthBox.t) k b v :
  assign_box_ids image_id gts !! k = Some b ->
  BoxValidation.box_id v = format_box_id image_id k ->
  update_boxes v (assign_box_ids image_id gts)
  = Some (<[k := apply_validation v b]> (assign_box_ids image_id gts)).
Proof.
  intros Hb Hid.
  pose proof (lookup_lt_Some _ _ _ Hb) as Hk.
  unfold assign_box_ids in Hk. rewrite length_imap in Hk.
  transitivity
    (Some (alter (apply_validation v) k (assign_box_ids image_id gts))).
  { exact (update_boxes_assigned v image_id gts 0 k Hid Hk). }
  f_equal. apply list_eq. intros i.
  destruct (decide (i = k)) as [->|Hne].
  - rewrite list_lookup_alter_eq, Hb.
    rewrite list_lookup_insert_eq; [reflexivity|].
    unfold assign_box_ids. now rewrite length_imap.
  - rewrite list_lookup_alter_ne, list_lookup_insert_ne by congruence.
    reflexivity.
Qed.

(** X7. On the boxes of an image as the inference handler stores them, the
    handler's scan by identifier and the helper's indexing by position pick
    the same box: the results differ by the timestamp only. *)
Theorem scan_and_index_agree utcnow image_id (gts : list GroundTruthBox.t) k b v :
  assign_box_ids image_id gts !! k = Some b ->
  BoxValidation.box_id v = format_box_id image_id k ->
  update_boxes v (assign_box_ids image_id gts)
  = Some (<[k := apply_validation v b]> (assign_box_ids image_id gts)) /\
  update_box_validation utcnow (assign_box_ids image_id gts)
    (BoxValidation.box_id v) (BoxValidation.is_correct v)
    (BoxValidation.confidence_override v) (BoxValidation.notes v)
  = Ok (set_verified_at (Some utcnow) (apply_validation v b),
        <[k := set_verified_at (Some utcnow) (apply_validation v b)]>
          (assign_box_ids image_id gts)).
Proof.
  intros Hb Hid. split; [now apply update_boxes_assign_box_ids|].
  rewrite Hid, update_box_validation_at, Hb. cbv zeta.
  rewrite <- Hid. now destruct v.
Qed.

Lemma scan_and_index_agree_witness :
  let boxes := assign_box_ids "img" [Sample.drawn; Sample.drawn] in
  let v := Sample.correction "img_box_1" false in
  exists b,
    boxes !! 1%nat = Some b /\
    BoxValidation.box_id v = format_box_id "img" 1 /\
    update_boxes v boxes = Some (<[1%nat := apply_validation v b]> boxes).
Proof.
  eexists. split; [reflexivity|]. split; [reflexivity|].
  apply (scan_and_index_agree "now" "img" [Sample.drawn; Sample.drawn] 1
           _ (Sample.correction "img_box_1" false) eq_refl eq_refl).
Defined.

End Helper.

(** ** Sessions that can be read back *)

Section Readable.

Import GroundTruthBox.
Implicit Types (st : store) (v : BoxValidation.t) (b : GroundTruthBox.t)
  (boxes : list GroundTruthBox.t) (images : list ImageRecord.t).

Lemma BoxValidation_validate_ok d v :
  BoxValidation_validate d = Some v -> override_ok v.
Proof.
  unfold BoxValidation_validate, override_ok.
  destruct (_ && _ && _ && _) eqn:H; [|discriminate].
  intros [= <-]. cbn [BoxValidation.confidence_override].
  rewrite !andb_true_iff in H. destruct H as [[_ Hc] _].
  destruct (BoxValidation.confidence_override d); [|exact I].
  now apply between_true.
Qed.

Lemma ValidationRequest_validate_ok raws vs :
  ValidationRequest_validate raws = Some vs -> Forall override_ok vs.
Proof.
  unfold ValidationRequest_validate. destruct (_ && _); [|discriminate].
  intros H%mapM_Some_1. induction H as [|d v ds vs Hd _ IH]; constructor.
  - exact (BoxValidation_validate_ok d v Hd).
  - exact IH.
Qed.





Lemma all_boxes_app images1 images2 :
  all_boxes (images1 ++ images2) = all_boxes images1 ++ all_boxes images2.
Proof. unfold all_boxes. now rewrite map_app, concat_app. Qed.

Lemma BoxValidation_validate_valid d v :
  BoxValidation_validate d = Some v -> valid_correction v.
Proof.
  intros H. split; [exact (BoxValidation_validate_ok d v H)|].
  revert H. unfold BoxValidation_validate.
  destruct (_ && _ && _ && _) eqn:H; [|discriminate].
  intros [= <-]. cbn [BoxValidation.notes].
  rewrite !andb_true_iff in H. destruct H as [_ Hn].
  destruct (BoxValidation.notes d) as [n|]; [|reflexivity].
  unfold sanitize_notes, length_le in *. apply Nat.leb_le in Hn.
  apply Nat.leb_le.
  pose proof (length_strip
                (fold_left (fun (s : string) c => remove_char c s)
                   dangerous_chars n)).
  pose proof (length_remove_all dangerous_chars n). lia.
Qed.

Lemma ValidationRequest_validate_valid raws vs :
  ValidationRequest_validate raws = Some vs -> Forall valid_correction vs.
Proof.
  unfold ValidationRequest_validate. destruct (_ && _); [|discriminate].
  intros H%mapM_Some_1. induction H as [|d v ds vs Hd _ IH]; constructor.
  - exact (BoxValidation_validate_valid d v Hd).
  - exact IH.
Qed.






End Readable.

(** ** Recording a detector run *)

Section Inference.

Import GroundTruthBox.
Implicit Types (st : store) (v : BoxValidation.t).

(** A detection that the schema accepts is stored pending: not verified,
    provisionally correct, not manual. *)
Lemma gt_box_of_Some raw g :
  gt_box_of raw = Some g ->
  (0 <= confidence g <= 1)%Q /\ confidence g = RawBox.confidence raw /\
  box_id g = None /\ is_verified g = false /\ is_correct g = true /\
  is_manual g = false /\ verified_at g = None /\ notes g = None.
Proof.
  intros H%GroundTruthBox_validate_Some. cbn in H. tauto.
Qed.

Lemma assign_box_ids_lookup image_id (gts : list GroundTruthBox.t) k :
  assign_box_ids image_id gts !! k
  = set_box_id (Some (format_box_id image_id k)) <$> gts !! k.
Proof. unfold assign_box_ids. now rewrite list_lookup_imap. Qed.

Lemma assign_box_ids_NoDup image_id (gts : list GroundTruthBox.t) :
  NoDup (box_id <$> assign_box_ids image_id gts).
Proof.
  apply NoDup_alt. intros i j x Hi Hj.
  rewrite list_lookup_fmap, assign_box_ids_lookup in Hi, Hj.
  destruct (gts !! i); [|discriminate]. destruct (gts !! j); [|discriminate].
  cbn in Hi, Hj. apply (format_box_id_inj image_id). congruence.
Qed.

Lemma GroundTruthBox_validate_geometry d g :
  GroundTruthBox_validate d = Some g ->
  label g = PyStr.strip (label d) /\
  (x1 g, y1 g, x2 g, y2 g, class_id g) = (x1 d, y1 d, x2 d, y2 d, class_id d).
Proof.
  unfold GroundTruthBox_validate. destruct (_ && _ && _ && _); [|discriminate].
  destruct (sanitize_label (label d)) as [t|] eqn:Hs; [|discriminate].
  intros [= <-]. cbn. split; [|reflexivity].
  revert Hs. generalize (label d). intros s. unfold sanitize_label.
  destruct s; [discriminate|].
  destruct (all_chars label_char _); [|discriminate]. congruence.
Qed.

Lemma run_inference_outcome st session_id image_id boxes metrics utcnow :
  let old :=
    match st !! session_id with
    | Some session_data => session_data
    | None => Session.mk session_id [] None
    end in
  match run_inference st session_id image_id boxes metrics utcnow with
  | (Raise e, st') =>
      st' = st /\ e = ValidationError /\
      Exists (fun raw => gt_box_of raw = None) boxes
  | (Ok r, st') =>
      Forall (fun raw => is_Some (gt_box_of raw)) boxes /\
      exists new_boxes,
        st' = <[session_id :=
                  Session.mk (Session.session_id old)
                    (Session.images old ++
                     [ImageRecord.mk image_id utcnow new_boxes metrics])
                    (Session.true_metrics old)]> st /\
        length new_boxes = length boxes /\
        NoDup (box_id <$> new_boxes) /\
        (forall k b, new_boxes !! k = Some b ->
           box_id b = Some (format_box_id image_id k) /\
           is_verified b = false /\ is_correct b = true /\
           is_manual b = false /\ verified_at b = None /\
           (0 <= confidence b <= 1)%Q /\
           exists raw,
             boxes !! k = Some raw /\
             confidence b = RawBox.confidence raw /\
             label b = PyStr.strip (RawBox.label raw) /\
             (x1 b, y1 b, x2 b, y2 b, class_id b)
             = (RawBox.x1 raw, RawBox.y1 raw, RawBox.x2 raw, RawBox.y2 raw,
                RawBox.class_id raw)) /\
        InferenceResponse.count r = length boxes
  end.
Proof.
  unfold run_inference.
  destruct (mapM gt_box_of boxes) as [gts|] eqn:Hm.
  2:{ split; [reflexivity|]. split; [reflexivity|]. now apply mapM_None_1. }
  split; [apply mapM_is_Some_1; rewrite Hm; eauto|].
  exists (assign_box_ids image_id gts).
  split; [reflexivity|]. split.
  { unfold assign_box_ids. rewrite length_imap.
    symmetry. now apply length_mapM in Hm. }
  split; [apply assign_box_ids_NoDup|]. split; [|reflexivity].
  intros k b. rewrite assign_box_ids_lookup.
  destruct (gts !! k) as [g|] eqn:Hg; [|discriminate].
  intros [= <-]. apply mapM_Some_1 in Hm.
  destruct (Forall2_lookup_r _ _ _ _ _ Hm Hg) as (raw & Hk & Hraw).
  pose proof (gt_box_of_Some raw g Hraw) as H.
  apply GroundTruthBox_validate_geometry in Hraw. cbn in Hraw |- *.
  destruct H as (? & ? & ? & ? & ? & ? & ? & ?).
  repeat (split; [tauto|]). exists raw. tauto.
Qed.

(** X8. [run_inference] fails, writing nothing, exactly when the schema
    refuses a detection.  Otherwise it adds one image at the end of the
    session (created empty when it did not exist) and changes nothing else;
    the boxes of the new image are the detections in order, with their
    coordinates, class and confidence and with the label stripped, all
    pending, and carry pairwise distinct identifiers
    [<image_id>_box_<position>]. *)
Theorem run_inference_appends st session_id image_id boxes metrics utcnow :
  let old :=
    match st !! session_id with
    | Some session_data => session_data
    | None => Session.mk session_id [] None
    end in
  match run_inference st session_id image_id boxes metrics utcnow with
  | (Raise e, st') =>
      st' = st /\ e = ValidationError /\
      Exists (fun raw => gt_box_of raw = None) boxes
  | (Ok r, st') =>
      Forall (fun raw => is_Some (gt_box_of raw)) boxes /\
      exists new_boxes,
        st' = <[session_id :=
                  Session.mk (Session.session_id old)
                    (Session.images old ++
                     [ImageRecord.mk image_id utcnow new_boxes metrics])
                    (Session.true_metrics old)]> st /\
        length new_boxes = length boxes /\
        NoDup (box_id <$> new_boxes) /\
        (forall k b, new_boxes !! k = Some b ->
           box_id b = Some (format_box_id image_id k) /\
           is_verified b = false /\ is_correct b = true /\
           is_manual b = false /\ verified_at b = None /\
           (0 <= confidence b <= 1)%Q /\
           exists raw,
             boxes !! k = Some raw /\
             confidence b = RawBox.confidence raw /\
             label b = PyStr.strip (RawBox.label raw) /\
             (x1 b, y1 b, x2 b, y2 b, class_id b)
             = (RawBox.x1 raw, RawBox.y1 raw, RawBox.x2 raw, RawBox.y2 raw,
                RawBox.class_id raw)) /\
        InferenceResponse.count r = length boxes
  end.
Proof. apply run_inference_outcome. Qed.





End Inference.

(** ** What a batch leaves alone *)

Section BatchFrame.

Import GroundTruthBox.
Implicit Types (st : store) (v : BoxValidation.t)
  (boxes : list GroundTruthBox.t) (images : list ImageRecord.t).

Lemma same_frame_refl images : same_frame images images.
Proof.
  unfold same_frame. apply Forall2_same_length_lookup_2; [reflexivity|].
  intros i img img' H1 H2. assert (img = img') as <- by congruence.
  split; [reflexivity|].
  apply Forall2_same_length_lookup_2; [reflexivity|].
  intros j b b' Hb Hb'. assert (b = b') as <- by congruence. auto.
Qed.

Lemma same_frame_trans images1 images2 images3 :
  same_frame images1 images2 -> same_frame images2 images3 ->
  same_frame images1 images3.
Proof.
  unfold same_frame. intros H12. revert images3.
  induction H12 as [|i1 i2 l1 l2 [Hm Hb] _ IH]; intros images3 H23.
  - inversion H23. constructor.
  - inversion H23 as [|? i3 ? l3 [Hm' Hb'] Hrest]; subst.
    constructor; [|now apply IH].
    split; [congruence|].
    clear -Hb Hb'. revert Hb'. generalize (ImageRecord.boxes i3).
    induction Hb as [|b1 b2 k1 k2 [Hf Hv] _ IHb]; intros k3 Hb'.
    + inversion Hb'. constructor.
    + inversion Hb' as [|? b3 ? k3' [Hf' Hv'] Hrest']; subst.
      constructor; [|now apply IHb].
      split; [congruence|auto].
Qed.

Lemma boxes_frame_refl boxes :
  Forall2 (fun b b' => box_frame b = box_frame b' /\
                       (is_verified b = true -> is_verified b' = true))
    boxes boxes.
Proof. induction boxes; constructor; auto. Qed.

Lemma box_frame_apply_validation v b :
  box_frame (apply_validation v b) = box_frame b.
Proof.
  unfold apply_validation.
  destruct (BoxValidation.confidence_override v), (truthy (BoxValidation.notes v));
    reflexivity.
Qed.

Lemma update_boxes_frame v boxes boxes' :
  update_boxes v boxes = Some boxes' ->
  Forall2 (fun b b' => box_frame b = box_frame b' /\
                       (is_verified b = true -> is_verified b' = true))
    boxes boxes'.
Proof.
  intros (pre & b & post & -> & _ & _ & ->)%update_boxes_Some.
  apply Forall2_app; [apply boxes_frame_refl|].
  constructor; [|apply boxes_frame_refl].
  split; [symmetry; apply box_frame_apply_validation|].
  intros _. apply (apply_validation_fields v b).
Qed.

Lemma update_images_frame v i images :
  same_frame images (fst (update_images v i images)).
Proof.
  induction images as [|img images IH]; [constructor|].
  simpl. destruct (String.eqb (ImageRecord.image_id img) i).
  - destruct (update_boxes v (ImageRecord.boxes img)) as [bs|] eqn:Hu;
      [|apply same_frame_refl].
    constructor; [|apply same_frame_refl].
    split; [reflexivity|]. exact (update_boxes_frame v _ _ Hu).
  - destruct (update_images v i images) as [rest found]. simpl in *.
    constructor; [|exact IH].
    split; [reflexivity|apply boxes_frame_refl].
Qed.

Lemma validate_boxes_frame vs images images' :
  validate_boxes vs images = Ok images' -> same_frame images images'.
Proof.
  revert images. induction vs as [|v vs IH]; intros images; simpl.
  - intros [= <-]. apply same_frame_refl.
  - destruct (validate_box v images) as [r|] eqn:Hv; [|discriminate].
    intros H. apply (same_frame_trans _ r); [|now apply IH].
    unfold validate_box in Hv.
    destruct (parse_box_id _); [| discriminate |]; injection Hv as <-.
    + apply same_frame_refl.
    + apply update_images_frame.
Qed.

(** X10. A batch that succeeds rewrites one session and nothing else; in it the
    images and their boxes are the same ones in the same order, identifiers,
    coordinates, labels, manual flags and timestamps unchanged, and every box
    that was verified still is. *)
Theorem validate_detections_frame st session_id vs r st' session_data :
  st !! session_id = Some session_data ->
  validate_detections st session_id vs = (Ok r, st') ->
  exists session_data',
    st' = <[session_id := session_data']> st /\
    Session.session_id session_data' = Session.session_id session_data /\
    same_frame (Session.images session_data) (Session.images session_data') /\
    ValidationResponse.total_boxes r
    = length (all_boxes (Session.images session_data)).
Proof.
  intros Hsd. rewrite (validate_detections_eq _ _ _ _ Hsd).
  destruct (load_boxes (Session.images session_data)); [|discriminate].
  destruct (validate_boxes vs (Session.images session_data)) as [images'|] eqn:Hv;
    [|discriminate].
  destruct (load_boxes images'); [|discriminate].
  destruct (calculate_true_metrics _ _) as [tm|]; [|discriminate].
  intros [= <- <-]. eexists. split; [reflexivity|]. split; [reflexivity|].
  apply validate_boxes_frame in Hv. split; [exact Hv|].
  cbn [ValidationResponse.total_boxes]. unfold all_boxes.
  clear -Hv. induction Hv as [|i1 i2 l1 l2 [_ Hb] _ IH]; [reflexivity|].
  simpl. rewrite !length_app, IH. f_equal. symmetry.
  eapply Forall2_length, Hb.
Qed.

Lemma validate_detections_frame_witness :
  let v := Sample.correction "img_box_1" false in
  let out := validate_detections Sample.files "s" [v] in
  Sample.files !! "s" = Some Sample.session /\
  exists r session_data',
    out = (Ok r, <[ "s" := session_data']> Sample.files) /\
    same_frame (Session.images Sample.session) (Session.images session_data').
Proof.
  cbv zeta. split; [reflexivity|].
  destruct (validate_detections Sample.files "s"
              [Sample.correction "img_box_1" false]) as [[r|e] st'] eqn:E.
  2:{ vm_compute in E. discriminate E. }
  destruct (validate_detections_frame Sample.files "s" _ r st' Sample.session
              eq_refl E) as (sd' & -> & _ & Hf & _).
  exists r, sd'. split; [reflexivity|exact Hf].
Defined.

(** *** Corrections of different boxes commute *)

Lemma update_images_fst v i images :
  fst (update_images v i images) =
  match images with
  | [] => []
  | img :: rest =>
      if String.eqb (ImageRecord.image_id img) i
      then ImageRecord.set_boxes (boxes_after v (ImageRecord.boxes img)) img
             :: rest
      else img :: fst (update_images v i rest)
  end.
Proof.
  destruct images as [|img rest]; [reflexivity|].
  simpl. destruct (String.eqb (ImageRecord.image_id img) i).
  - unfold boxes_after.
    destruct (update_boxes v (ImageRecord.boxes img)); [reflexivity|].
    now destruct img.
  - now destruct (update_images v i rest).
Qed.

Lemma has_both_ids i1 i2 b :
  has_box_id i1 b = true -> has_box_id i2 b = true -> i1 = i2.
Proof.
  unfold has_box_id. destruct (box_id b) as [i|]; [|discriminate].
  intros H1%String.eqb_eq H2%String.eqb_eq. congruence.
Qed.

Lemma boxes_after_cons v b boxes :
  boxes_after v (b :: boxes) =
  if has_box_id (BoxValidation.box_id v) b
  then apply_validation v b :: boxes
  else b :: boxes_after v boxes.
Proof.
  unfold boxes_after. simpl.
  destruct (has_box_id (BoxValidation.box_id v) b); [reflexivity|].
  now destruct (update_boxes v boxes).
Qed.

Lemma boxes_after_comm v1 v2 boxes :
  BoxValidation.box_id v1 <> BoxValidation.box_id v2 ->
  boxes_after v2 (boxes_after v1 boxes) = boxes_after v1 (boxes_after v2 boxes).
Proof.
  intros Hne. induction boxes as [|b boxes IH]; [reflexivity|].
  rewrite (boxes_after_cons v1), (boxes_after_cons v2).
  destruct (has_box_id (BoxValidation.box_id v1) b) eqn:H1,
           (has_box_id (BoxValidation.box_id v2) b) eqn:H2.
  - elim Hne. eapply has_both_ids; eauto.
  - rewrite !boxes_after_cons, has_box_id_apply_validation, H1, H2.
    reflexivity.
  - rewrite !boxes_after_cons, has_box_id_apply_validation, H1, H2.
    reflexivity.
  - rewrite !boxes_after_cons, H1, H2, IH. reflexivity.
Qed.

Lemma update_images_comm v1 v2 i1 i2 images :
  BoxValidation.box_id v1 <> BoxValidation.box_id v2 ->
  fst (update_images v2 i2 (fst (update_images v1 i1 images)))
  = fst (update_images v1 i1 (fst (update_images v2 i2 images))).
Proof.
  intros Hne. induction images as [|img images IH]; [reflexivity|].
  rewrite (update_images_fst v1 i1 (img :: images)),
          (update_images_fst v2 i2 (img :: images)).
  destruct (String.eqb (ImageRecord.image_id img) i1) eqn:E1,
           (String.eqb (ImageRecord.image_id img) i2) eqn:E2;
    rewrite !update_images_fst; cbn [ImageRecord.image_id ImageRecord.set_boxes
                                     ImageRecord.boxes];
    rewrite ?E1, ?E2.
  - now rewrite boxes_after_comm.
  - rewrite <- update_images_fst. reflexivity.
  - rewrite <- update_images_fst. reflexivity.
  - rewrite <- !update_images_fst, IH. reflexivity.
Qed.

Lemma validate_box_comm v1 v2 images images1 images2 :
  BoxValidation.box_id v1 <> BoxValidation.box_id v2 ->
  validate_box v1 images = Ok images1 ->
  validate_box v2 images = Ok images2 ->
  validate_box v2 images1 = validate_box v1 images2.
Proof.
  intros Hne. unfold validate_box.
  destruct (parse_box_id (BoxValidation.box_id v1)) as [|e1|i1 n1];
    destruct (parse_box_id (BoxValidation.box_id v2)) as [|e2|i2 n2];
    try discriminate; intros [= <-] [= <-]; try reflexivity.
  f_equal. now apply update_images_comm.
Qed.

Lemma validate_box_raise_any v images images' e :
  validate_box v images = Raise e -> validate_box v images' = Raise e.
Proof.
  unfold validate_box. now destruct (parse_box_id _).
Qed.

Lemma validate_box_Ok v images :
  (forall e, parse_box_id (BoxValidation.box_id v) <> BadIndex e) ->
  exists images', validate_box v images = Ok images'.
Proof.
  intros H. unfold validate_box.
  destruct (parse_box_id (BoxValidation.box_id v)) as [|e|i n]; eauto.
  now elim (H e).
Qed.

(** X11. Two corrections for different box identifiers, of which at least one
    does not fail on its index, can be sent in either order: response and
    stored sessions are the same. *)
Theorem corrections_commute st session_id v1 v2 :
  BoxValidation.box_id v1 <> BoxValidation.box_id v2 ->
  (forall e, parse_box_id (BoxValidation.box_id v1) <> BadIndex e) \/
  (forall e, parse_box_id (BoxValidation.box_id v2) <> BadIndex e) ->
  validate_detections st session_id [v1; v2]
  = validate_detections st session_id [v2; v1].
Proof.
  intros Hne Hok. apply validate_detections_ext. intros images. simpl.
  destruct (validate_box v1 images) as [r1|e1] eqn:H1,
           (validate_box v2 images) as [r2|e2] eqn:H2.
  - rewrite (validate_box_comm v1 v2 images r1 r2 Hne H1 H2).
    now destruct (validate_box v1 r2).
  - rewrite (validate_box_raise_any v2 images r1 e2 H2). reflexivity.
  - rewrite (validate_box_raise_any v1 images r2 e1 H1). reflexivity.
  - destruct Hok as [H|H]; destruct (validate_box_Ok _ images H); congruence.
Qed.

Lemma corrections_commute_witness :
  let v1 := BoxValidation.mk "img_box_0" false (Some (1 # 2)) None in
  let v2 := BoxValidation.mk "img_box_2" true None (Some "ok") in
  BoxValidation.box_id v1 <> BoxValidation.box_id v2 /\
  (forall e, parse_box_id (BoxValidation.box_id v1) <> BadIndex e) /\
  validate_detections Sample.files "s" [v1; v2]
  = validate_detections Sample.files "s" [v2; v1].
Proof.
  split; [discriminate|]. split; [discriminate|].
  apply (corrections_commute Sample.files "s"
           (BoxValidation.mk "img_box_0" false (Some (1 # 2)) None)
           (BoxValidation.mk "img_box_2" true None (Some "ok"))).
  - discriminate.
  - left. discriminate.
Defined.

End BatchFrame.

(** ** Adding then deleting a manual box *)

Section AddDelete.

Import GroundTruthBox.
Implicit Types (st : store).

Lemma filter_absent {A} (p : A -> bool) (l : list A) :
  existsb p l = false -> List.filter (fun x => negb (p x)) l = l.
Proof.
  induction l as [|x l IH]; [reflexivity|].
  simpl. intros [Hx Hl]%orb_false_elim. rewrite Hx. simpl. now rewrite IH.
Qed.

(** X13. When no box of the image carries the identifier that [add_manual_box] is
    about to assign, deleting the box it returns undoes the addition: the
    directory of sessions is back to what it was. *)
Theorem add_then_delete_restores
    st session_id image_id box session_data pre img post :
  st !! session_id = Some session_data ->
  Session.images session_data = pre ++ img :: post ->
  Forall (fun img => ImageRecord.image_id img <> image_id) pre ->
  ImageRecord.image_id img = image_id ->
  existsb (has_box_id (format_box_id image_id (length (ImageRecord.boxes img))))
    (ImageRecord.boxes img) = false ->
  exists r,
    fst (add_manual_box st session_id image_id box) = Ok r /\
    delete_box (snd (add_manual_box st session_id image_id box))
      session_id image_id (AddManualResponse.box_id r)
    = (Ok (DeleteResponse.mk (AddManualResponse.box_id r)
             (length (ImageRecord.boxes img))), st).
Proof.
  intros Hsd Himages Hpre Himg Hfresh.
  unfold add_manual_box. rewrite Hsd, Himages.
  rewrite (add_to_image_found _ box _ _ post Hpre Himg). cbv zeta.
  eexists. split; [reflexivity|]. cbn [snd AddManualResponse.box_id].
  unfold delete_box. rewrite lookup_insert_eq. cbn [Session.images Session.set_images].
  set (new_id := format_box_id image_id (length (ImageRecord.boxes img))) in *.
  set (new_box := set_is_correct true _).
  rewrite (delete_from_image_found image_id new_id pre
             (ImageRecord.set_boxes (ImageRecord.boxes img ++ [new_box]) img)
             post Hpre Himg).
  cbv zeta. cbn [ImageRecord.boxes ImageRecord.set_boxes].
  rewrite List.filter_app, (filter_absent _ _ Hfresh).
  assert (has_box_id new_id new_box = true) as Hnew.
  { unfold has_box_id, new_box. cbn. apply String.eqb_refl. }
  cbn [List.filter]. rewrite Hnew. cbn [negb]. rewrite app_nil_r.
  rewrite length_app. cbn [length].
  destruct (Nat.ltb_spec (length (ImageRecord.boxes img))
              (length (ImageRecord.boxes img) + 1)); [|lia].
  f_equal. rewrite insert_insert_eq. apply insert_id.
  rewrite Hsd. f_equal. destruct session_data as [sid images tm].
  cbn in *. subst images. now destruct img.
Qed.

Lemma add_then_delete_restores_witness :
  Sample.files !! "s" = Some Sample.session /\
  existsb (has_box_id (format_box_id "img" 3))
    (ImageRecord.boxes (Sample.image "img" 3)) = false /\
  exists r,
    fst (add_manual_box Sample.files "s" "img" Sample.drawn) = Ok r /\
    delete_box (snd (add_manual_box Sample.files "s" "img" Sample.drawn))
      "s" "img" (AddManualResponse.box_id r)
    = (Ok (DeleteResponse.mk (AddManualResponse.box_id r) 3), Sample.files).
Proof.
  split; [reflexivity|]. split; [reflexivity|].
  apply (add_then_delete_restores Sample.files "s" "img" Sample.drawn
           Sample.session [] (Sample.image "img" 3) []).
  - reflexivity.
  - reflexivity.
  - constructor.
  - reflexivity.
  - reflexivity.
Defined.

End AddDelete.

(** ** Reading a session back *)

Section GetValidations.

Import GroundTruthBox.
Implicit Types (st : store).

Lemma count_zero_existsb {A} (p : A -> bool) (l : list A) :
  existsb p l = false -> count p l = 0%nat.
Proof.
  intros H. unfold count. now rewrite (proj2 (filter_nil_existsb p l) H).
Qed.

Lemma set_true_metrics_images tm sd :
  Session.images (Session.set_true_metrics tm sd) = Session.images sd.
Proof. reflexivity. Qed.

(** X14. [get_validations] never touches the images.  It writes only when some
    box is verified, and then only the cached metrics of that session; with
    no verified box the document comes back as it is stored, cached metrics
    included, and nothing is written.  A failure writes nothing. *)
Theorem get_validations_frame st session_id session_data :
  st !! session_id = Some session_data ->
  match get_validations st session_id with
  | (Ok data, st') =>
      Session.session_id data = Session.session_id session_data /\
      Session.images data = Session.images session_data /\
      (if existsb is_verified (all_boxes (Session.images session_data))
       then st' = <[session_id := data]> st /\
            Session.true_metrics data =
            calculate_true_metrics (all_boxes (Session.images session_data))
              (latest_yolo_metrics (Session.images session_data))
       else data = session_data /\ st' = st)
  | (Raise e, st') => st' = st
  end.
Proof.
  intros Hsd. rewrite (get_validations_eq _ _ _ Hsd).
  destruct (load_boxes (Session.images session_data)); [|reflexivity].
  destruct (existsb is_verified (all_boxes (Session.images session_data))) eqn:E.
  - pose proof (count_pos_existsb _ _ E) as Hpos.
    destruct (Nat.ltb_spec 0
                (count is_verified (all_boxes (Session.images session_data))));
      [|lia].
    destruct (calculate_true_metrics _ _) as [tm|]; [|reflexivity].
    cbn. auto.
  - rewrite (count_zero_existsb _ _ E). cbn. auto.
Qed.

Lemma get_validations_frame_witness :
  Sample.files !! "s" = Some Sample.session /\
  get_validations Sample.files "s" = (Ok Sample.session, Sample.files).
Proof.
  split; [reflexivity|].
  pose proof (get_validations_frame Sample.files "s" Sample.session eq_refl) as H.
  destruct (get_validations Sample.files "s") as [[data|e] st'] eqn:E.
  - destruct H as (_ & _ & H). cbn in H. destruct H as [-> ->]. reflexivity.
  - vm_compute in E. discriminate E.
Defined.

(** X15. Asking twice gives the same answer and leaves the directory as the
    first call left it. *)
Theorem get_validations_twice st session_id :
  let '(r, st') := get_validations st session_id in
  get_validations st' session_id = (r, st').
Proof.
  destruct (st !! session_id) as [sd|] eqn:Hsd.
  2:{ unfold get_validations. rewrite Hsd. cbn. now rewrite Hsd. }
  rewrite (get_validations_eq _ _ _ Hsd).
  destruct (load_boxes (Session.images sd)) as [l|] eqn:Hl.
  2:{ rewrite (get_validations_eq _ _ _ Hsd). now rewrite Hl. }
  destruct (0 <? count is_verified (all_boxes (Session.images sd)))%nat eqn:Hc.
  - destruct (calculate_true_metrics _ _) as [tm|] eqn:Htm.
    + rewrite (get_validations_eq _ _ _ (lookup_insert_eq _ _ _)).
      rewrite set_true_metrics_images, Hl, Hc, Htm.
      cbn. now rewrite insert_insert_eq.
    + rewrite (get_validations_eq _ _ _ Hsd). now rewrite Hl, Hc, Htm.
  - rewrite (get_validations_eq _ _ _ Hsd). now rewrite Hl, Hc.
Qed.

Lemma latest_yolo_metrics_snoc images img :
  latest_yolo_metrics (images ++ [img]) =
  if yolo_truthy (ImageRecord.yolo_metrics img)
  then ImageRecord.yolo_metrics img
  else latest_yolo_metrics images.
Proof. unfold latest_yolo_metrics. now rewrite fold_left_app. Qed.

Lemma latest_yolo_metrics_last images :
  Forall (fun img => yolo_truthy (ImageRecord.yolo_metrics img) = true) images ->
  latest_yolo_metrics images =
  match last images with
  | Some image_data => ImageRecord.yolo_metrics image_data
  | None => YoloMetrics.empty
  end.
Proof.
  destruct images as [|img images _] using rev_ind; [reflexivity|].
  intros [_ Himg%Forall_inv]%Forall_app.
  now rewrite latest_yolo_metrics_snoc, Himg, last_snoc.
Qed.

Lemma latest_yolo_metrics_meta images images' :
  map image_meta images' = map image_meta images ->
  latest_yolo_metrics images' = latest_yolo_metrics images.
Proof.
  unfold latest_yolo_metrics. generalize YoloMetrics.empty.
  revert images'. induction images as [|img images IH]; intros images' acc H.
  - now destruct images'.
  - destruct images' as [|img' images']; [discriminate|].
    simpl in *. injection H as Hm H.
    assert (ImageRecord.yolo_metrics img' = ImageRecord.yolo_metrics img) as ->
      by (unfold image_meta in Hm; congruence).
    now apply IH.
Qed.

(** X16. When every image of the session carries detector metrics, reading the
    session after a batch that succeeded returns what the batch stored and
    writes nothing new: the cached metrics are those of the response. *)
Theorem get_validations_after_validate st session_id vs r st' session_data :
  st !! session_id = Some session_data ->
  Forall (fun img => yolo_truthy (ImageRecord.yolo_metrics img) = true)
    (Session.images session_data) ->
  validate_detections st session_id vs = (Ok r, st') ->
  exists data,
    st' !! session_id = Some data /\
    Session.true_metrics data = Some (ValidationResponse.metrics r) /\
    get_validations st' session_id = (Ok data, st').
Proof.
  intros Hsd Hyolo. rewrite (validate_detections_eq _ _ _ _ Hsd).
  destruct (load_boxes (Session.images session_data)); [|discriminate].
  destruct (validate_boxes vs (Session.images session_data)) as [images'|] eqn:Hv;
    [|discriminate].
  destruct (load_boxes images') as [l'|] eqn:Hl'; [|discriminate].
  destruct (calculate_true_metrics _ _) as [tm|] eqn:Htm; [|discriminate].
  intros [= <- <-]. eexists. split; [apply lookup_insert_eq|].
  split; [reflexivity|].
  rewrite (get_validations_eq _ _ _ (lookup_insert_eq _ _ _)).
  cbn [Session.images Session.set_true_metrics Session.set_images].
  rewrite Hl'.
  destruct (0 <? count is_verified (all_boxes images'))%nat; [|reflexivity].
  rewrite (latest_yolo_metrics_meta _ _ (validate_boxes_meta _ _ _ Hv)).
  rewrite (latest_yolo_metrics_last _ Hyolo), Htm.
  cbn. now rewrite insert_insert_eq.
Qed.

Lemma get_validations_after_validate_witness :
  let out :=
    validate_detections Sample.files "s" [Sample.correction "img_box_0" true] in
  Sample.files !! "s" = Some Sample.session /\
  Forall (fun img => yolo_truthy (ImageRecord.yolo_metrics img) = true)
    (Session.images Sample.session) /\
  exists r data,
    fst out = Ok r /\
    snd out !! "s" = Some data /\
    Session.true_metrics data = Some (ValidationResponse.metrics r) /\
    get_validations (snd out) "s" = (Ok data, snd out).
Proof.
  cbv zeta. split; [reflexivity|].
  split; [repeat constructor|].
  destruct (validate_detections Sample.files "s"
              [Sample.correction "img_box_0" true]) as [[r|e] st'] eqn:E.
  2:{ vm_compute in E. discriminate E. }
  exists r.
  destruct (get_validations_after_validate Sample.files "s"
              [Sample.correction "img_box_0" true] r st'
              Sample.session eq_refl) as (data & H1 & H2 & H3).
  - repeat constructor.
  - exact E.
  - exists data. split; [reflexivity|]. split; [exact H1|].
    split; [exact H2|exact H3].
Defined.

End GetValidations.

(** ** What holds of every stored box *)

Section Invariant.

Import GroundTruthBox.
Implicit Types (st : store) (v : BoxValidation.t)
  (images : list ImageRecord.t).

Variable validate_session_id : string -> option string.

Lemma box_inv_apply_validation i v b :
  override_ok v -> box_inv i b -> box_inv i (apply_validation v b).
Proof.
  intros Hv (Hm & Hid & Hc).
  destruct (apply_validation_fields v b)
    as (Hver & _ & Hconf & _ & _ & Hbid & Hman & _).
  unfold box_inv. rewrite Hver, Hconf, Hbid.
  split; [auto|]. split; [exact Hid|].
  unfold override_ok in Hv.
  now destruct (BoxValidation.confidence_override v).
Qed.

Lemma update_boxes_inv i v boxes boxes' :
  override_ok v -> Forall (box_inv i) boxes ->
  update_boxes v boxes = Some boxes' -> Forall (box_inv i) boxes'.
Proof.
  intros Hv Hall (pre & b & post & -> & _ & _ & ->)%update_boxes_Some.
  apply Forall_app in Hall as [Hpre Hrest].
  apply Forall_cons in Hrest as [Hb Hpost].
  apply Forall_app. split; [exact Hpre|].
  constructor; [now apply box_inv_apply_validation|exact Hpost].
Qed.

Lemma update_images_inv v i images :
  override_ok v -> images_inv images ->
  images_inv (fst (update_images v i images)).
Proof.
  intros Hv. unfold images_inv.
  induction 1 as [|img images Himg Hrest IH]; [constructor|].
  simpl. destruct (String.eqb (ImageRecord.image_id img) i).
  - destruct (update_boxes v (ImageRecord.boxes img)) as [bs|] eqn:Hu;
      simpl; constructor; auto.
    exact (update_boxes_inv _ v _ _ Hv Himg Hu).
  - destruct (update_images v i images). simpl in *. constructor; auto.
Qed.

Lemma validate_boxes_inv vs images images' :
  Forall override_ok vs -> images_inv images ->
  validate_boxes vs images = Ok images' -> images_inv images'.
Proof.
  intros Hvs. revert images.
  induction Hvs as [|v vs Hv _ IH]; intros images Hinv; simpl.
  - now intros [= <-].
  - unfold validate_box. destruct (parse_box_id _) as [|e|i n]; [|discriminate|].
    + now apply IH.
    + apply IH. now apply update_images_inv.
Qed.

Lemma add_to_image_inv image_id raw box images new_id new_box images' :
  GroundTruthBox_validate raw = Some box -> images_inv images ->
  add_to_image image_id box images = Some (new_id, new_box, images') ->
  images_inv images'.
Proof.
  intros Hbox%GroundTruthBox_validate_Some. unfold images_inv.
  intros Hinv. revert new_id new_box images'.
  induction Hinv as [|img images Himg Hrest IH]; intros new_id new_box images';
    [discriminate|].
  simpl. destruct (String.eqb_spec (ImageRecord.image_id img) image_id) as [E|_].
  - intros [= <- <- <-]. constructor; [|exact Hrest].
    cbn [ImageRecord.boxes ImageRecord.image_id ImageRecord.set_boxes].
    apply Forall_app. split; [exact Himg|]. constructor; [|constructor].
    unfold box_inv. cbn. rewrite E.
    split; [auto|]. split; [eauto|]. tauto.
  - destruct (add_to_image image_id box images) as [[[i b] rest]|]; [|discriminate].
    intros [= <- <- <-]. constructor; [exact Himg|]. eapply IH. reflexivity.
Qed.

Lemma delete_from_image_inv image_id box_id images images' n :
  images_inv images ->
  delete_from_image image_id box_id images = Ok (images', n) ->
  images_inv images'.
Proof.
  unfold images_inv. intros Hinv. revert images' n.
  induction Hinv as [|img images Himg Hrest IH]; intros images' n;
    [discriminate|].
  simpl. destruct (String.eqb (ImageRecord.image_id img) image_id).
  - destruct (_ <? _)%nat; [|discriminate].
    intros [= <- <-]. constructor; [|exact Hrest].
    cbn [ImageRecord.boxes ImageRecord.image_id ImageRecord.set_boxes].
    apply List.Forall_forall. intros b [Hb _]%List.filter_In.
    now apply (proj1 (List.Forall_forall _ _) Himg).
  - destruct (delete_from_image image_id box_id images) as [[rest m]|];
      [|discriminate].
    intros [= <- <-]. constructor; [exact Himg|]. eapply IH. reflexivity.
Qed.

Lemma store_inv_insert st session_id session_data :
  store_inv st -> images_inv (Session.images session_data) ->
  store_inv (<[session_id := session_data]> st).
Proof.
  intros Hst Hsd sid sd. destruct (decide (session_id = sid)) as [->|Hne].
  - rewrite lookup_insert_eq. now intros [= <-].
  - rewrite lookup_insert_ne by exact Hne. apply Hst.
Qed.

Lemma run_inference_inv st session_id image_id boxes metrics utcnow :
  store_inv st ->
  store_inv (snd (run_inference st session_id image_id boxes metrics utcnow)).
Proof.
  intros Hst.
  pose proof (run_inference_outcome st session_id image_id boxes metrics utcnow)
    as H. cbv zeta in H.
  destruct (run_inference st session_id image_id boxes metrics utcnow)
    as [[r|e] st']; cbn [snd].
  2:{ now destruct H as [-> _]. }
  destruct H as (_ & new_boxes & -> & _ & _ & Hnew & _).
  apply store_inv_insert; [exact Hst|]. cbn [Session.images].
  apply Forall_app. split.
  - destruct (st !! session_id) as [sd|] eqn:Hsd; [exact (Hst _ _ Hsd)|constructor].
  - constructor; [|constructor]. cbn [ImageRecord.boxes ImageRecord.image_id].
    apply Forall_lookup. intros k b Hb.
    destruct (Hnew k b Hb) as (Hid & Hver & _ & Hman & _ & Hc & _).
    unfold box_inv. rewrite Hman, Hid. split; [discriminate|]. eauto.
Qed.

Lemma validate_detections_inv st session_id vs :
  Forall override_ok vs -> store_inv st ->
  store_inv (snd (validate_detections st session_id vs)).
Proof.
  intros Hvs Hst. unfold validate_detections.
  destruct (st !! session_id) as [sd|] eqn:Hsd; [|exact Hst].
  destruct (load_boxes (Session.images sd)); [|exact Hst].
  destruct (validate_boxes vs (Session.images sd)) as [images'|] eqn:Hv;
    [|exact Hst].
  destruct (load_boxes images'); [|exact Hst].
  destruct (calculate_true_metrics _ _); [|exact Hst].
  apply store_inv_insert; [exact Hst|]. cbn.
  exact (validate_boxes_inv vs _ _ Hvs (Hst _ _ Hsd) Hv).
Qed.

Lemma get_validations_inv st session_id :
  store_inv st -> store_inv (snd (get_validations st session_id)).
Proof.
  intros Hst. unfold get_validations.
  destruct (st !! session_id) as [sd|] eqn:Hsd; [|exact Hst].
  destruct (load_boxes (Session.images sd)); [|exact Hst].
  destruct (_ <? _)%nat; [|exact Hst].
  destruct (calculate_true_metrics _ _); [|exact Hst].
  apply store_inv_insert; [exact Hst|]. exact (Hst _ _ Hsd).
Qed.

Lemma add_manual_box_inv st session_id image_id raw box :
  GroundTruthBox_validate raw = Some box -> store_inv st ->
  store_inv (snd (add_manual_box st session_id image_id box)).
Proof.
  intros Hbox Hst. unfold add_manual_box.
  destruct (st !! session_id) as [sd|] eqn:Hsd; [|exact Hst].
  destruct (add_to_image image_id box (Session.images sd))
    as [[[new_id new_box] images']|] eqn:Ha; [|exact Hst].
  apply store_inv_insert; [exact Hst|]. cbn.
  exact (add_to_image_inv _ _ _ _ _ _ _ Hbox (Hst _ _ Hsd) Ha).
Qed.

Lemma delete_box_inv st session_id image_id box_id :
  store_inv st -> store_inv (snd (delete_box st session_id image_id box_id)).
Proof.
  intros Hst. unfold delete_box.
  destruct (st !! session_id) as [sd|] eqn:Hsd; [|exact Hst].
  destruct (delete_from_image image_id box_id (Session.images sd))
    as [[images' n]|] eqn:Hd; [|exact Hst].
  apply store_inv_insert; [exact Hst|]. cbn.
  exact (delete_from_image_inv _ _ _ _ _ (Hst _ _ Hsd) Hd).
Qed.

Lemma handle_inv st r :
  store_inv st -> store_inv (handle validate_session_id st r).
Proof.
  intros Hst. destruct r as [sid iid boxes metrics now|sid raws|sid|sid iid raw|sid iid bid];
    cbn [handle].
  - now apply run_inference_inv.
  - destruct (ValidationRequest_validate raws) as [vs|] eqn:Hvs; [|exact Hst].
    destruct (validate_session_id sid); [|exact Hst].
    apply validate_detections_inv; [|exact Hst].
    exact (ValidationRequest_validate_ok _ _ Hvs).
  - destruct (validate_session_id sid); [|exact Hst].
    now apply get_validations_inv.
  - destruct (GroundTruthBox_validate raw) as [box|] eqn:Hbox; [|exact Hst].
    destruct (validate_session_id sid); [|exact Hst].
    now apply (add_manual_box_inv _ _ _ raw).
  - destruct (validate_session_id sid); [|exact Hst].
    now apply delete_box_inv.
Qed.

Lemma handle_all_inv (rs : list request) :
  store_inv (handle_all validate_session_id ∅ rs).
Proof.
  unfold handle_all.
  assert (store_inv (∅ : store)) as H0.
  { intros sid sd H. now rewrite lookup_empty in H. }
  revert H0. generalize (∅ : store).
  induction rs as [|r rs IH]; intros st Hst; [exact Hst|].
  simpl. apply IH. now apply handle_inv.
Qed.

(** X17. After any sequence of requests, starting from no session at all, every
    stored box that is manual is verified, carries an identifier
    [<image_id>_box_<k>] built on the identifier of the image that holds it,
    and has a confidence within [0,1]. *)
Theorem requests_keep_store_inv (rs : list request) :
  store_inv (handle_all validate_session_id ∅ rs).
Proof. apply handle_all_inv. Qed.

End Invariant.

Section InvariantUses.

Import GroundTruthBox.
Implicit Types (st : store) (v : BoxValidation.t).

Lemma count_forall_false {A} (p : A -> bool) (l : list A) :
  Forall (fun x => p x = false) l -> count p l = 0%nat.
Proof.
  induction 1 as [|x l Hx _ IH]; [reflexivity|].
  now rewrite count_cons, Hx, IH.
Qed.

Lemma images_inv_all_boxes images :
  images_inv images ->
  Forall (fun b => is_manual b = true -> is_verified b = true) (all_boxes images).
Proof.
  unfold images_inv, all_boxes. induction 1 as [|img images Himg _ IH];
    [constructor|].
  simpl. apply Forall_app. split; [|exact IH].
  eapply Forall_impl; [exact Himg|]. intros b (H & _). exact H.
Qed.

(** With every manual box verified, as the handlers keep them, the metrics
    report no false negative, and the recall is 0 or 1. *)
Lemma metrics_without_pending_manual boxes ym m :
  Forall (fun b => is_manual b = true -> is_verified b = true) boxes ->
  calculate_true_metrics boxes ym = Some m ->
  TrueMetrics.false_negatives m = 0%nat /\
  (TrueMetrics.recall m = 0%Q \/ TrueMetrics.recall m = 1%Q).
Proof.
  intros Hinv ->%calculate_true_metrics_Some.
  assert (count (fun b => is_manual b && negb (is_verified b)) boxes = 0%nat)
    as Hfn.
  { apply count_forall_false. eapply Forall_impl; [exact Hinv|].
    intros b Hb. cbv beta in Hb |- *. destruct (is_manual b); [|reflexivity].
    now rewrite (Hb eq_refl). }
  destruct (existsb is_verified boxes) eqn:E.
  - rewrite (true_metrics_args_verified _ _ E). cbv zeta.
    cbn [TrueMetrics.false_negatives TrueMetrics.recall].
    rewrite Hfn. split; [reflexivity|].
    rewrite Nat.add_0_r.
    destruct (Nat.ltb_spec 0 (count is_correct (List.filter is_verified boxes)))
      as [Hpos|Hz].
    + right. unfold PyFloat.true_divide.
      rewrite (fl_Qeq _ 1); [vm_compute; reflexivity|].
      unfold Qdiv. apply Qmult_inv_r.
      pose proof (Q_of_nat_pos _ Hpos) as Hq. unfold Q_of_nat in Hq. lra.
    + left. assert (count is_correct (List.filter is_verified boxes) = 0%nat)
        as -> by lia.
      reflexivity.
  - rewrite (true_metrics_args_unverified _ _ E). cbn. auto.
Qed.

(** X18. Whatever requests were served, the metrics of a stored session report
    no false negative and a recall of 0 or 1. *)
Theorem served_sessions_recall validate_session_id rs session_id session_data ym m :
  handle_all validate_session_id ∅ rs !! session_id = Some session_data ->
  calculate_true_metrics (all_boxes (Session.images session_data)) ym = Some m ->
  TrueMetrics.false_negatives m = 0%nat /\
  (TrueMetrics.recall m = 0%Q \/ TrueMetrics.recall m = 1%Q).
Proof.
  intros Hsd. apply metrics_without_pending_manual, images_inv_all_boxes.
  exact (handle_all_inv validate_session_id rs _ _ Hsd).
Qed.

Lemma validate_boxes_Ok vs images :
  Forall (fun v => forall e, parse_box_id (BoxValidation.box_id v) <> BadIndex e)
    vs ->
  exists images', validate_boxes vs images = Ok images'.
Proof.
  intros H. revert images. induction H as [|v vs Hv _ IH]; intros images.
  - now exists images.
  - simpl. destruct (validate_box_Ok v images Hv) as [r ->]. apply IH.
Qed.

(** X19. Whatever requests were served, a batch whose corrections all name boxes
    found in the session does not fail on an index: the loop over the batch
    runs to its end. *)
Theorem stored_ids_never_abort validate_session_id rs session_id session_data vs :
  handle_all validate_session_id ∅ rs !! session_id = Some session_data ->
  Forall (fun v =>
            exists b, In b (all_boxes (Session.images session_data)) /\
                      box_id b = Some (BoxValidation.box_id v)) vs ->
  exists images', validate_boxes vs (Session.images session_data) = Ok images'.
Proof.
  intros Hsd Hvs. apply validate_boxes_Ok.
  pose proof (handle_all_inv validate_session_id rs _ _ Hsd) as Hinv.
  eapply Forall_impl; [exact Hvs|].
  intros v (b & Hb & Hid) e. unfold all_boxes in Hb.
  apply in_concat in Hb as (bs & Hbs & Hb).
  apply in_map_iff in Hbs as (img & <- & Himg).
  unfold images_inv in Hinv.
  pose proof (proj1 (List.Forall_forall _ _) Hinv img Himg) as Hboxes.
  destruct (proj1 (List.Forall_forall _ _) Hboxes b Hb) as (_ & [k Hk] & _).
  assert (BoxValidation.box_id v = format_box_id (ImageRecord.image_id img) k)
    as -> by congruence.
  rewrite parse_format_box_id. discriminate.
Qed.

End InvariantUses.

Section ServedWitnesses.

Import GroundTruthBox.

Example served_session :
  Served.files !! "s" = Some Served.session /\
  box_id <$> all_boxes (Session.images Served.session)
  = [Some "img_box_0"; Some "img_box_1"; Some "img_box_3"] /\
  label <$> all_boxes (Session.images Served.session)
  = ["traffic light"; "traffic light"; "dog"] /\
  notes <$> all_boxes (Session.images Served.session)
  = [Some "ok"; None; None] /\
  TrueMetrics.true_positives <$> Session.true_metrics Served.session = Some 2%nat.
Proof. vm_compute. repeat split; reflexivity. Qed.

Lemma named_box_exists (l : list GroundTruthBox.t) (i : string) :
  In (Some i) (box_id <$> l) -> exists b, In b l /\ box_id b = Some i.
Proof.
  intros H%list_elem_of_In%list_elem_of_fmap. destruct H as (b & Hb & Hin).
  exists b. split; [now apply list_elem_of_In|congruence].
Qed.

Lemma served_sessions_recall_witness :
  exists m,
    Served.files !! "s" = Some Served.session /\
    calculate_true_metrics (all_boxes (Session.images Served.session))
      Sample.yolo = Some m /\
    TrueMetrics.false_negatives m = 0%nat /\
    (TrueMetrics.recall m = 0%Q \/ TrueMetrics.recall m = 1%Q).
Proof.
  destruct (calculate_true_metrics (all_boxes (Session.images Served.session))
              Sample.yolo) as [m|] eqn:E.
  2:{ vm_compute in E. discriminate E. }
  exists m. split; [vm_compute; reflexivity|]. split; [reflexivity|].
  apply (served_sessions_recall Some Served.requests "s" Served.session
           Sample.yolo m).
  - vm_compute. reflexivity.
  - exact E.
Defined.

Lemma stored_ids_never_abort_witness :
  let vs := [Sample.correction "img_box_3" false;
             Sample.correction "img_box_0" false] in
  Served.files !! "s" = Some Served.session /\
  exists images',
    validate_boxes vs (Session.images Served.session) = Ok images'.
Proof.
  cbv zeta. split; [vm_compute; reflexivity|].
  assert (box_id <$> all_boxes (Session.images Served.session)
          = [Some "img_box_0"; Some "img_box_1"; Some "img_box_3"]) as Hids
    by (vm_compute; reflexivity).
  apply (stored_ids_never_abort Some Served.requests "s" Served.session).
  - vm_compute. reflexivity.
  - constructor; [|constructor; [|constructor]];
      apply named_box_exists; rewrite Hids; cbn [In BoxValidation.box_id
                                                Sample.correction]; auto.
Defined.

End ServedWitnesses.

(** ** What the metrics depend on *)

Section MetricsDependOn.

Import GroundTruthBox.
Implicit Types (boxes : list GroundTruthBox.t) (ym : YoloMetrics.t).

Lemma count_Permutation {A} (p : A -> bool) (l l' : list A) :
  Permutation l l' -> count p l = count p l'.
Proof.
  induction 1 as [|x l l' _ IH|x y l|l1 l2 l3 _ IH1 _ IH2].
  - reflexivity.
  - now rewrite !count_cons, IH.
  - rewrite !count_cons. lia.
  - congruence.
Qed.

(** X20. The metrics do not depend on the order of the boxes, hence not on the
    order of the images or on the image a box belongs to. *)
Theorem calculate_true_metrics_Permutation boxes boxes' ym :
  Permutation boxes boxes' ->
  calculate_true_metrics boxes ym = calculate_true_metrics boxes' ym.
Proof.
  intros H. unfold calculate_true_metrics. f_equal.
  apply true_metrics_args_by_counts; now apply count_Permutation.
Qed.

Lemma calculate_true_metrics_Permutation_witness :
  let b0 := set_is_verified true (Sample.detection "img" 0) in
  let b1 := set_is_correct false (set_is_verified true (Sample.detection "img" 1)) in
  let b2 := Sample.detection "img" 2 in
  Permutation [b0; b1; b2] [b2; b0; b1] /\
  calculate_true_metrics [b0; b1; b2] Sample.yolo
  = calculate_true_metrics [b2; b0; b1] Sample.yolo.
Proof.
  cbv zeta.
  assert (Permutation
            [set_is_verified true (Sample.detection "img" 0);
             set_is_correct false (set_is_verified true (Sample.detection "img" 1));
             Sample.detection "img" 2]
            [Sample.detection "img" 2;
             set_is_verified true (Sample.detection "img" 0);
             set_is_correct false (set_is_verified true (Sample.detection "img" 1))])
    as H.
  { apply Permutation_sym.
    exact (Permutation_cons_append
             [set_is_verified true (Sample.detection "img" 0);
              set_is_correct false
                (set_is_verified true (Sample.detection "img" 1))]
             (Sample.detection "img" 2)). }
  split; [exact H|].
  exact (calculate_true_metrics_Permutation _ _ Sample.yolo H).
Defined.

Lemma count_filter_implied {A} (p q : A -> bool) (l : list A) :
  (forall x, p x = true -> q x = true) ->
  count p (List.filter q l) = count p l.
Proof.
  intros Hpq. induction l as [|x l IH]; [reflexivity|].
  simpl. destruct (q x) eqn:Hq.
  - now rewrite !count_cons, IH.
  - rewrite count_cons, IH.
    destruct (p x) eqn:Hp; [|reflexivity].
    rewrite (Hpq x Hp) in Hq. discriminate.
Qed.

(** X21. Detections that nobody has verified count for nothing: leaving them out
    of the list gives the same metrics. *)
Theorem pending_detections_are_ignored boxes ym :
  calculate_true_metrics
    (List.filter (fun b => is_verified b || is_manual b) boxes) ym
  = calculate_true_metrics boxes ym.
Proof.
  unfold calculate_true_metrics. f_equal.
  apply true_metrics_args_by_counts; apply count_filter_implied;
    intros b; destruct (is_verified b), (is_manual b), (is_correct b);
    simpl; congruence.
Qed.

End MetricsDependOn.

(** ** Rebuilding a stored box *)

Section Reload.

Import GroundTruthBox.

(** X4. A box that the schema accepted is accepted again, unchanged, when it is
    rebuilt from its stored fields, unless the label sent was all blanks: the
    label stored is then empty and the schema refuses it. *)
Theorem GroundTruthBox_validate_again raw box :
  GroundTruthBox_validate raw = Some box ->
  GroundTruthBox_validate box
  = if all_chars PyStr.is_space (label raw) then None else Some box.
Proof.
  unfold GroundTruthBox_validate at 1.
  destruct (_ && _ && _ && _) eqn:Hc; [|discriminate].
  destruct (sanitize_label (label raw)) as [l|] eqn:Hl; [|discriminate].
  intros [= <-].
  rewrite !andb_true_iff in Hc. destruct Hc as [[[Hconf Hlen] Hid] Hnotes].
  destruct (sanitize_label_revalidate _ _ Hl) as (_ & _ & _ & Hagain).
  assert (String.length l <= 50)%nat as Hlen'.
  { unfold sanitize_label in Hl. destruct (label raw) as [|c r]; [discriminate|].
    destruct (all_chars label_char (String c r)); [|discriminate].
    injection Hl as <-. apply Nat.leb_le in Hlen.
    pose proof (length_strip (String c r)). lia. }
  apply Nat.leb_le in Hlen'.
  unfold GroundTruthBox_validate. cbn [confidence label box_id notes].
  rewrite Hconf, Hlen', Hid, Hnotes, Hagain. cbn [andb].
  now destruct (all_chars PyStr.is_space (label raw)).
Qed.

Lemma GroundTruthBox_validate_again_witness :
  let blank :=
    GroundTruthBox.mk 5 5 50 60 1 "  " 16 None false true false None None in
  exists box,
    GroundTruthBox_validate blank = Some box /\
    label box = EmptyString /\
    GroundTruthBox_validate box = None.
Proof.
  eexists. split; [reflexivity|]. split; [reflexivity|].
  apply (GroundTruthBox_validate_again
           (GroundTruthBox.mk 5 5 50 60 1 "  " 16 None false true false None None)).
  reflexivity.
Defined.

End Reload.

(** ** Images that share an identifier *)

Section Shadow.

Implicit Types (st : store) (v : BoxValidation.t)
  (images pre post : list ImageRecord.t) (img : ImageRecord.t).

Lemma kept_refl i post : kept_images i post post.
Proof. unfold kept_images. induction post; constructor; auto. Qed.

Lemma kept_trans i post1 post2 post3 :
  kept_images i post1 post2 -> kept_images i post2 post3 ->
  kept_images i post1 post3.
Proof.
  unfold kept_images. intros H12. revert post3.
  induction H12 as [|p1 p2 l1 l2 [Hid Heq] _ IH]; intros post3 H23.
  - inversion H23. constructor.
  - inversion H23 as [|? p3 ? l3 [Hid' Heq'] Hrest]; subst.
    constructor; [|now apply IH].
    split; [congruence|].
    intros Hi. rewrite Heq' by congruence. now apply Heq.
Qed.

Lemma update_images_other v j i post :
  j <> i -> kept_images i post (fst (update_images v j post)).
Proof.
  intros Hne. induction post as [|p post IH]; [constructor|].
  simpl. destruct (String.eqb_spec (ImageRecord.image_id p) j) as [Hj|_].
  - destruct (update_boxes v (ImageRecord.boxes p)); simpl;
      (constructor; [|apply kept_refl]); split; auto.
    intros Hi. congruence.
  - destruct (update_images v j post). simpl in *.
    constructor; [auto|exact IH].
Qed.

Lemma update_images_shadow v j pre img post :
  exists pre' img' post',
    fst (update_images v j (pre ++ img :: post)) = pre' ++ img' :: post' /\
    length pre' = length pre /\
    ImageRecord.image_id img' = ImageRecord.image_id img /\
    kept_images (ImageRecord.image_id img) post post'.
Proof.
  induction pre as [|x pre (pre' & img' & post' & Heq & Hlen & Hid & Hk)].
  - cbn [app update_images].
    destruct (String.eqb_spec (ImageRecord.image_id img) j) as [Hj|Hj].
    + destruct (update_boxes v (ImageRecord.boxes img)) as [bs|]; simpl.
      * exists [], (ImageRecord.set_boxes bs img), post.
        repeat split; auto using kept_refl.
      * exists [], img, post. repeat split; auto using kept_refl.
    + pose proof (update_images_other v j (ImageRecord.image_id img) post)
        as Hk.
      destruct (update_images v j post) as [rest found]. simpl in *.
      exists [], img, rest. repeat split; auto.
  - cbn [app update_images].
    destruct (String.eqb (ImageRecord.image_id x) j).
    + destruct (update_boxes v (ImageRecord.boxes x)) as [bs|]; simpl.
      * exists (ImageRecord.set_boxes bs x :: pre), img, post.
        repeat split; auto using kept_refl.
      * exists (x :: pre), img, post. repeat split; auto using kept_refl.
    + destruct (update_images v j (pre ++ img :: post)) as [rest found].
      simpl in *. subst rest.
      exists (x :: pre'), img', post'. repeat split; simpl; auto.
Qed.

Lemma validate_boxes_shadow vs pre img post images' :
  validate_boxes vs (pre ++ img :: post) = Ok images' ->
  exists pre' img' post',
    images' = pre' ++ img' :: post' /\
    length pre' = length pre /\
    ImageRecord.image_id img' = ImageRecord.image_id img /\
    kept_images (ImageRecord.image_id img) post post'.
Proof.
  revert pre img post.
  induction vs as [|v vs IH]; intros pre img post; simpl.
  - intros [= <-]. exists pre, img, post. repeat split; auto using kept_refl.
  - unfold validate_box.
    destruct (parse_box_id (BoxValidation.box_id v)) as [|e|j n]; [|discriminate|].
    + apply IH.
    + destruct (update_images_shadow v j pre img post)
        as (pre1 & img1 & post1 & -> & Hlen1 & Hid1 & Hk1).
      intros (pre2 & img2 & post2 & -> & Hlen2 & Hid2 & Hk2)%IH.
      exists pre2, img2, post2. repeat split; try congruence.
      rewrite Hid1 in Hk2. exact (kept_trans _ _ _ _ Hk1 Hk2).
Qed.

(** X12. An image that comes after another image with the same identifier is out
    of reach of every batch: whatever the corrections, it is stored again
    exactly as it was. *)
Theorem later_image_with_same_id_is_untouched
    st session_id vs r st' session_data pre img post :
  st !! session_id = Some session_data ->
  Session.images session_data = pre ++ img :: post ->
  validate_detections st session_id vs = (Ok r, st') ->
  exists session_data' pre' img' post',
    st' !! session_id = Some session_data' /\
    Session.images session_data' = pre' ++ img' :: post' /\
    length pre' = length pre /\
    Forall2 (fun p p' =>
               ImageRecord.image_id p = ImageRecord.image_id img -> p' = p)
      post post'.
Proof.
  intros Hsd Himages. rewrite (validate_detections_eq _ _ _ _ Hsd), Himages.
  destruct (load_boxes (pre ++ img :: post)); [|discriminate].
  destruct (validate_boxes vs (pre ++ img :: post)) as [images'|] eqn:Hv;
    [|discriminate].
  destruct (load_boxes images'); [|discriminate].
  destruct (calculate_true_metrics _ _); [|discriminate].
  intros [= <- <-].
  destruct (validate_boxes_shadow _ _ _ _ _ Hv)
    as (pre' & img' & post' & -> & Hlen & _ & Hk).
  eexists _, pre', img', post'. rewrite lookup_insert_eq.
  split; [reflexivity|]. split; [reflexivity|]. split; [exact Hlen|].
  unfold kept_images in Hk.
  eapply Forall2_impl; [exact Hk|]. intros p p' [_ H]. exact H.
Qed.

Lemma later_image_with_same_id_is_untouched_witness :
  Served.rerun_files !! "s" = Some Served.rerun_session /\
  Session.images Served.rerun_session
  = [] ++ Sample.image "img" 3 :: [Served.rerun_image] /\
  ImageRecord.image_id Served.rerun_image = "img" /\
  exists r st' session_data' pre' img' post',
    validate_detections Served.rerun_files "s"
      [Sample.correction "img_box_0" false] = (Ok r, st') /\
    st' !! "s" = Some session_data' /\
    Session.images session_data' = pre' ++ img' :: post' /\
    length pre' = 0%nat /\
    Forall2 (fun p p' =>
               ImageRecord.image_id p
               = ImageRecord.image_id (Sample.image "img" 3) -> p' = p)
      [Served.rerun_image] post'.
Proof.
  assert (Served.rerun_files !! "s" = Some Served.rerun_session) as Hsd
    by (vm_compute; reflexivity).
  assert (Session.images Served.rerun_session
          = [] ++ Sample.image "img" 3 :: [Served.rerun_image]) as Himg
    by (vm_compute; reflexivity).
  split; [exact Hsd|]. split; [exact Himg|]. split; [vm_compute; reflexivity|].
  destruct (validate_detections Served.rerun_files "s"
              [Sample.correction "img_box_0" false]) as [[r|e] st'] eqn:E.
  2:{ vm_compute in E. discriminate E. }
  destruct (later_image_with_same_id_is_untouched Served.rerun_files "s"
              [Sample.correction "img_box_0" false] r st' Served.rerun_session
              [] (Sample.image "img" 3) [Served.rerun_image] Hsd Himg E)
    as (sd' & pre' & img' & post' & H1 & H2 & H3 & H4).
  exists r, st', sd', pre', img', post'.
  split; [reflexivity|]. split; [exact H1|]. split; [exact H2|].
  split; [exact H3|exact H4].
Defined.

End Shadow.

(** ** The response of a batch *)

Section Response.

Import GroundTruthBox.
Implicit Types (st : store).

(** X22. In the response of a batch that succeeds, [verified_count] is the
    [total_verified] of the metrics and does not exceed [total_boxes], the
    true and false positives together do not exceed it either, and
    [total_images] is the number of images the session had. *)
Theorem validate_detections_response st session_id vs r st' session_data :
  st !! session_id = Some session_data ->
  validate_detections st session_id vs = (Ok r, st') ->
  ValidationResponse.verified_count r
  = TrueMetrics.total_verified (ValidationResponse.metrics r) /\
  (TrueMetrics.true_positives (ValidationResponse.metrics r) +
   TrueMetrics.false_positives (ValidationResponse.metrics r)
   <= ValidationResponse.verified_count r
   <= ValidationResponse.total_boxes r)%nat /\
  ValidationResponse.total_images r = length (Session.images session_data) /\
  ValidationResponse.session_id r = session_id.
Proof.
  intros Hsd. rewrite (validate_detections_eq _ _ _ _ Hsd).
  destruct (load_boxes (Session.images session_data)); [|discriminate].
  destruct (validate_boxes vs (Session.images session_data)) as [images'|] eqn:Hv;
    [|discriminate].
  destruct (load_boxes images'); [|discriminate].
  destruct (calculate_true_metrics _ _) as [tm|] eqn:Htm; [|discriminate].
  intros [= <- <-]. cbn.
  apply calculate_true_metrics_Some in Htm. subst tm.
  destruct (true_metrics_args_counts (all_boxes images')
              (match last (Session.images session_data) with
               | Some image_data => ImageRecord.yolo_metrics image_data
               | None => YoloMetrics.empty
               end)) as (Htp & Hfp & Htot & _).
  cbv zeta in Htp, Hfp, Htot. rewrite Htp, Hfp, Htot.
  split; [reflexivity|]. split; [split|].
  - change (count is_verified (all_boxes images'))
      with (length (List.filter is_verified (all_boxes images'))).
    rewrite (verified_split (List.filter is_verified (all_boxes images'))),
      !count_filter. lia.
  - apply List.filter_length_le.
  - split; [|reflexivity].
    apply validate_boxes_meta in Hv. apply (f_equal (@length _)) in Hv.
    now rewrite !length_map in Hv.
Qed.

Lemma validate_detections_response_witness :
  Sample.files !! "s" = Some Sample.session /\
  exists r st',
    validate_detections Sample.files "s" [Sample.correction "img_box_0" true]
    = (Ok r, st') /\
    ValidationResponse.verified_count r
    = TrueMetrics.total_verified (ValidationResponse.metrics r) /\
    ValidationResponse.total_images r = 1%nat.
Proof.
  split; [reflexivity|].
  destruct (validate_detections Sample.files "s"
              [Sample.correction "img_box_0" true]) as [[r|e] st'] eqn:E.
  2:{ vm_compute in E. discriminate E. }
  exists r, st'. split; [reflexivity|].
  destruct (validate_detections_response Sample.files "s"
              [Sample.correction "img_box_0" true] r st' Sample.session
              eq_refl E) as (H1 & _ & H2 & _).
  split; [exact H1|exact H2].
Defined.

End Response.
